(** * VisualizeGit: the Git learning course of [vgit/animations/push.py]

    A shallow embedding of the simulated repository, the animator, the
    lessons, the practice runner and the command-line entry point, and
    the properties of them that the specification states.

    Modelling conventions.
    - Python [int] is [Z] (unbounded).  [int(s)] on a text follows
      CPython 3.11: white space (the characters 9 to 13 and the space),
      a sign, digits with single underscores between them, white space;
      more than 4300 digits are refused (the default limit, which the
      program does not change).  The same limit on [str(n)] is left
      out.
    - Python [float] is a number of [Q].  The floats whose value reaches
      the output, the fractions of [progress_bar] and [show_progress],
      are doubles: each operation gives the double nearest to the exact
      result, ties to even ([round_double]), and a quotient of two
      integers that is too large raises [OverflowError].  A product too
      large for a double (Python's [inf]) and the sign of a zero are
      left out.  The lengths of the pauses ([delay] and the arguments of
      [time.sleep]) are kept as exact rationals: the program never
      prints them and only asks whether they are negative.  [int(x)] on
      a float truncates toward zero;  [time.sleep] refuses a negative
      length.
    - Python [str] is [string] (a byte string holding the UTF-8 bytes of
      the source literals).  Text typed by the user and command-line
      arguments are taken to be ASCII; [repr] escapes as Python does on
      ASCII text.
    - Console output, flushes and sleeps are recorded in a trace of
      [event]s;  [print(x)] writes [x] followed by a line break.
    - Every method runs in the monad [M]: it reads and updates the
      program [State], appends to the trace, and either returns or
      raises an [exn].  The state survives a raise, as Python's heap does.
    - Commit lists are Python [list] objects: they live in a heap of
      cells and a [Branch] holds the address of its list, so that two
      branches may or may not share one list.
    - [random] and [time.strftime] are oracles of the [World]. *)

From Stdlib Require Import ZArith QArith Qround Qabs Qpower String Ascii List.
From Stdlib Require Import Lia Lqa.
From stdpp Require Import gmap strings list pretty.

Local Open Scope Z_scope.

(** ** Strings *)

Definition NL : string := String "010"%char EmptyString.
Definition CR : string := String "013"%char EmptyString.
Definition ESC : string := String "027"%char EmptyString.
Definition DQ : string := String "034"%char EmptyString.

(** [s * n] on a Python string. *)
Definition str_mul (s : string) (n : Z) : string :=
  Nat.iter (Z.to_nat n) (String.append s) EmptyString.

(** [str(n)] and the [{n}] of an f-string, for an integer. *)
Definition str_of_int (n : Z) : string := pretty n.

(** A lowercase hexadecimal digit. *)
Definition hex_char (n : nat) : ascii :=
  nth n (list_ascii_of_string "0123456789abcdef") "0"%char.

(** One character of [repr(s)] inside the quotes [quote]: the quote and
    the backslash are escaped, and so are the control characters. *)
Definition repr_char (quote c : ascii) : string :=
  let n := nat_of_ascii c in
  if Ascii.eqb c quote || Ascii.eqb c "092"
  then String "092" (String c EmptyString)
  else if (n =? 9)%nat then String "092" "t"
  else if (n =? 10)%nat then String "092" "n"
  else if (n =? 13)%nat then String "092" "r"
  else if (n <? 32)%nat || (n =? 127)%nat
  then String "092" (String "x" (String (hex_char (n / 16))
                                   (String (hex_char (n mod 16)) EmptyString)))
  else String c EmptyString.

(** [repr(s)]: in single quotes, unless the text holds a single quote
    and no double quote. *)
Definition repr_str (s : string) : string :=
  let chars := list_ascii_of_string s in
  let has c := existsb (Ascii.eqb c) chars in
  let quote : ascii := if has "039"%char && negb (has "034"%char)
                       then "034"%char else "039"%char in
  String quote
    (fold_right (fun c r => repr_char quote c +:+ r)
                (String quote EmptyString) chars).

(** The first [n] characters of a text. *)
Fixpoint str_take (n : nat) (s : string) : string :=
  match n, s with
  | S n', String c s' => String c (str_take n' s')
  | _, _ => EmptyString
  end.

(** Is every character of the text an ASCII character? *)
Definition is_ascii (s : string) : bool :=
  forallb (fun c => (nat_of_ascii c <? 128)%nat) (list_ascii_of_string s).

(** [needle in s]. *)
Fixpoint contains (needle s : string) : bool :=
  String.prefix needle s ||
  match s with
  | EmptyString => false
  | String _ s' => contains needle s'
  end.

Definition is_space (c : ascii) : bool :=
  let n := nat_of_ascii c in
  ((9 <=? n)%nat && (n <=? 13)%nat) || ((28 <=? n)%nat && (n <=? 32)%nat).

Fixpoint lstrip (s : string) : string :=
  match s with
  | String c s' => if is_space c then lstrip s' else s
  | EmptyString => EmptyString
  end.

Definition str_rev (s : string) : string :=
  string_of_list_ascii (rev (list_ascii_of_string s)).

(** [s.strip()]. *)
Definition strip (s : string) : string := str_rev (lstrip (str_rev (lstrip s))).

Definition lower_char (c : ascii) : ascii :=
  let n := nat_of_ascii c in
  if ((65 <=? n)%nat && (n <=? 90)%nat) then ascii_of_nat (n + 32) else c.

(** [s.lower()]. *)
Definition lower (s : string) : string :=
  string_of_list_ascii (map lower_char (list_ascii_of_string s)).

(** ** Numbers *)

(** [int(x)] for a float [x]. *)
Definition int_of_float (x : Q) : Z := Z.quot (Qnum x) (Zpos (Qden x)).

(** Rounding to the nearest integer, ties to even. *)
Definition round_half_even (x : Q) : Z :=
  let f := Qfloor x in
  let r := (x - inject_Z f)%Q in
  match (r ?= 1 # 2)%Q with
  | Lt => f
  | Gt => f + 1
  | Eq => if Z.even f then f else f + 1
  end.

(** The [{x:.1f}] of an f-string. *)
Definition format_1f (x : Q) : string :=
  let t := round_half_even (x * 10)%Q in
  let a := Z.abs t in
  (if Qle_bool 0 x then EmptyString else "-")
    +:+ str_of_int (a / 10) +:+ "." +:+ str_of_int (a mod 10).

(** *** Doubles *)

(** [2 ** e]. *)
Definition pow2 (e : Z) : Q := Qpower 2 e.

(** The exponent of the leading bit of a positive rational. *)
Definition floor_log2 (x : Q) : Z :=
  let k := Z.log2 (Qnum x) - Z.log2 (Zpos (Qden x)) in
  if Qle_bool (pow2 k) x then k else k - 1.

(** The double nearest to a rational, ties to even: 53 significant bits,
    and no bit below [2 ** -1074]. *)
Definition round_double (x : Q) : Q :=
  let y := Qred x in
  let a := Qabs y in
  if Qeq_bool y 0 then 0%Q
  else
    let e := Z.max (floor_log2 a - 52) (-1074) in
    let m := round_half_even (a / pow2 e) in
    Qred (inject_Z (Z.sgn (Qnum y) * m) * pow2 e).

(** [x * y] on two floats. *)
Definition float_mul (x y : Q) : Q := round_double (x * y).

(** [s[start:]] on a list. *)
Definition slice_from {A} (start : Z) (l : list A) : list A :=
  let n := Z.of_nat (length l) in
  let i := if start <? 0 then Z.max 0 (n + start) else Z.min start n in
  drop (Z.to_nat i) l.

(** [range(n)]. *)
Definition range (n : Z) : list Z := map Z.of_nat (seq 0 (Z.to_nat n)).

(** A [dict] with string keys: insertion-ordered, one entry per key. *)
Definition dict (V : Type) := list (string * V).

Fixpoint dict_get {V} (k : string) (d : dict V) : option V :=
  match d with
  | [] => None
  | (k', v) :: d' => if String.eqb k' k then Some v else dict_get k d'
  end.

(** [d[k] = v]: an existing key keeps its position. *)
Fixpoint dict_set {V} (k : string) (v : V) (d : dict V) : dict V :=
  match d with
  | [] => [(k, v)]
  | (k', v') :: d' =>
      if String.eqb k' k then (k', v) :: d' else (k', v') :: dict_set k v d'
  end.

(** ** Data model *)

Record Commit := {
  hash : string;
  message : string;
  author : string;
  timestamp : string
}.

(** Address of a [list] object of commits. *)
Definition loc := positive.

Record Branch := {
  Branch_name : string;
  commits : loc;
  is_current : bool
}.

Record GitRepository := {
  name : string;
  branches : dict Branch;
  current_branch : string;
  staged_files : list string;
  working_files : list string;
  remote_url : string;
  is_initialized : bool
}.

Record GitAnimator := {
  speed : Q;
  delay : Q
}.

Record GitLearningSystem := {
  repo : GitRepository;
  animator : GitAnimator;
  lessons_completed : Z;
  total_lessons : Z
}.

(** ** The world around the program *)

Inductive stdin_item :=
| Line (s : string)   (* a line typed by the user, without its line break *)
| CtrlC.              (* an interrupt while the program waits for input *)

Record World := {
  heap : gmap loc (list Commit);
  random_draws : nat -> nat;      (* the draws of the random generator *)
  random_pos : nat;
  strftime_results : nat -> string;
  strftime_pos : nat;
  stdin : list stdin_item
}.

Record State := {
  system : GitLearningSystem;
  world : World
}.

Inductive event :=
| Out (s : string)    (* text written to standard output *)
| Flush
| Sleep (d : Q).

Inductive exn :=
| ZeroDivisionError (msg : string)
| OverflowError (msg : string)
| KeyError (key : string)
| ValueError (msg : string)
| IndexError (msg : string)
| EOFError (msg : string)
| KeyboardInterrupt.

(** [except Exception] catches everything but the interrupt. *)
Definition is_Exception (e : exn) : bool :=
  match e with
  | KeyboardInterrupt => false
  | _ => true
  end.

(** [str(e)]. *)
Definition exn_str (e : exn) : string :=
  match e with
  | ZeroDivisionError msg | OverflowError msg | ValueError msg
  | IndexError msg | EOFError msg => msg
  | KeyError key => repr_str key
  | KeyboardInterrupt => EmptyString
  end.

(** ** The monad of methods *)

Inductive outcome (A : Type) :=
| Return (a : A)
| Raise (e : exn).
Arguments Return {A} a.
Arguments Raise {A} e.

Definition M (A : Type) : Type := State -> list event * outcome A * State.

Definition ret {A} (a : A) : M A := fun st => ([], Return a, st).

Definition bind {A B} (m : M A) (f : A -> M B) : M B := fun st =>
  match m st with
  | (t1, Return a, st1) =>
      match f a st1 with
      | (t2, r, st2) => (t1 ++ t2, r, st2)
      end
  | (t1, Raise e, st1) => (t1, Raise e, st1)
  end.

Declare Scope py_scope.
Delimit Scope py_scope with py.
Notation "x <- m ;; k" := (bind m (fun x => k))
  (at level 100, m at next level, right associativity) : py_scope.
Notation "m ;; k" := (bind m (fun _ => k))
  (at level 100, right associativity) : py_scope.
Local Open Scope py_scope.

Definition raise {A} (e : exn) : M A := fun st => ([], Raise e, st).
Definition emit (e : event) : M unit := fun st => ([e], Return tt, st).
Definition get_state : M State := fun st => ([], Return st, st).
Definition put_state (st : State) : M unit := fun _ => ([], Return tt, st).

(** [try: body except KeyboardInterrupt: on_interrupt except Exception as e: on_error(e)]. *)
Definition try_except (body : M unit) (on_interrupt : M unit)
    (on_error : exn -> M unit) : M unit := fun st =>
  match body st with
  | (t1, Return a, st1) => (t1, Return a, st1)
  | (t1, Raise e, st1) =>
      match (if is_Exception e then on_error e else on_interrupt) st1 with
      | (t2, r, st2) => (t1 ++ t2, r, st2)
      end
  end.

(** [for x in l: body(x)]. *)
Fixpoint for_each {A} (l : list A) (body : A -> M unit) : M unit :=
  match l with
  | [] => ret tt
  | x :: l' => body x ;; for_each l' body
  end.

(** *** Accessors *)

Definition get_system : M GitLearningSystem :=
  st <- get_state ;; ret (system st).
Definition get_world : M World :=
  st <- get_state ;; ret (world st).
Definition put_system (s : GitLearningSystem) : M unit :=
  st <- get_state ;; put_state {| system := s; world := world st |}.
Definition put_world (w : World) : M unit :=
  st <- get_state ;; put_state {| system := system st; world := w |}.

Definition get_repo : M GitRepository := s <- get_system ;; ret (repo s).
Definition put_repo (r : GitRepository) : M unit :=
  s <- get_system ;;
  put_system {| repo := r; animator := animator s;
                lessons_completed := lessons_completed s;
                total_lessons := total_lessons s |}.
Definition get_animator : M GitAnimator := s <- get_system ;; ret (animator s).

Definition set_heap (h : gmap loc (list Commit)) (w : World) : World :=
  {| heap := h; random_draws := random_draws w; random_pos := random_pos w;
     strftime_results := strftime_results w; strftime_pos := strftime_pos w;
     stdin := stdin w |}.

(** *** Console and clock *)

(** [sys.stdout.write(s)]. *)
Definition write (s : string) : M unit := emit (Out s).
(** [sys.stdout.flush()]. *)
Definition flush : M unit := emit Flush.
(** [print(s)]. *)
Definition print (s : string) : M unit := emit (Out (s +:+ NL)).

(** [time.sleep(d)]: a negative length is refused. *)
Definition sleep (d : Q) : M unit :=
  if Qle_bool 0 d then emit (Sleep d)
  else raise (ValueError "sleep length must be non-negative").

(** [input(prompt)]. *)
Definition input (prompt : string) : M string :=
  write prompt ;;
  w <- get_world ;;
  match stdin w with
  | [] => raise (EOFError "EOF when reading a line")
  | item :: rest =>
      put_world {| heap := heap w; random_draws := random_draws w;
                   random_pos := random_pos w;
                   strftime_results := strftime_results w;
                   strftime_pos := strftime_pos w; stdin := rest |} ;;
      match item with
      | Line s => ret s
      | CtrlC => raise KeyboardInterrupt
      end
  end.

(** [a / b] on two ints: the double nearest to the quotient. *)
Definition true_div (a b : Z) : M Q :=
  if b =? 0 then raise (ZeroDivisionError "division by zero")
  else
    let x := round_double (inject_Z a / inject_Z b) in
    if Qle_bool (pow2 1024) (Qabs x)
    then raise (OverflowError "integer division result too large for a float")
    else ret x.

(** [a / b] on two floats, outside of any method. *)
Definition float_div_outcome (a b : Q) : outcome Q :=
  if Qeq_bool b 0 then Raise (ZeroDivisionError "float division by zero")
  else Return (a / b)%Q.

(** An outcome computed without the state, as a step of a method. *)
Definition lift {A} (o : outcome A) : M A := fun st => ([], o, st).

(** [a / b] on two floats. *)
Definition float_div (a b : Q) : M Q := lift (float_div_outcome a b).

(** *** Lists of commits in the heap *)

(** A new [list] object holding [cs]. *)
Definition new_list (cs : list Commit) : M loc :=
  w <- get_world ;;
  let l := fresh (dom (heap w)) in
  put_world (set_heap (<[l := cs]> (heap w)) w) ;;
  ret l.

(** The contents of the list at [l]. *)
Definition read_list (l : loc) : M (list Commit) :=
  w <- get_world ;; ret (default [] (heap w !! l)).

(** [l.append(c)]. *)
Definition list_append (l : loc) (c : Commit) : M unit :=
  w <- get_world ;;
  put_world (set_heap (<[l := default [] (heap w !! l) ++ [c]]> (heap w)) w).

(** [l.copy()]. *)
Definition list_copy (l : loc) : M loc :=
  cs <- read_list l ;; new_list cs.

(** ** Color *)

Module Color.
Definition RED : string := ESC +:+ "[91m".
Definition GREEN : string := ESC +:+ "[92m".
Definition YELLOW : string := ESC +:+ "[93m".
Definition BLUE : string := ESC +:+ "[94m".
Definition MAGENTA : string := ESC +:+ "[95m".
Definition CYAN : string := ESC +:+ "[96m".
Definition WHITE : string := ESC +:+ "[97m".
Definition BOLD : string := ESC +:+ "[1m".
Definition END : string := ESC +:+ "[0m".
End Color.

(** The non-ASCII literals of the source file, byte for byte. *)
Module Glyph.
Definition BLOCK_FULL : string := "â–ˆ".
Definition BLOCK_LIGHT : string := "â–‘".
Definition CHECK_MARK : string := "âœ“".
Definition CROSS_MARK : string := "âœ—".
Definition ARROW_DOWN : string := "â†“".
Definition ARROW_RIGHT : string := "â†’".
Definition BULLET : string := "â€¢".
Definition GRADUATION : string := "ðŸŽ“".
Definition PAGE : string := "ðŸ“„".
Definition PARTY : string := "ðŸŽ‰".
End Glyph.

Import Color.

(** ** GitRepository *)

(** [GitRepository.__init__]. *)
Definition GitRepository_init (name : string) : GitRepository :=
  {| name := name;
     branches := [];
     current_branch := "main";
     staged_files := [];
     working_files := [];
     remote_url := "https://github.com/user/" +:+ name +:+ ".git";
     is_initialized := false |}.

(** One draw of the random generator. *)
Definition random_draw : M nat :=
  w <- get_world ;;
  put_world {| heap := heap w; random_draws := random_draws w;
               random_pos := S (random_pos w);
               strftime_results := strftime_results w;
               strftime_pos := strftime_pos w; stdin := stdin w |} ;;
  ret (random_draws w (random_pos w)).

(** [random.choices(population, k=k)]: [k] independent picks. *)
Fixpoint random_choices (population : string) (k : nat) : M (list ascii) :=
  match k with
  | O => ret []
  | S k' =>
      r <- random_draw ;;
      match String.get (r mod String.length population)%nat population with
      | Some c => cs <- random_choices population k' ;; ret (c :: cs)
      | None => raise (IndexError "list index out of range")
      end
  end.

Definition generate_commit_hash : M string :=
  let chars := "abcdef0123456789" in
  cs <- random_choices chars 7 ;;
  ret (string_of_list_ascii cs).

(** [time.strftime("%Y-%m-%d %H:%M:%S")]. *)
Definition get_current_time : M string :=
  w <- get_world ;;
  put_world {| heap := heap w; random_draws := random_draws w;
               random_pos := random_pos w;
               strftime_results := strftime_results w;
               strftime_pos := S (strftime_pos w); stdin := stdin w |} ;;
  ret (strftime_results w (strftime_pos w)).

(** ** GitAnimator *)

(** [GitAnimator.__init__]. *)
Definition GitAnimator_init (speed : Q) : outcome GitAnimator :=
  match float_div_outcome (1 # 2) speed with
  | Return d => Return {| speed := speed; delay := d |}
  | Raise e => Raise e
  end.

Definition typewriter (self : GitAnimator) (text : string) (color : string)
    : M unit :=
  for_each (list_ascii_of_string text) (fun char =>
    write (color +:+ String char EmptyString +:+ END) ;;
    flush ;;
    d <- float_div (3 # 100) (speed self) ;;
    sleep d) ;;
  print EmptyString.

(** One frame of the progress bar: [filled] cells out of [bar_length]. *)
Definition progress_frame (bar_length : Z) (description : string)
    (filled percent : Z) : string :=
  let bar := str_mul Glyph.BLOCK_FULL filled
             +:+ str_mul Glyph.BLOCK_LIGHT (bar_length - filled) in
  CR +:+ CYAN +:+ description +:+ ": " +:+ GREEN +:+ "[" +:+ bar +:+ "] "
     +:+ str_of_int percent +:+ "%" +:+ END.

Definition progress_bar (self : GitAnimator) (steps : Z) (description : string)
    : M unit :=
  let bar_length := 30 in
  for_each (range (steps + 1)) (fun i =>
    progress <- true_div i steps ;;
    let filled := int_of_float (float_mul (inject_Z bar_length) progress) in
    let percent := int_of_float (float_mul progress 100) in
    write (progress_frame bar_length description filled percent) ;;
    flush ;;
    sleep (delay self)) ;;
  print EmptyString.

(** [enumerate(l)]. *)
Definition enumerate {A} (l : list A) : list (Z * A) :=
  imap (fun i x => (Z.of_nat i, x)) l.

Definition commit_flow (self : GitAnimator) (commit : Commit) : M unit :=
  print (NL +:+ YELLOW +:+ "Creating commit..." +:+ END) ;;
  sleep (delay self) ;;
  print (GREEN +:+ Glyph.CHECK_MARK +:+ END +:+ " Commit " +:+ BOLD
           +:+ hash commit +:+ END) ;;
  print ("  Author: " +:+ CYAN +:+ author commit +:+ END) ;;
  print ("  Date: " +:+ timestamp commit) ;;
  print ("  Message: " +:+ WHITE +:+ message commit +:+ END) ;;
  let flow := ["Working Directory"; "Staging Area"; "Local Repository"] in
  for_each (enumerate flow) (fun '(i, stage) =>
    (if 0 <? i then print (GREEN +:+ "    " +:+ Glyph.ARROW_DOWN +:+ END)
     else ret tt) ;;
    print ("  " +:+ BOLD +:+ stage +:+ END) ;;
    sleep (delay self)).

(** The text that announces the upload of commit [i+1] of [commits]. *)
Definition upload_indicator (i commits : Z) : string :=
  CR +:+ CYAN +:+ "Uploading commit " +:+ str_of_int (i + 1) +:+ "/"
     +:+ str_of_int commits +:+ " ".

Definition push_animation (self : GitAnimator) (commits : Z)
    (remote branch : string) : M unit :=
  print (NL +:+ MAGENTA +:+ "Pushing " +:+ str_of_int commits
            +:+ " commit(s) to " +:+ remote +:+ "/" +:+ branch +:+ "..."
            +:+ END) ;;
  progress_bar self 3 "Establishing connection" ;;
  for_each (range commits) (fun i =>
    write (upload_indicator i commits) ;;
    for_each (range 3) (fun j =>
      write (GREEN +:+ Glyph.ARROW_RIGHT +:+ END) ;;
      flush ;;
      sleep (delay self / 3)%Q)) ;;
  print (NL +:+ GREEN +:+ Glyph.CHECK_MARK +:+ " Push completed successfully!"
            +:+ END) ;;
  print ("  " +:+ Glyph.ARROW_RIGHT +:+ " " +:+ BLUE +:+ remote +:+ "/"
              +:+ branch +:+ END).

(** The line of one branch in a listing: marker, colour and name. *)
Definition branch_line (repo : GitRepository) (branch_name : string) : string :=
  let current := if String.eqb branch_name (current_branch repo)
                 then "* " else "  " in
  let color := if String.eqb branch_name (current_branch repo)
               then GREEN else WHITE in
  color +:+ current +:+ branch_name +:+ END.

(** The line of one commit in a listing. *)
Definition commit_line (commit : Commit) : string :=
  YELLOW +:+ hash commit +:+ END +:+ " " +:+ message commit.

Definition branch_visualization (self : GitAnimator) (repo : GitRepository)
    : M unit :=
  print (NL +:+ BOLD +:+ "Repository: " +:+ name repo +:+ END) ;;
  print "Branch structure:" ;;
  for_each (branches repo) (fun '(branch_name, branch) =>
    print (branch_line repo branch_name) ;;
    cs <- read_list (commits branch) ;;
    let recent_commits :=
      if 3 <? Z.of_nat (length cs) then slice_from (-3) cs else cs in
    for_each (rev recent_commits) (fun commit =>
      print ("    " +:+ commit_line commit))).

(** ** GitLearningSystem *)

(** [GitLearningSystem.__init__]. *)
Definition GitLearningSystem_init : outcome GitLearningSystem :=
  match GitAnimator_init 1 with
  | Return a =>
      Return {| repo := GitRepository_init "my-project";
                animator := a;
                lessons_completed := 0;
                total_lessons := 10 |}
  | Raise e => Raise e
  end.

(** *** Assignments to attributes *)

Definition set_is_initialized (b : bool) (r : GitRepository) : GitRepository :=
  {| name := name r; branches := branches r;
     current_branch := current_branch r; staged_files := staged_files r;
     working_files := working_files r; remote_url := remote_url r;
     is_initialized := b |}.

Definition set_branches (d : dict Branch) (r : GitRepository) : GitRepository :=
  {| name := name r; branches := d;
     current_branch := current_branch r; staged_files := staged_files r;
     working_files := working_files r; remote_url := remote_url r;
     is_initialized := is_initialized r |}.

Definition set_current_branch (b : string) (r : GitRepository) : GitRepository :=
  {| name := name r; branches := branches r;
     current_branch := b; staged_files := staged_files r;
     working_files := working_files r; remote_url := remote_url r;
     is_initialized := is_initialized r |}.

Definition set_staged_files (l : list string) (r : GitRepository) : GitRepository :=
  {| name := name r; branches := branches r;
     current_branch := current_branch r; staged_files := l;
     working_files := working_files r; remote_url := remote_url r;
     is_initialized := is_initialized r |}.

Definition set_working_files (l : list string) (r : GitRepository) : GitRepository :=
  {| name := name r; branches := branches r;
     current_branch := current_branch r; staged_files := staged_files r;
     working_files := l; remote_url := remote_url r;
     is_initialized := is_initialized r |}.

Definition set_speed (s : Q) (a : GitAnimator) : GitAnimator :=
  {| speed := s; delay := delay a |}.

Definition set_animator (a : GitAnimator) (s : GitLearningSystem)
    : GitLearningSystem :=
  {| repo := repo s; animator := a;
     lessons_completed := lessons_completed s;
     total_lessons := total_lessons s |}.

Definition modify_repo (f : GitRepository -> GitRepository) : M unit :=
  r <- get_repo ;; put_repo (f r).

(** [self.lessons_completed += 1]. *)
Definition incr_lessons_completed : M unit :=
  s <- get_system ;;
  put_system {| repo := repo s; animator := animator s;
                lessons_completed := lessons_completed s + 1;
                total_lessons := total_lessons s |}.

(** [self.repo.branches[key]]. *)
Definition lookup_branch (key : string) : M Branch :=
  r <- get_repo ;;
  match dict_get key (branches r) with
  | Some b => ret b
  | None => raise (KeyError key)
  end.

(** *** Lessons *)

Definition welcome_text : string :=
  NL +:+ BOLD +:+ CYAN +:+ Glyph.GRADUATION
     +:+ " Welcome to Git Learning Automation! " +:+ Glyph.GRADUATION
     +:+ END +:+ NL
     +:+ NL
     +:+ "This interactive system will teach you Git through:" +:+ NL
     +:+ Glyph.BULLET +:+ " Animated command demonstrations" +:+ NL
     +:+ Glyph.BULLET +:+ " Hands-on practice exercises" +:+ NL
     +:+ Glyph.BULLET +:+ " Real-time feedback and tips" +:+ NL
     +:+ Glyph.BULLET +:+ " Progressive skill building" +:+ NL
     +:+ NL
     +:+ "Let's start your Git journey!" +:+ NL.

Definition welcome : M unit :=
  print welcome_text ;;
  sleep 2.

Definition lesson_init : M unit :=
  print (NL +:+ BOLD +:+ "=== Lesson 1: Repository Initialization ===" +:+ END) ;;
  a <- get_animator ;;
  typewriter a "Let's create your first Git repository!" WHITE ;;
  print (NL +:+ YELLOW +:+ "$ git init" +:+ END) ;;
  a <- get_animator ;;
  progress_bar a 5 "Initializing repository" ;;
  modify_repo (set_is_initialized true) ;;
  l <- new_list [] ;;
  r <- get_repo ;;
  put_repo (set_branches
              (dict_set "main" {| Branch_name := "main"; commits := l;
                                  is_current := true |} (branches r)) r) ;;
  r <- get_repo ;;
  print (GREEN +:+ Glyph.CHECK_MARK
           +:+ " Initialized empty Git repository in ./" +:+ name r
           +:+ "/.git/" +:+ END) ;;
  incr_lessons_completed.

Definition student : string := "Student <student@example.com>".

Definition lesson_add_commit : M unit :=
  print (NL +:+ BOLD +:+ "=== Lesson 2: Adding and Committing Files ===" +:+ END) ;;
  let files := ["README.md"; "main.py"; "requirements.txt"] in
  r <- get_repo ;;
  put_repo (set_working_files (working_files r ++ files) r) ;;
  a <- get_animator ;;
  typewriter a "Files created in working directory:" WHITE ;;
  for_each files (fun file =>
    print ("  " +:+ CYAN +:+ Glyph.PAGE +:+ " " +:+ file +:+ END)) ;;
  print (NL +:+ YELLOW +:+ "$ git add ." +:+ END) ;;
  a <- get_animator ;;
  progress_bar a 3 "Staging files" ;;
  modify_repo (set_staged_files files) ;;
  print (NL +:+ YELLOW +:+ "$ git commit -m " +:+ DQ +:+ "Initial commit"
            +:+ DQ +:+ END) ;;
  h <- generate_commit_hash ;;
  t <- get_current_time ;;
  let commit := {| hash := h; message := "Initial commit";
                   author := student; timestamp := t |} in
  a <- get_animator ;;
  commit_flow a commit ;;
  b <- lookup_branch "main" ;;
  list_append (commits b) commit ;;
  incr_lessons_completed.

Definition lesson_branching : M unit :=
  print (NL +:+ BOLD +:+ "=== Lesson 3: Branching and Merging ===" +:+ END) ;;
  print (NL +:+ YELLOW +:+ "$ git branch feature-auth" +:+ END) ;;
  a <- get_animator ;;
  typewriter a "Creating new branch 'feature-auth'..." WHITE ;;
  b <- lookup_branch "main" ;;
  l <- list_copy (commits b) ;;
  let new_branch := {| Branch_name := "feature-auth"; commits := l;
                       is_current := false |} in
  r <- get_repo ;;
  put_repo (set_branches (dict_set "feature-auth" new_branch (branches r)) r) ;;
  print (NL +:+ YELLOW +:+ "$ git checkout feature-auth" +:+ END) ;;
  a <- get_animator ;;
  typewriter a "Switching to branch 'feature-auth'..." WHITE ;;
  modify_repo (set_current_branch "feature-auth") ;;
  h1 <- generate_commit_hash ;;
  t1 <- get_current_time ;;
  h2 <- generate_commit_hash ;;
  t2 <- get_current_time ;;
  let feature_commits :=
    [ {| hash := h1; message := "Add login functionality";
         author := student; timestamp := t1 |};
      {| hash := h2; message := "Add password validation";
         author := student; timestamp := t2 |} ] in
  for_each feature_commits (fun commit =>
    sleep 1 ;;
    a <- get_animator ;;
    commit_flow a commit ;;
    b <- lookup_branch "feature-auth" ;;
    list_append (commits b) commit) ;;
  a <- get_animator ;;
  r <- get_repo ;;
  branch_visualization a r ;;
  incr_lessons_completed.

Definition lesson_push : M unit :=
  print (NL +:+ BOLD +:+ "=== Lesson 4: Pushing to Remote ===" +:+ END) ;;
  a <- get_animator ;;
  r <- get_repo ;;
  typewriter a ("Remote repository: " +:+ remote_url r) WHITE ;;
  r <- get_repo ;;
  print (NL +:+ YELLOW +:+ "$ git push origin " +:+ current_branch r +:+ END) ;;
  r <- get_repo ;;
  current <- lookup_branch (current_branch r) ;;
  cs <- read_list (commits current) ;;
  let commit_count := Z.of_nat (length cs) in
  a <- get_animator ;;
  r <- get_repo ;;
  push_animation a commit_count "origin" (current_branch r) ;;
  incr_lessons_completed.

(** *** Quiz *)

Record Question := {
  question : string;
  options : list string;
  correct : string;
  explanation : string
}.

Definition questions : list Question :=
  [ {| question := "What command initializes a new Git repository?";
       options := ["a) git start"; "b) git init"; "c) git create"; "d) git new"];
       correct := "b";
       explanation :=
         "git init creates a new Git repository in the current directory." |};
    {| question := "What's the correct order for adding and committing files?";
       options := ["a) commit, then add"; "b) add, then commit";
                   "c) push, then add"; "d) merge, then commit"];
       correct := "b";
       explanation :=
         "Files must be staged with 'git add' before they can be committed with 'git commit'." |} ].

(** [for x in l: acc = body(x, acc)], for a loop that updates a local. *)
Fixpoint for_fold {A S} (l : list A) (acc : S) (body : A -> S -> M S) : M S :=
  match l with
  | [] => ret acc
  | x :: l' => acc' <- body x acc ;; for_fold l' acc' body
  end.

(** [enumerate(l, 1)]. *)
Definition enumerate_from_1 {A} (l : list A) : list (Z * A) :=
  imap (fun i x => (Z.of_nat i + 1, x)) l.

Definition interactive_quiz : M Z :=
  print (NL +:+ BOLD +:+ "=== Quick Quiz ===" +:+ END) ;;
  score <- for_fold (enumerate_from_1 questions) 0 (fun '(i, q) score =>
    print (NL +:+ CYAN +:+ "Question " +:+ str_of_int i +:+ ": "
              +:+ question q +:+ END) ;;
    for_each (options q) (fun option => print ("  " +:+ option)) ;;
    line <- input (NL +:+ YELLOW +:+ "Your answer: " +:+ END) ;;
    let answer := strip (lower line) in
    score' <- (if String.eqb answer (correct q)
               then print (GREEN +:+ Glyph.CHECK_MARK +:+ " Correct!" +:+ END) ;;
                    ret (score + 1)
               else print (RED +:+ Glyph.CROSS_MARK +:+ " Incorrect." +:+ END) ;;
                    ret score) ;;
    print (WHITE +:+ "Explanation: " +:+ explanation q +:+ END) ;;
    sleep 2 ;;
    ret score') ;;
  print (NL +:+ BOLD +:+ "Quiz Score: " +:+ str_of_int score +:+ "/"
            +:+ str_of_int (Z.of_nat (length questions)) +:+ END) ;;
  ret score.

(** *** Practice mode *)

Definition simulate_status : M unit :=
  r <- get_repo ;;
  print (GREEN +:+ "On branch " +:+ current_branch r +:+ END) ;;
  print "Your branch is up to date with 'origin/main'." ;;
  print (NL +:+ "nothing to commit, working tree clean").

Definition simulate_log : M unit :=
  r <- get_repo ;;
  current <- lookup_branch (current_branch r) ;;
  cs <- read_list (commits current) ;;
  for_each (rev (slice_from (-5) cs)) (fun commit =>
    print (commit_line commit)).

Definition simulate_branch_list : M unit :=
  r <- get_repo ;;
  for_each (map fst (branches r)) (fun branch_name =>
    r <- get_repo ;;
    print (branch_line r branch_name)).

(** The body of [simulate_diff] is its docstring alone: the [print]
    statements that follow it in the source are indented at the level of
    the class, so they belong to the class body (see
    [GitLearningSystem_class_body]) and not to the method. *)
Definition simulate_diff : M unit := ret tt.

(** The texts of the [print] statements that follow [simulate_diff]. *)
Definition diff_block : list string :=
  [ "diff --git a/main.py b/main.py";
    "index 1234567..abcdefg 100644";
    "--- a/main.py";
    "+++ b/main.py";
    CYAN +:+ "@@ -1,3 +1,4 @@" +:+ END;
    " def main():";
    "     print(" +:+ DQ +:+ "Hello, World!" +:+ DQ +:+ ")";
    GREEN +:+ "+    print('Welcome to Git!')" +:+ END ].

(** What the statements in the body of [class GitLearningSystem] write
    when the class is defined, that is when the module is loaded. *)
Definition GitLearningSystem_class_body : list event :=
  map (fun s => Out (s +:+ NL)) diff_block.

Definition commands_to_practice : list (string * string) :=
  [ ("git status", "Check the status of your repository");
    ("git log --oneline", "View commit history in compact format");
    ("git branch -a", "List all branches");
    ("git diff", "Show changes in working directory") ].

(** The renderer chosen for a command text: the first match wins. *)
Definition dispatch (cmd : string) : M unit :=
  if contains "status" cmd then simulate_status
  else if contains "log" cmd then simulate_log
  else if contains "branch" cmd then simulate_branch_list
  else if contains "diff" cmd then simulate_diff
  else ret tt.

(** One round of practice, on the command [cmd]. *)
Definition practice_command (cmd description : string) : M unit :=
  print (NL +:+ CYAN +:+ "Practice: " +:+ cmd +:+ END) ;;
  print ("Description: " +:+ description) ;;
  input (YELLOW +:+ "Press Enter to simulate this command..." +:+ END) ;;
  dispatch cmd.

Definition practice_mode : M unit :=
  print (NL +:+ BOLD +:+ "=== Practice Mode ===" +:+ END) ;;
  a <- get_animator ;;
  typewriter a "Try executing Git commands yourself!" WHITE ;;
  for_each commands_to_practice (fun '(cmd, description) =>
    practice_command cmd description).

(** *** Progress and the full course *)

Definition show_progress : M unit :=
  s <- get_system ;;
  ratio <- true_div (lessons_completed s) (total_lessons s) ;;
  let progress := float_mul ratio 100 in
  print (NL +:+ BOLD +:+ "=== Your Progress ===" +:+ END) ;;
  s <- get_system ;;
  print ("Lessons completed: " +:+ str_of_int (lessons_completed s) +:+ "/"
            +:+ str_of_int (total_lessons s)) ;;
  print ("Progress: " +:+ format_1f progress +:+ "%") ;;
  let bar_length := 20 in
  s <- get_system ;;
  ratio <- true_div (lessons_completed s) (total_lessons s) ;;
  let filled := int_of_float (float_mul (inject_Z bar_length) ratio) in
  let bar := str_mul Glyph.BLOCK_FULL filled
             +:+ str_mul Glyph.BLOCK_LIGHT (bar_length - filled) in
  print (GREEN +:+ "[" +:+ bar +:+ "]" +:+ END).

Definition run_full_course : M unit :=
  try_except
    (welcome ;;
     lesson_init ;;
     lesson_add_commit ;;
     lesson_branching ;;
     lesson_push ;;
     quiz_score <- interactive_quiz ;;
     practice_mode ;;
     show_progress ;;
     print (NL +:+ BOLD +:+ GREEN +:+ Glyph.PARTY +:+ " Congratulations! "
               +:+ Glyph.PARTY +:+ END) ;;
     print (CYAN +:+ "You've completed the Git Learning Automation course!"
                 +:+ END) ;;
     (if 2 <=? quiz_score
      then print (GREEN +:+ "Excellent quiz performance!" +:+ END)
      else ret tt) ;;
     print (NL +:+ YELLOW +:+ "Next steps:" +:+ END) ;;
     print (Glyph.BULLET +:+ " Practice with real repositories") ;;
     print (Glyph.BULLET +:+ " Learn advanced Git features") ;;
     print (Glyph.BULLET +:+ " Explore Git workflows (GitFlow, GitHub Flow)") ;;
     print (Glyph.BULLET +:+ " Study collaborative development practices"))
    (print (NL +:+ NL +:+ YELLOW
               +:+ "Course interrupted. You can resume anytime!" +:+ END))
    (fun e =>
       print (NL +:+ RED +:+ "An error occurred: " +:+ exn_str e +:+ END)).

(** ** The command-line entry point *)

Definition is_digit (c : ascii) : bool :=
  let n := nat_of_ascii c in (48 <=? n)%nat && (n <=? 57)%nat.

(** The white space [int] skips around a literal: on an ASCII text,
    the characters 9 to 13 and the space. *)
Definition is_int_space (c : ascii) : bool :=
  let n := nat_of_ascii c in
  ((9 <=? n)%nat && (n <=? 13)%nat) || (n =? 32)%nat.

Fixpoint skip_int_space (s : string) : string :=
  match s with
  | String c s' => if is_int_space c then skip_int_space s' else s
  | EmptyString => EmptyString
  end.

(** The digits at the head of a text, single underscores allowed between
    two digits: their value, their number and what follows them. *)
Fixpoint scan_digits (s : string) (acc : Z) (digits : nat)
    (after_underscore : bool) : option (Z * nat * string) :=
  match s with
  | String c s' =>
      if is_digit c
      then scan_digits s' (10 * acc + Z.of_nat (nat_of_ascii c - 48))
                       (S digits) false
      else if Ascii.eqb c "_"
      then if after_underscore then None else scan_digits s' acc digits true
      else if after_underscore then None else Some (acc, digits, s)
  | EmptyString =>
      if after_underscore then None else Some (acc, digits, EmptyString)
  end.

(** How [int(s)] reads a text. *)
Inductive literal :=
| Invalid                   (* not an integer literal *)
| TooLong (digits : nat)    (* more digits than the conversion accepts *)
| Value (n : Z).

(** The default of [sys.get_int_max_str_digits()]. *)
Definition max_str_digits : nat := 4300.

(** White space, a sign, the digits (counted before what follows them is
    looked at), white space. *)
Definition scan_int (s : string) : literal :=
  let t := skip_int_space s in
  let '(sign, r) := match t with
                    | String "+" r => (1, r)
                    | String "-" r => (-1, r)
                    | _ => (1, t)
                    end in
  match r with
  | String "_" _ => Invalid
  | _ =>
      match scan_digits r 0 0 false with
      | None => Invalid
      | Some (n, digits, rest) =>
          if (digits =? 0)%nat then Invalid
          else if (max_str_digits <? digits)%nat then TooLong digits
          else match skip_int_space rest with
               | EmptyString => Value (sign * n)
               | _ => Invalid
               end
      end
  end.

(** The message of the [ValueError] for a text that is no literal: the
    [repr] of the text, cut after 200 characters. *)
Definition invalid_literal (s : string) : string :=
  "invalid literal for int() with base 10: " +:+ str_take 200 (repr_str s).

(** The message of the [ValueError] for a literal of too many digits. *)
Definition exceeds_limit (digits : nat) : string :=
  "Exceeds the limit (4300 digits) for integer string conversion: value has "
    +:+ str_of_int (Z.of_nat digits)
    +:+ " digits; use sys.set_int_max_str_digits() to increase the limit".

(** [int(s)] on a string. *)
Definition int_of_str (s : string) : outcome Z :=
  match scan_int s with
  | Value n => Return n
  | Invalid => Raise (ValueError (invalid_literal s))
  | TooLong digits => Raise (ValueError (exceeds_limit digits))
  end.

(** What a call of [main] leaves behind: the trace, how it ended, the
    object bound to its local [system] (if the binding was reached) and
    the world. *)
Record Run := {
  run_trace : list event;
  run_result : outcome unit;
  run_system : option GitLearningSystem;
  run_world : World
}.

(** [system = GitLearningSystem()] followed by [body]. *)
Definition with_system (body : M unit) (w : World) : Run :=
  match GitLearningSystem_init with
  | Return s =>
      match body {| system := s; world := w |} with
      | (t, r, st) =>
          {| run_trace := t; run_result := r;
             run_system := Some (system st); run_world := world st |}
      end
  | Raise e =>
      {| run_trace := []; run_result := Raise e;
         run_system := None; run_world := w |}
  end.

Definition lessons : list (M unit) :=
  [lesson_init; lesson_add_commit; lesson_branching; lesson_push].

Definition lesson_not_found (lesson_num : Z) : string :=
  "Lesson " +:+ str_of_int lesson_num +:+ " not found. Available: 1-"
            +:+ str_of_int (Z.of_nat (length lessons)).

Definition usage : string :=
  "Usage: python git_learning.py [--fast] [--lesson <number>]".

Definition main (argv : list string) (w : World) : Run :=
  match argv with
  | _ :: arg1 :: rest =>
      if String.eqb arg1 "--fast" then
        with_system
          (s <- get_system ;;
           put_system (set_animator (set_speed 3 (animator s)) s) ;;
           run_full_course) w
      else if String.eqb arg1 "--lesson" then
        match (match rest with
               | arg2 :: _ => int_of_str arg2
               | [] => Return 1
               end) with
        | Raise e =>
            {| run_trace := []; run_result := Raise e;
               run_system := None; run_world := w |}
        | Return lesson_num =>
            with_system
              (if (1 <=? lesson_num) && (lesson_num <=? Z.of_nat (length lessons))
               then match lessons !! Z.to_nat (lesson_num - 1) with
                    | Some lesson => lesson
                    | None => raise (IndexError "list index out of range")
                    end
               else print (lesson_not_found lesson_num)) w
        end
      else
        {| run_trace := [Out (usage +:+ NL)]; run_result := Return tt;
           run_system := None; run_world := w |}
  | _ => with_system run_full_course w
  end.

(** Running the file as a script: the module body defines the classes,
    then calls [main]. *)
Definition script (argv : list string) (w : World) : Run :=
  let r := main argv w in
  {| run_trace := GitLearningSystem_class_body ++ run_trace r;
     run_result := run_result r;
     run_system := run_system r;
     run_world := run_world r |}.

(** ** PushAnimation *)

Module PushAnimation.

Record t := {
  commits : Z;
  remote : string;
  branch : string;
  files : list string;
  message : string;
  animator : GitAnimator
}.


Definition loading_line (self : t) (text : string) (dots : Z) (color : string)
    (delay : Q) : M unit :=
  write (color +:+ text +:+ END) ;;
  flush ;;
  for_each (range dots) (fun i =>
    sleep delay ;;
    write (color +:+ "." +:+ END) ;;
    flush) ;;
  print EmptyString.

Definition animate (self : t) : M unit :=
  loading_line self "Hello Developer" 3 CYAN 0.5 ;;
  sleep 0.7 ;;
  loading_line self "You finished your work" 3 WHITE 0.4 ;;
  sleep 0.7 ;;
  loading_line self "Changed files detected" 3 YELLOW 0.4 ;;
  for_each (files self) (fun file =>
    loading_line self ("  " +:+ Glyph.BULLET +:+ " " +:+ file) 2 CYAN 0.3) ;;
  sleep 0.7 ;;
  loading_line self "Commit message added" 3 YELLOW 0.4 ;;
  loading_line self ("  " +:+ message self) 2 WHITE 0.3 ;;
  sleep 1 ;;
  loading_line self "Commit created and staged locally" 4 GREEN 0.3 ;;
  sleep 0.8 ;;
  loading_line self "Ready to push to remote repository" 4 MAGENTA 0.3 ;;
  sleep 1 ;;
  loading_line self "Preparing to push" 5 CYAN 0.25 ;;
  progress_bar (animator self) 2 "Preparing to push" ;;
  sleep 0.5 ;;
  loading_line self "Establishing connection" 5 YELLOW 0.25 ;;
  progress_bar (animator self) 3 "Establishing connection" ;;
  sleep 0.7 ;;
  for_each (range (commits self)) (fun i =>
    loading_line self
      ("Uploading commit " +:+ str_of_int (i + 1) +:+ "/"
                           +:+ str_of_int (commits self)) 3 CYAN 0.3 ;;
    write "  " ;;
    for_each (range 3) (fun j =>
      write (GREEN +:+ Glyph.ARROW_RIGHT +:+ END) ;;
      flush ;;
      sleep (delay (animator self) / 2)%Q) ;;
    print EmptyString) ;;
  sleep 0.7 ;;
  loading_line self "Push completed successfully" 4 GREEN 0.3 ;;
  print ("  " +:+ Glyph.ARROW_RIGHT +:+ " " +:+ BLUE +:+ remote self +:+ "/"
              +:+ branch self +:+ END).

End PushAnimation.


(** ** Sample worlds *)

Definition sample_world (lines : list stdin_item) : World :=
  {| heap := ∅;
     random_draws := fun n => (7 * n + 3)%nat;
     random_pos := 0;
     strftime_results := fun _ => "2024-01-01 12:00:00";
     strftime_pos := 0;
     stdin := lines |}.

Definition sample_state (lines : list stdin_item) : State :=
  {| system := {| repo := GitRepository_init "my-project";
                  animator := {| speed := 1; delay := 1 # 2 |};
                  lessons_completed := 0;
                  total_lessons := 10 |};
     world := sample_world lines |}.

(** ** Definitions used in the statements *)

(** The events of one frame of a progress bar of [steps] steps. *)
Definition frame_events (self : GitAnimator) (steps : Z) (description : string)
    (i : Z) : list event :=
  [ Out (progress_frame 30 description (30 * i / steps) (100 * i / steps));
    Flush;
    Sleep (delay self) ].

(** The filled cells and the percentage that a progress bar of [steps]
    steps shows at step [i]: the fraction [i / steps] is a double, and so
    is its product by 30 or by 100, which [int] then truncates. *)
Definition cells_shown (steps i : Z) : Z :=
  int_of_float (float_mul 30 (round_double (inject_Z i / inject_Z steps))).
Definition percent_shown (steps i : Z) : Z :=
  int_of_float (float_mul (round_double (inject_Z i / inject_Z steps)) 100).

(** Do the doubles give, at every step of a bar of [steps] steps, the
    cells and the percentage of the exact fraction? *)
Definition exact_steps (steps : Z) : bool :=
  forallb (fun i => (cells_shown steps i =? 30 * i / steps)
                    && (percent_shown steps i =? 100 * i / steps))
          (range (steps + 1)).

(** The event of [print(s)]. *)
Definition printed (s : string) : event := Out (s +:+ NL).

(** Is this event the announcement of the upload of one commit? *)
Definition is_upload_indicator (e : event) : bool :=
  match e with
  | Out s => String.prefix (CR +:+ CYAN +:+ "Uploading commit ") s
  | _ => false
  end.

(** The commit list of a branch, in a given state. *)
Definition commit_list (st : State) (branch : Branch) : list Commit :=
  default [] (heap (world st) !! commits branch).

(** The commits shown under a branch: the three most recent ones, the
    most recent first. *)
Definition shown_commits (cs : list Commit) : list Commit := take 3 (rev cs).

(** What [typewriter] writes when every pause is accepted. *)
Definition typewriter_trace (self : GitAnimator) (text color : string)
    : list event :=
  flat_map (fun char =>
              [ Out (color +:+ String char EmptyString +:+ END); Flush;
                Sleep ((3 # 100) / speed self) ])
           (list_ascii_of_string text)
  ++ [Out NL].

(** The object built by [GitLearningSystem()]. *)
Definition fresh_system : GitLearningSystem :=
  {| repo := GitRepository_init "my-project";
     animator := {| speed := 1; delay := 1 # 2 |};
     lessons_completed := 0;
     total_lessons := 10 |}.

(** [wp m st Q]: the outcome and the final state of [m] run from [st]
    satisfy [Q]. *)
Definition wp {A} (m : M A) (st : State) (Q : outcome A -> State -> Prop)
    : Prop :=
  Q (snd (fst (m st))) (snd (m st)).

(** The state after [k] more draws of the random generator. *)
Definition drawn (k : nat) (st : State) : State :=
  {| system := system st;
     world := {| heap := heap (world st);
                 random_draws := random_draws (world st);
                 random_pos := k + random_pos (world st);
                 strftime_results := strftime_results (world st);
                 strftime_pos := strftime_pos (world st);
                 stdin := stdin (world st) |} |}.

(** The state with the heap replaced by [h]. *)
Definition with_heap (h : gmap loc (list Commit)) (st : State) : State :=
  {| system := system st; world := set_heap h (world st) |}.

(** A state in which [main] holds one commit. *)
Definition first_commit : Commit :=
  {| hash := "d4b2907"; message := "Initial commit"; author := student;
     timestamp := "2024-01-01 12:00:00" |}.

Definition main_branch : Branch :=
  {| Branch_name := "main"; commits := 1%positive; is_current := true |}.

Definition state_with_main : State :=
  {| system := {| repo := set_branches [("main", main_branch)]
                            (GitRepository_init "my-project");
                  animator := {| speed := 1; delay := 1 # 2 |};
                  lessons_completed := 2;
                  total_lessons := 10 |};
     world := set_heap {[ 1%positive := [first_commit] ]} (sample_world []) |}.

(** The lengths of the pauses of a trace, in order. *)
Definition pauses (t : list event) : list Q :=
  flat_map (fun e => match e with Sleep d => [d] | _ => [] end) t.

(** Answers to the two questions of the quiz and the four
    acknowledgements of the practice mode. *)
Definition course_input : list stdin_item :=
  [Line "b"; Line "b"; Line EmptyString; Line EmptyString; Line EmptyString;
   Line EmptyString].

(** The world with its pending input replaced. *)
Definition set_stdin (lines : list stdin_item) (w : World) : World :=
  {| heap := heap w; random_draws := random_draws w;
     random_pos := random_pos w; strftime_results := strftime_results w;
     strftime_pos := strftime_pos w; stdin := lines |}.

(** ** More definitions used in the statements *)

(** The characters a commit hash is drawn from. *)
Definition hex_digits : list ascii := list_ascii_of_string "abcdef0123456789".

(** The events of one upload arrow of [push_animation]. *)
Definition arrow_events (self : GitAnimator) : list event :=
  [ Out (GREEN +:+ Glyph.ARROW_RIGHT +:+ END); Flush;
    Sleep (delay self / 3) ].

(** The events of the upload of commit [i + 1] of [n] in
    [push_animation]. *)
Definition upload_events (self : GitAnimator) (n i : Z) : list event :=
  Out (upload_indicator i n)
  :: arrow_events self ++ arrow_events self ++ arrow_events self.

(** The texts written by a trace, in order. *)
Definition written (t : list event) : list string :=
  flat_map (fun e => match e with Out s => [s] | _ => [] end) t.

(** The state with the counter of completed lessons incremented. *)
Definition counted (st : State) : State :=
  {| system := {| repo := repo (system st);
                  animator := animator (system st);
                  lessons_completed := lessons_completed (system st) + 1;
                  total_lessons := total_lessons (system st) |};
     world := world st |}.

(** Does this answer to a quiz question count as the option [b]? *)
Definition answers_b (line : string) : bool :=
  String.eqb (strip (lower line)) "b".

(** The state with the pending input replaced. *)
Definition with_stdin (lines : list stdin_item) (st : State) : State :=
  {| system := system st; world := set_stdin lines (world st) |}.

(** Two states with the same system (repository, animator, counters) and
    the same lists of commits. *)
Definition same_repository (st st' : State) : Prop :=
  system st' = system st /\ heap (world st') = heap (world st).

(** [m] leaves the system and the lists of commits as they are, whether
    it returns or raises. *)
Definition preserves {A} (m : M A) : Prop :=
  forall st, same_repository st (snd (m st)).

(** The world after [draws] draws of the random generator and [clocks]
    readings of the clock. *)
Definition ticked (draws clocks : nat) (w : World) : World :=
  {| heap := heap w; random_draws := random_draws w;
     random_pos := draws + random_pos w;
     strftime_results := strftime_results w;
     strftime_pos := clocks + strftime_pos w; stdin := stdin w |}.

(** The state lesson 1 leaves: [main] bound to a new empty list. *)
Definition after_lesson_init (st : State) : State :=
  let l := fresh (dom (heap (world st))) in
  {| system :=
       {| repo :=
            set_branches
              (dict_set "main" {| Branch_name := "main"; commits := l;
                                  is_current := true |}
                        (branches (repo (system st))))
              (set_is_initialized true (repo (system st)));
          animator := animator (system st);
          lessons_completed := lessons_completed (system st) + 1;
          total_lessons := total_lessons (system st) |};
     world := set_heap (<[l := []]> (heap (world st))) (world st) |}.

(** The files of lesson 2. *)
Definition lesson_files : list string :=
  ["README.md"; "main.py"; "requirements.txt"].

(** The commit of lesson 2, with hash [h], made in state [st]. *)
Definition initial_commit (h : string) (st : State) : Commit :=
  {| hash := h; message := "Initial commit"; author := student;
     timestamp := strftime_results (world st) (strftime_pos (world st)) |}.

(** The system after the file bookkeeping of lesson 2. *)
Definition with_lesson_files (s : GitLearningSystem) : GitLearningSystem :=
  {| repo := set_staged_files lesson_files
               (set_working_files (working_files (repo s) ++ lesson_files)
                                  (repo s));
     animator := animator s;
     lessons_completed := lessons_completed s;
     total_lessons := total_lessons s |}.

(** The state lesson 2 is in when it looks [main] up: files recorded,
    seven draws and one clock reading consumed. *)
Definition before_commit (st : State) : State :=
  {| system := with_lesson_files (system st);
     world := ticked 7 1 (world st) |}.

(** The state lesson 2 leaves when [main] is the branch [b] and the hash
    drawn is [h]. *)
Definition after_lesson_add_commit (h : string) (b : Branch) (st : State)
    : State :=
  counted
    (with_heap (<[commits b := commit_list st b ++ [initial_commit h st]]>
                  (heap (world st)))
               (before_commit st)).

(** The two commits of lesson 3, with hashes [h1] and [h2], made in
    state [st]. *)
Definition login_commit (h1 : string) (st : State) : Commit :=
  {| hash := h1; message := "Add login functionality"; author := student;
     timestamp := strftime_results (world st) (strftime_pos (world st)) |}.

Definition validation_commit (h2 : string) (st : State) : Commit :=
  {| hash := h2; message := "Add password validation"; author := student;
     timestamp := strftime_results (world st) (S (strftime_pos (world st))) |}.

(** The state lesson 3 leaves when [main] is the branch [b] and the
    hashes drawn are [h1] and [h2]. *)
Definition after_lesson_branching (h1 h2 : string) (b : Branch) (st : State)
    : State :=
  let l := fresh (dom (heap (world st))) in
  let cs := commit_list st b in
  {| system :=
       {| repo :=
            set_current_branch "feature-auth"
              (set_branches
                 (dict_set "feature-auth"
                    {| Branch_name := "feature-auth"; commits := l;
                       is_current := false |}
                    (branches (repo (system st))))
                 (repo (system st)));
          animator := animator (system st);
          lessons_completed := lessons_completed (system st) + 1;
          total_lessons := total_lessons (system st) |};
     world :=
       set_heap
         (<[l := (cs ++ [login_commit h1 st]) ++ [validation_commit h2 st]]>
            (<[l := cs ++ [login_commit h1 st]]>
               (<[l := cs]> (heap (world st)))))
         (ticked 14 2 (world st)) |}.

(** What a full run of the course leaves behind, in system [s] and heap
    [h]: the four lessons are counted, [main] holds the initial commit
    and [feature-auth], the current branch, holds it followed by the two
    commits of lesson 3. *)
Definition course_completed (s : GitLearningSystem)
    (h : gmap loc (list Commit)) : Prop :=
  exists lm lf c0 c1 c2,
    branches (repo s) =
      [ ("main", {| Branch_name := "main"; commits := lm;
                    is_current := true |});
        ("feature-auth", {| Branch_name := "feature-auth"; commits := lf;
                            is_current := false |}) ]
    /\ lm <> lf
    /\ h !! lm = Some [c0]
    /\ h !! lf = Some [c0; c1; c2]
    /\ message c0 = "Initial commit"
    /\ message c1 = "Add login functionality"
    /\ message c2 = "Add password validation"
    /\ current_branch (repo s) = "feature-auth"
    /\ is_initialized (repo s) = true
    /\ working_files (repo s) = ["README.md"; "main.py"; "requirements.txt"]
    /\ staged_files (repo s) = ["README.md"; "main.py"; "requirements.txt"]
    /\ lessons_completed s = 4.

(** What [loading_line] writes when its pauses are accepted. *)
Definition loading_events (text : string) (dots : Z) (color : string)
    (pause : Q) : list event :=
  [Out (color +:+ text +:+ END); Flush]
    ++ flat_map (fun _ : Z => [Sleep pause; Out (color +:+ "." +:+ END); Flush])
                (range dots)
    ++ [Out NL].

(** Is this event the line that announces the upload of one commit in
    [PushAnimation.animate]? *)
Definition is_upload_line (e : event) : bool :=
  match e with
  | Out s => String.prefix (CYAN +:+ "Uploading commit ") s
  | _ => false
  end.

(** The events of one upload arrow of [PushAnimation.animate]. *)
Definition slow_arrow_events (a : GitAnimator) : list event :=
  [ Out (GREEN +:+ Glyph.ARROW_RIGHT +:+ END); Flush; Sleep (delay a / 2) ].

(** The events of the upload of commit [i + 1] of [n] in
    [PushAnimation.animate]. *)
Definition upload_round (a : GitAnimator) (n i : Z) : list event :=
  loading_events ("Uploading commit " +:+ str_of_int (i + 1) +:+ "/"
                                      +:+ str_of_int n) 3 CYAN 0.3
    ++ [Out "  "]
    ++ (slow_arrow_events a ++ slow_arrow_events a ++ slow_arrow_events a)
    ++ [Out NL].

(** What [PushAnimation.animate] writes when every pause is accepted. *)
Definition animate_events (self : PushAnimation.t) : list event :=
  loading_events "Hello Developer" 3 CYAN 0.5
    ++ [Sleep 0.7]
    ++ loading_events "You finished your work" 3 WHITE 0.4
    ++ [Sleep 0.7]
    ++ loading_events "Changed files detected" 3 YELLOW 0.4
    ++ flat_map (fun file =>
                   loading_events ("  " +:+ Glyph.BULLET +:+ " " +:+ file)
                                  2 CYAN 0.3)
                (PushAnimation.files self)
    ++ [Sleep 0.7]
    ++ loading_events "Commit message added" 3 YELLOW 0.4
    ++ loading_events ("  " +:+ PushAnimation.message self) 2 WHITE 0.3
    ++ [Sleep 1]
    ++ loading_events "Commit created and staged locally" 4 GREEN 0.3
    ++ [Sleep 0.8]
    ++ loading_events "Ready to push to remote repository" 4 MAGENTA 0.3
    ++ [Sleep 1]
    ++ loading_events "Preparing to push" 5 CYAN 0.25
    ++ (flat_map (frame_events (PushAnimation.animator self) 2
                               "Preparing to push") (range 3) ++ [Out NL])
    ++ [Sleep 0.5]
    ++ loading_events "Establishing connection" 5 YELLOW 0.25
    ++ (flat_map (frame_events (PushAnimation.animator self) 3
                               "Establishing connection") (range 4)
          ++ [Out NL])
    ++ [Sleep 0.7]
    ++ flat_map (upload_round (PushAnimation.animator self)
                              (PushAnimation.commits self))
                (range (PushAnimation.commits self))
    ++ [Sleep 0.7]
    ++ loading_events "Push completed successfully" 4 GREEN 0.3
    ++ [printed ("  " +:+ Glyph.ARROW_RIGHT +:+ " " +:+ BLUE
                      +:+ PushAnimation.remote self +:+ "/"
                      +:+ PushAnimation.branch self +:+ END)].

(** * Properties *)

(** ** Running a method *)

Lemma bind_returns {A B} (m : M A) (f : A -> M B) st t1 a st1 :
  m st = (t1, Return a, st1) ->
  bind m f st = (let '(t2, r, st2) := f a st1 in (t1 ++ t2, r, st2)).
Proof. unfold bind. intros ->. reflexivity. Qed.

Lemma bind_raises {A B} (m : M A) (f : A -> M B) st t1 e st1 :
  m st = (t1, Raise e, st1) ->
  bind m f st = (t1, Raise e, st1).
Proof. unfold bind. intros ->. reflexivity. Qed.

(** A loop whose body always returns and leaves the state alone writes
    the traces of its rounds one after the other. *)
Lemma for_each_returns {A} (l : list A) (body : A -> M unit)
    (f : A -> list event) st :
  (forall x, In x l -> body x st = (f x, Return tt, st)) ->
  for_each l body st = (flat_map f l, Return tt, st).
Proof.
  induction l as [|x l IH]; intros Hbody; [reflexivity|].
  cbn [for_each flat_map].
  rewrite (bind_returns _ _ st (f x) tt st) by (apply Hbody; left; reflexivity).
  rewrite IH by (intros y Hy; apply Hbody; right; exact Hy).
  reflexivity.
Qed.

Lemma flat_map_map {A B C} (g : B -> list C) (h : A -> B) (l : list A) :
  flat_map g (map h l) = flat_map (fun x => g (h x)) l.
Proof.
  induction l as [|x l IH]; [reflexivity|].
  cbn [map flat_map]. rewrite IH. reflexivity.
Qed.

Lemma flat_map_singleton {A B} (f : A -> B) (l : list A) :
  flat_map (fun x => [f x]) l = map f l.
Proof.
  induction l as [|x l IH]; [reflexivity|].
  cbn [map flat_map app]. rewrite IH. reflexivity.
Qed.

Lemma In_range i n : In i (range n) <-> 0 <= i < n.
Proof.
  unfold range. rewrite in_map_iff. split.
  - intros (k & <- & Hk). apply in_seq in Hk. lia.
  - intros Hi. exists (Z.to_nat i). split; [lia|]. apply in_seq. lia.
Qed.

Lemma length_range n : length (range n) = Z.to_nat n.
Proof. unfold range. rewrite length_map, length_seq. reflexivity. Qed.

Lemma range_succ n : 0 <= n -> range (n + 1) = range n ++ [n].
Proof.
  intros Hn. unfold range.
  replace (Z.to_nat (n + 1)) with (S (Z.to_nat n)) by lia.
  rewrite seq_S, map_app. cbn. rewrite Z2Nat.id by lia. reflexivity.
Qed.

Lemma sleep_returns d st :
  (0 <= d)%Q -> sleep d st = ([Sleep d], Return tt, st).
Proof.
  intros Hd. unfold sleep.
  apply Qle_bool_iff in Hd. rewrite Hd. reflexivity.
Qed.

(** ** Arithmetic of doubles *)

Lemma round_double_compat x y : (x == y)%Q -> round_double x = round_double y.
Proof. intros H. unfold round_double. rewrite (Qred_complete _ _ H). reflexivity. Qed.

Lemma round_half_even_near y :
  (inject_Z (round_half_even y) - y <= 1 # 2)%Q
  /\ (y - inject_Z (round_half_even y) <= 1 # 2)%Q.
Proof.
  unfold round_half_even.
  pose proof (Qfloor_le y) as Hlo. pose proof (Qlt_floor y) as Hhi.
  rewrite inject_Z_plus in Hhi. change (inject_Z 1) with 1%Q in Hhi.
  set (f := Qfloor y) in *.
  destruct (Qcompare_spec (y - inject_Z f) (1 # 2)) as [E|E|E].
  - destruct (Z.even f); rewrite ?inject_Z_plus;
      change (inject_Z 1) with 1%Q; split; lra.
  - split; lra.
  - rewrite inject_Z_plus. change (inject_Z 1) with 1%Q. split; lra.
Qed.

Lemma round_half_even_nonneg y : (0 <= y)%Q -> 0 <= round_half_even y.
Proof.
  intros Hy. unfold round_half_even.
  assert (Hf : 0 <= Qfloor y).
  { change 0 with (Qfloor 0). apply Qfloor_resp_le. exact Hy. }
  destruct (y - inject_Z (Qfloor y) ?= 1 # 2)%Q; [destruct (Z.even _)| |]; lia.
Qed.

Lemma pow2_pos e : (0 < pow2 e)%Q.
Proof. apply Qpower_0_lt. reflexivity. Qed.

Lemma pow2_le e1 e2 : e1 <= e2 -> (pow2 e1 <= pow2 e2)%Q.
Proof. intros H. apply Qpower_le_compat_l; [exact H|discriminate]. Qed.

Lemma pow2_le_inv e1 e2 : (pow2 e1 <= pow2 e2)%Q -> e1 <= e2.
Proof. intros H. apply (Qpower_le_compat_l_inv 2); [exact H|reflexivity]. Qed.

Lemma pow2_succ e : (pow2 (e + 1) == 2 * pow2 e)%Q.
Proof.
  unfold pow2. rewrite Qpower_plus by discriminate.
  change (2 ^ 1)%Q with 2%Q. lra.
Qed.

Lemma pow2_inject k : 0 <= k -> (pow2 k == inject_Z (2 ^ k))%Q.
Proof. intros Hk. unfold pow2. rewrite Zpower_Qpower by assumption. reflexivity. Qed.

Lemma floor_log2_le a : (0 < a)%Q -> (pow2 (floor_log2 a) <= a)%Q.
Proof.
  intros Ha. unfold floor_log2.
  destruct a as [n d]. cbn [Qnum Qden].
  assert (Hn : 0 < n) by (unfold Qlt in Ha; cbn in Ha; lia).
  set (k := Z.log2 n - Z.log2 (Z.pos d)).
  destruct (Qle_bool (pow2 k) (n # d)) eqn:E.
  - apply Qle_bool_iff. exact E.
  - clear E.
    replace (k - 1) with (Z.log2 n - (Z.log2 (Z.pos d) + 1)) by (unfold k; lia).
    unfold pow2. rewrite Qpower_minus by discriminate.
    fold (pow2 (Z.log2 n)). fold (pow2 (Z.log2 (Z.pos d) + 1)).
    rewrite !pow2_inject
      by (pose proof (Z.log2_nonneg n); pose proof (Z.log2_nonneg (Z.pos d)); lia).
    rewrite (Qmake_Qdiv n d).
    pose proof (Z.log2_spec n Hn) as [Hn1 _].
    pose proof (Z.log2_spec (Z.pos d) ltac:(lia)) as [_ Hd2].
    replace (Z.succ (Z.log2 (Z.pos d))) with (Z.log2 (Z.pos d) + 1) in Hd2 by lia.
    set (X := 2 ^ Z.log2 n) in *. set (Y := 2 ^ (Z.log2 (Z.pos d) + 1)) in *.
    assert (HX : 0 < X) by (unfold X; apply Z.pow_pos_nonneg; [lia|apply Z.log2_nonneg]).
    unfold Qdiv, Qle, Qmult, Qinv, inject_Z. 
    destruct Y as [|Yp|Yp] eqn:EY; try lia.
    cbn [Qnum Qden]. cbn. nia.
Qed.

Lemma round_double_zero x : (x == 0)%Q -> round_double x = 0%Q.
Proof. intros H. rewrite (round_double_compat _ _ H). reflexivity. Qed.

Lemma round_double_pos_eq x :
  (0 < x)%Q ->
  let a := Qabs (Qred x) in
  let e := Z.max (floor_log2 a - 52) (-1074) in
  (a == x)%Q
  /\ (round_double x == inject_Z (round_half_even (a / pow2 e)) * pow2 e)%Q.
Proof.
  intros Hx a e.
  assert (Hred : (Qred x == x)%Q) by apply Qred_correct.
  assert (Ha : (a == x)%Q).
  { unfold a. rewrite Qabs_pos by (rewrite Hred; apply Qlt_le_weak, Hx).
    exact Hred. }
  split; [exact Ha|].
  unfold round_double. fold a. fold e.
  destruct (Qeq_bool (Qred x) 0) eqn:E.
  { apply Qeq_bool_eq in E. rewrite Hred in E. rewrite E in Hx.
    destruct (Qlt_irrefl _ Hx). }
  rewrite Qred_correct.
  assert (Hsgn : Z.sgn (Qnum (Qred x)) = 1).
  { apply Z.sgn_pos. rewrite <- Hred in Hx. unfold Qlt in Hx. cbn in Hx. lia. }
  rewrite Hsgn, Z.mul_1_l. reflexivity.
Qed.

(** Rounding a number between 0 and 128 moves it by 2 ** -46 at most. *)
Lemma round_double_error x :
  (0 <= x)%Q -> (x <= 128)%Q ->
  (0 <= round_double x)%Q
  /\ (round_double x - x <= pow2 (-46))%Q
  /\ (x - round_double x <= pow2 (-46))%Q.
Proof.
  intros H0 H128.
  destruct (Qlt_le_dec 0 x) as [Hpos|Hle].
  2:{ assert (Hz : (x == 0)%Q) by lra.
      rewrite (round_double_zero _ Hz).
      pose proof (pow2_pos (-46)). repeat split; lra. }
  destruct (round_double_pos_eq x Hpos) as [Ha Hr].
  set (a := Qabs (Qred x)) in *.
  set (e := Z.max (floor_log2 a - 52) (-1074)) in *.
  set (m := round_half_even (a / pow2 e)) in *.
  assert (He : e <= -45).
  { assert (floor_log2 a <= 7); [|unfold e; lia].
    apply pow2_le_inv.
    apply Qle_trans with a; [apply floor_log2_le; rewrite Ha; exact Hpos|].
    rewrite Ha. exact H128. }
  pose proof (pow2_pos e) as Hpe.
  assert (Hhalf : (pow2 e <= 2 * pow2 (-46))%Q).
  { rewrite <- pow2_succ. apply pow2_le. lia. }
  destruct (round_half_even_near (a / pow2 e)) as [Hup Hdown]. fold m in Hup, Hdown.
  assert (Hm : 0 <= m).
  { apply round_half_even_nonneg. apply Qlt_le_weak.
    apply Qlt_shift_div_l; [exact Hpe|]. rewrite Ha. lra. }
  assert (Hdiv : (a / pow2 e * pow2 e == x)%Q).
  { rewrite <- Ha. field. intros Hc. rewrite Hc in Hpe. destruct (Qlt_irrefl _ Hpe). }
  set (M := inject_Z m) in *. set (P := pow2 e) in *. set (D := (a / P)%Q) in *.
  assert (HM : (0 <= M)%Q)
    by (unfold M; change 0%Q with (inject_Z 0); rewrite <- Zle_Qle; exact Hm).
  rewrite Hr. repeat split.
  - apply Qmult_le_0_compat; lra.
  - nra.
  - nra.
Qed.

Lemma int_of_float_floor y : (0 <= y)%Q -> int_of_float y = Qfloor y.
Proof.
  intros Hy. destruct y as [n d]. unfold int_of_float, Qfloor. cbn [Qnum Qden].
  apply Z.quot_div_nonneg; [|lia].
  unfold Qle in Hy. cbn in Hy. lia.
Qed.

Lemma Qfloor_bounds y (lo hi : Z) :
  (inject_Z lo <= y)%Q -> (y < inject_Z hi)%Q -> lo <= Qfloor y < hi.
Proof.
  intros Hlo Hhi. split.
  - rewrite <- (Qfloor_Z lo). apply Qfloor_resp_le. exact Hlo.
  - apply Z.lt_le_trans with (Qfloor (inject_Z hi)); [|rewrite Qfloor_Z; lia].
    rewrite Qfloor_Z. rewrite Zlt_Qlt.
    apply Qle_lt_trans with y; [apply Qfloor_le|exact Hhi].
Qed.

(** The cells (or the percentage) shown for step [i] of [n], on a scale
    of [k]: the double arithmetic can cost one unit on the exact value. *)
Lemma scaled_progress_bounds (k i n : Z) (y : Q) :
  0 < n -> 0 <= i <= n -> 0 < k <= 100 ->
  (y == inject_Z k * round_double (inject_Z i / inject_Z n))%Q ->
  let c := int_of_float (round_double y) in
  0 <= c <= k /\ k * i / n - 1 <= c <= k * i / n + 1.
Proof.
  intros Hn Hi Hk Hy c.
  set (q := (inject_Z i / inject_Z n)%Q) in *.
  assert (HnQ : (0 < inject_Z n)%Q) by (change 0%Q with (inject_Z 0); rewrite <- Zlt_Qlt; lia).
  assert (HiQ : (0 <= inject_Z i)%Q) by (change 0%Q with (inject_Z 0); rewrite <- Zle_Qle; lia).
  assert (HinQ : (inject_Z i <= inject_Z n)%Q) by (rewrite <- Zle_Qle; lia).
  assert (Hkq0 : (0 < inject_Z k)%Q) by (change 0%Q with (inject_Z 0); rewrite <- Zlt_Qlt; lia).
  assert (Hkq1 : (inject_Z k <= 100)%Q) by (change 100%Q with (inject_Z 100); rewrite <- Zle_Qle; lia).
  assert (Hqn : (q * inject_Z n == inject_Z i)%Q).
  { unfold q. field. intros Hc. rewrite Hc in HnQ. destruct (Qlt_irrefl _ HnQ). }
  assert (Hq0 : (0 <= q)%Q) by (unfold q; apply Qle_shift_div_l; [exact HnQ|lra]).
  assert (Hq1 : (q <= 1)%Q) by (unfold q; apply Qle_shift_div_r; [exact HnQ|lra]).
  assert (Hd : (pow2 (-46) == 1 # 70368744177664)%Q) by reflexivity.
  destruct (round_double_error q Hq0 ltac:(lra)) as (Hp0 & Hp1 & Hp2).
  set (p := round_double q) in *.
  assert (Hy0 : (0 <= y)%Q) by (rewrite Hy; apply Qmult_le_0_compat; lra).
  assert (Hy1 : (y <= 128)%Q) by (rewrite Hy; nra).
  destruct (round_double_error y Hy0 Hy1) as (Hr0 & Hr1 & Hr2).
  set (r := round_double y) in *.
  (* the exact value *)
  set (E := k * i / n).
  assert (HE : n * E <= k * i < n * (E + 1)).
  { unfold E. pose proof (Z.mul_div_le (k * i) n Hn).
    pose proof (Z.mul_succ_div_gt (k * i) n Hn). lia. }
  assert (HE1 : (inject_Z E * inject_Z n <= inject_Z k * inject_Z i)%Q).
  { rewrite <- !inject_Z_mult, <- Zle_Qle. lia. }
  assert (HE2 : (inject_Z k * inject_Z i < (inject_Z E + 1) * inject_Z n)%Q).
  { change 1%Q with (inject_Z 1). rewrite <- inject_Z_plus, <- !inject_Z_mult, <- Zlt_Qlt. lia. }
  assert (HEq1 : (inject_Z E <= inject_Z k * q)%Q).
  { apply Qmult_le_r with (inject_Z n); [exact HnQ|]. 
    rewrite <- Qmult_assoc, Hqn. exact HE1. }
  assert (HEq2 : (inject_Z k * q < inject_Z E + 1)%Q).
  { apply Qmult_lt_r with (inject_Z n); [exact HnQ|].
    rewrite <- Qmult_assoc, Hqn. exact HE2. }
  assert (Hclose1 : (r <= inject_Z k * q + (1 # 2))%Q) by nra.
  assert (Hclose2 : (inject_Z k * q - (1 # 2) <= r)%Q) by nra.
  unfold c. rewrite (int_of_float_floor r Hr0).
  assert (B1 : 0 <= Qfloor r < k + 1).
  { apply Qfloor_bounds; [exact Hr0|].
    rewrite inject_Z_plus. change (inject_Z 1) with 1%Q. nra. }
  assert (B2 : E - 1 <= Qfloor r < E + 2).
  { apply Qfloor_bounds.
    - unfold Z.sub. rewrite inject_Z_plus, inject_Z_opp.
      change (inject_Z 1) with 1%Q. lra.
    - rewrite inject_Z_plus. change (inject_Z 2) with 2%Q. lra. }
  fold E. lia.
Qed.

(** ** Arithmetic of the progress bar *)

Lemma true_div_returns i n st :
  0 < n -> 0 <= i <= n ->
  true_div i n st =
    ([], Return (round_double (inject_Z i / inject_Z n)), st).
Proof.
  intros Hn Hi. unfold true_div. replace (n =? 0) with false by lia.
  set (q := (inject_Z i / inject_Z n)%Q).
  assert (HnQ : (0 < inject_Z n)%Q)
    by (change 0%Q with (inject_Z 0); rewrite <- Zlt_Qlt; lia).
  assert (HiQ : (0 <= inject_Z i)%Q)
    by (change 0%Q with (inject_Z 0); rewrite <- Zle_Qle; lia).
  assert (HinQ : (inject_Z i <= inject_Z n)%Q) by (rewrite <- Zle_Qle; lia).
  assert (Hq0 : (0 <= q)%Q)
    by (unfold q; apply Qle_shift_div_l; [exact HnQ|lra]).
  assert (Hq1 : (q <= 1)%Q)
    by (unfold q; apply Qle_shift_div_r; [exact HnQ|lra]).
  destruct (round_double_error q Hq0 ltac:(lra)) as (Hp0 & Hp1 & _).
  assert (Hd : (pow2 (-46) == 1 # 70368744177664)%Q) by reflexivity.
  assert (Hbig : (pow2 1 <= pow2 1024)%Q) by (apply pow2_le; lia).
  change (pow2 1) with 2%Q in Hbig.
  destruct (Qle_bool (pow2 1024) (Qabs (round_double q))) eqn:E;
    [|reflexivity].
  apply Qle_bool_iff in E. rewrite Qabs_pos in E by exact Hp0. lra.
Qed.

Lemma progress_bar_shown self steps description st :
  0 < steps -> (0 <= delay self)%Q ->
  progress_bar self steps description st =
    (flat_map (fun i =>
                 [ Out (progress_frame 30 description (cells_shown steps i)
                                       (percent_shown steps i));
                   Flush; Sleep (delay self) ])
              (range (steps + 1))
       ++ [Out NL], Return tt, st).
Proof.
  intros Hsteps Hdelay. unfold progress_bar.
  erewrite bind_returns; [reflexivity|].
  apply for_each_returns. intros i Hi. apply In_range in Hi.
  unfold bind at 1. rewrite true_div_returns by lia.
  unfold bind, write, flush, emit. rewrite sleep_returns by assumption.
  reflexivity.
Qed.

Lemma progress_bar_trace self steps description st :
  0 < steps -> (0 <= delay self)%Q -> exact_steps steps = true ->
  progress_bar self steps description st =
    (flat_map (frame_events self steps description) (range (steps + 1))
       ++ [Out NL], Return tt, st).
Proof.
  intros Hsteps Hdelay Hexact.
  rewrite progress_bar_shown by assumption.
  do 2 f_equal. f_equal.
  unfold exact_steps in Hexact. rewrite forallb_forall in Hexact.
  induction (range (steps + 1)) as [|i l IH]; [reflexivity|].
  cbn [flat_map]. rewrite IH by (intros j Hj; apply Hexact; right; exact Hj).
  specialize (Hexact i (or_introl eq_refl)).
  apply andb_true_iff in Hexact. destruct Hexact as [Hc Hp].
  apply Z.eqb_eq in Hc, Hp. unfold frame_events. rewrite Hc, Hp. reflexivity.
Qed.

Lemma cells_shown_bounds N i :
  0 < N -> 0 <= i <= N ->
  0 <= cells_shown N i <= 30
  /\ 30 * i / N - 1 <= cells_shown N i <= 30 * i / N + 1.
Proof.
  intros HN Hi. unfold cells_shown, float_mul.
  apply (scaled_progress_bounds 30 i N); [lia | lia | lia | reflexivity].
Qed.

Lemma percent_shown_bounds N i :
  0 < N -> 0 <= i <= N ->
  0 <= percent_shown N i <= 100
  /\ 100 * i / N - 1 <= percent_shown N i <= 100 * i / N + 1.
Proof.
  intros HN Hi. unfold percent_shown, float_mul.
  apply (scaled_progress_bounds 100 i N); [lia | lia | lia |].
  apply Qmult_comm.
Qed.

Lemma shown_at_start N :
  0 < N -> cells_shown N 0 = 0 /\ percent_shown N 0 = 0.
Proof.
  intros HN. unfold cells_shown, percent_shown.
  assert (H : (inject_Z 0 / inject_Z N == 0)%Q) by apply Qmult_0_l.
  rewrite (round_double_compat _ _ H). split; reflexivity.
Qed.

Lemma shown_at_end N :
  0 < N -> cells_shown N N = 30 /\ percent_shown N N = 100.
Proof.
  intros HN. unfold cells_shown, percent_shown.
  assert (H : (inject_Z N / inject_Z N == 1)%Q).
  { field. intros Hc.
    assert (HnQ : (0 < inject_Z N)%Q)
      by (change 0%Q with (inject_Z 0); rewrite <- Zlt_Qlt; lia).
    rewrite Hc in HnQ. destruct (Qlt_irrefl _ HnQ). }
  rewrite (round_double_compat _ _ H). split; vm_compute; reflexivity.
Qed.

(** ** Progress bar *)

(** C1.  With [steps = 0] the progress bar raises [ZeroDivisionError] in
    its first round, before any frame is written: no frame and no line
    break are emitted. *)
Theorem progress_bar_zero_steps_raises :
  forall (self : GitAnimator) (description : string) (st : State),
    progress_bar self 0 description st =
      ([], Raise (ZeroDivisionError "division by zero"), st).
Proof. intros self description st. reflexivity. Qed.

(** C9.  With [steps = N > 0] (and an animator whose delay is not
    negative) the progress bar returns after writing exactly [N + 1]
    frames, each followed by a flush and a pause of the delay, and then a
    line break.  Frame [i] shows the cells and the percentage that the
    code computes in doubles from the fraction [i / N]: between 0 and 30
    cells and between 0 and 100 percent, and what the exact fraction
    gives, [30 * i / N] cells and [100 * i / N] percent rounded down, up
    to one unit that the rounding of the doubles can cost or add (with
    [N = 50], frame 29 shows 57 percent).  The first frame is empty and
    shows 0%; the last frame is full and shows 100%. *)
Theorem progress_bar_frames :
  forall (self : GitAnimator) (N : Z) (description : string) (st : State),
    0 < N -> (0 <= delay self)%Q ->
    let frames :=
      map (fun i => progress_frame 30 description (cells_shown N i)
                                   (percent_shown N i))
          (range (N + 1)) in
    progress_bar self N description st =
      (flat_map (fun frame => [Out frame; Flush; Sleep (delay self)]) frames
         ++ [Out NL], Return tt, st)
    /\ length frames = Z.to_nat (N + 1)
    /\ (forall i, 0 <= i <= N ->
          0 <= cells_shown N i <= 30
          /\ 30 * i / N - 1 <= cells_shown N i <= 30 * i / N + 1
          /\ 0 <= percent_shown N i <= 100
          /\ 100 * i / N - 1 <= percent_shown N i <= 100 * i / N + 1)
    /\ cells_shown N 0 = 0
    /\ percent_shown N 0 = 0
    /\ last frames =
         Some (CR +:+ CYAN +:+ description +:+ ": " +:+ GREEN +:+ "["
                  +:+ str_mul Glyph.BLOCK_FULL 30 +:+ "] 100%" +:+ END).
Proof.
  intros self N description st HN Hdelay frames. subst frames.
  split; [|split; [|split; [|split; [|split]]]].
  - rewrite progress_bar_shown by assumption.
    rewrite flat_map_map. reflexivity.
  - rewrite length_map, length_range. reflexivity.
  - intros i Hi.
    destruct (cells_shown_bounds N i HN Hi) as [Hc1 Hc2].
    destruct (percent_shown_bounds N i HN Hi) as [Hp1 Hp2].
    repeat split; lia.
  - apply (shown_at_start N HN).
  - apply (shown_at_start N HN).
  - rewrite range_succ by lia. rewrite map_app. cbn [map].
    rewrite last_snoc.
    destruct (shown_at_end N HN) as [-> ->]. reflexivity.
Qed.

Lemma progress_bar_frames_witness :
  0 < 50 /\ (0 <= 1 # 2)%Q /\
  let self := {| speed := 1; delay := 1 # 2 |} in
  let frames :=
    map (fun i => progress_frame 30 "Preparing to push" (cells_shown 50 i)
                                 (percent_shown 50 i))
        (range (50 + 1)) in
  progress_bar self 50 "Preparing to push" (sample_state []) =
    (flat_map (fun frame => [Out frame; Flush; Sleep (delay self)]) frames
       ++ [Out NL], Return tt, sample_state [])
  /\ length frames = Z.to_nat (50 + 1)
  /\ (forall i, 0 <= i <= 50 ->
        0 <= cells_shown 50 i <= 30
        /\ 30 * i / 50 - 1 <= cells_shown 50 i <= 30 * i / 50 + 1
        /\ 0 <= percent_shown 50 i <= 100
        /\ 100 * i / 50 - 1 <= percent_shown 50 i <= 100 * i / 50 + 1)
  /\ cells_shown 50 0 = 0
  /\ percent_shown 50 0 = 0
  /\ last frames =
       Some (CR +:+ CYAN +:+ "Preparing to push" +:+ ": " +:+ GREEN +:+ "["
                +:+ str_mul Glyph.BLOCK_FULL 30 +:+ "] 100%" +:+ END).
Proof.
  split; [lia|]. split; [unfold Qle; simpl; lia|].
  apply (progress_bar_frames {| speed := 1; delay := 1 # 2 |} 50
           "Preparing to push" (sample_state [])).
  - lia.
  - unfold Qle; simpl; lia.
Defined.

(** ** Push animation *)

(** C8.  With [commits = 0] (and an animator whose delay is not
    negative) the push animation returns without raising: it writes the
    heading, the four frames of the connection bar, no upload indicator
    at all, and then the success line and the line naming the remote and
    the branch. *)
Theorem push_animation_no_commits :
  forall (self : GitAnimator) (remote branch : string) (st : State),
    (0 <= delay self)%Q ->
    let connecting k p :=
      [ Out (progress_frame 30 "Establishing connection" k p);
        Flush; Sleep (delay self) ] in
    let trace :=
      [ printed (NL +:+ MAGENTA +:+ "Pushing 0 commit(s) to " +:+ remote
                    +:+ "/" +:+ branch +:+ "..." +:+ END) ]
      ++ connecting 0 0 ++ connecting 10 33 ++ connecting 20 66
      ++ connecting 30 100
      ++ [ Out NL;
           printed (NL +:+ GREEN +:+ Glyph.CHECK_MARK
                       +:+ " Push completed successfully!" +:+ END);
           printed ("  " +:+ Glyph.ARROW_RIGHT +:+ " " +:+ BLUE +:+ remote
                         +:+ "/" +:+ branch +:+ END) ] in
    push_animation self 0 remote branch st = (trace, Return tt, st)
    /\ List.filter is_upload_indicator trace = [].
Proof.
  intros self remote branch st Hdelay connecting trace. split.
  - unfold push_animation.
    rewrite (bind_returns _ _ st _ tt st) by reflexivity.
    rewrite (bind_returns _ _ st _ tt st)
      by (apply progress_bar_trace; [lia | assumption | reflexivity]).
    reflexivity.
  - reflexivity.
Qed.

Lemma push_animation_no_commits_witness :
  (0 <= 1 # 2)%Q /\
  fst (push_animation {| speed := 1; delay := 1 # 2 |} 0 "origin" "main"
         (sample_state [])) =
  ([ printed (NL +:+ MAGENTA +:+ "Pushing 0 commit(s) to origin/main..." +:+ END);
     Out (progress_frame 30 "Establishing connection" 0 0);
     Flush; Sleep (1 # 2);
     Out (progress_frame 30 "Establishing connection" 10 33);
     Flush; Sleep (1 # 2);
     Out (progress_frame 30 "Establishing connection" 20 66);
     Flush; Sleep (1 # 2);
     Out (progress_frame 30 "Establishing connection" 30 100);
     Flush; Sleep (1 # 2);
     Out NL;
     printed (NL +:+ GREEN +:+ Glyph.CHECK_MARK
                 +:+ " Push completed successfully!" +:+ END);
     printed ("  " +:+ Glyph.ARROW_RIGHT +:+ " " +:+ BLUE +:+ "origin/main"
                   +:+ END) ], Return tt).
Proof.
  assert (Hdelay : (0 <= 1 # 2)%Q) by (unfold Qle; simpl; lia).
  split; [exact Hdelay|].
  destruct (push_animation_no_commits {| speed := 1; delay := 1 # 2 |}
              "origin" "main" (sample_state []) Hdelay) as [Hrun _].
  rewrite Hrun. reflexivity.
Defined.

(** ** Branch visualization *)

Lemma rev_recent_commits (cs : list Commit) :
  rev (if 3 <? Z.of_nat (length cs) then slice_from (-3) cs else cs)
  = shown_commits cs.
Proof.
  unfold shown_commits. destruct (3 <? Z.of_nat (length cs)) eqn:Hlen.
  - apply Z.ltb_lt in Hlen. unfold slice_from. cbn [Z.ltb Z.compare].
    rewrite firstn_rev. do 2 f_equal. lia.
  - apply Z.ltb_ge in Hlen. rewrite firstn_all2; [reflexivity|].
    rewrite length_rev. lia.
Qed.

Lemma read_list_returns l st :
  read_list l st = ([], Return (default [] (heap (world st) !! l)), st).
Proof. reflexivity. Qed.

Lemma branch_visualization_trace self repo st :
  branch_visualization self repo st =
    (printed (NL +:+ BOLD +:+ "Repository: " +:+ name repo +:+ END)
     :: printed "Branch structure:"
     :: flat_map
          (fun '(branch_name, branch) =>
             printed (branch_line repo branch_name)
             :: map (fun commit => printed ("    " +:+ commit_line commit))
                    (shown_commits (commit_list st branch)))
          (branches repo),
     Return tt, st).
Proof.
  unfold branch_visualization.
  rewrite (bind_returns _ _ st _ tt st) by reflexivity.
  rewrite (bind_returns _ _ st _ tt st) by reflexivity.
  erewrite for_each_returns; [reflexivity|].
  intros [branch_name branch] _.
  rewrite (bind_returns _ _ st _ tt st) by reflexivity.
  rewrite (bind_returns _ _ st _ _ st) by apply read_list_returns.
  rewrite rev_recent_commits.
  erewrite for_each_returns by (intros commit _; reflexivity).
  rewrite flat_map_singleton. reflexivity.
Qed.

(** C7.  The branch visualization writes, after its two heading lines
    and for every branch of the mapping in order, the line of the branch
    followed by the lines of its shown commits.  For a branch with more
    than 3 commits these are exactly its last 3 commits, the most recent
    first; for a branch with at most 3 commits they are all of its
    commits, the most recent first. *)
Theorem branch_visualization_recent_commits :
  forall (self : GitAnimator) (repo : GitRepository) (st : State),
    branch_visualization self repo st =
      (printed (NL +:+ BOLD +:+ "Repository: " +:+ name repo +:+ END)
       :: printed "Branch structure:"
       :: flat_map
            (fun '(branch_name, branch) =>
               printed (branch_line repo branch_name)
               :: map (fun commit => printed ("    " +:+ commit_line commit))
                      (shown_commits (commit_list st branch)))
            (branches repo),
       Return tt, st)
    /\ (forall older c3 c2 c1,
          shown_commits (older ++ [c3; c2; c1]) = [c1; c2; c3])
    /\ (forall cs : list Commit, (3 < length cs)%nat ->
          exists older c3 c2 c1, cs = older ++ [c3; c2; c1])
    /\ (forall cs : list Commit, (length cs <= 3)%nat ->
          shown_commits cs = rev cs).
Proof.
  intros self repo st. split; [|split; [|split]].
  - apply branch_visualization_trace.
  - intros older c3 c2 c1. unfold shown_commits.
    rewrite rev_app_distr. reflexivity.
  - intros cs Hlen.
    destruct (rev cs) as [|c1 [|c2 [|c3 r]]] eqn:Hrev;
      apply (f_equal (@length Commit)) in Hrev as Hl;
      rewrite length_rev in Hl; cbn in Hl; try lia.
    exists (rev r), c3, c2, c1.
    rewrite <- (rev_involutive cs), Hrev. cbn [rev].
    rewrite <- !app_assoc. reflexivity.
  - intros cs Hlen. unfold shown_commits. apply firstn_all2.
    rewrite length_rev. exact Hlen.
Qed.

(** ** Typewriter *)

Lemma typewriter_returns self text color st :
  (0 < speed self)%Q ->
  typewriter self text color st =
    (typewriter_trace self text color, Return tt, st).
Proof.
  intros Hspeed. unfold typewriter, typewriter_trace.
  erewrite bind_returns; [reflexivity|].
  apply for_each_returns. intros char _.
  assert (Hne : Qeq_bool (speed self) 0 = false).
  { destruct (Qeq_bool (speed self) 0) eqn:E; [|reflexivity].
    apply Qeq_bool_eq in E. rewrite E in Hspeed.
    destruct (Qlt_irrefl _ Hspeed). }
  assert (Hpause : (0 <= (3 # 100) / speed self)%Q).
  { apply Qlt_le_weak, Qlt_shift_div_l; [assumption|].
    rewrite Qmult_0_l. reflexivity. }
  unfold float_div, lift, float_div_outcome. rewrite Hne.
  unfold bind, write, flush, emit. rewrite (sleep_returns _ _ Hpause).
  reflexivity.
Qed.

(** ** Lookups in the branch mapping *)

Lemma lookup_branch_found key b st :
  dict_get key (branches (repo (system st))) = Some b ->
  lookup_branch key st = ([], Return b, st).
Proof.
  intros H. unfold lookup_branch, bind, get_repo, get_system, get_state, ret.
  cbn. rewrite H. reflexivity.
Qed.

Lemma lookup_branch_missing key st :
  dict_get key (branches (repo (system st))) = None ->
  lookup_branch key st = ([], Raise (KeyError key), st).
Proof.
  intros H. unfold lookup_branch, bind, get_repo, get_system, get_state, ret.
  cbn. rewrite H. reflexivity.
Qed.

Lemma dict_get_set_eq {V} k (v : V) d : dict_get k (dict_set k v d) = Some v.
Proof.
  induction d as [|[k' v'] d IH]; cbn.
  - rewrite String.eqb_refl. reflexivity.
  - destruct (String.eqb k' k) eqn:E; cbn; rewrite E; [reflexivity | exact IH].
Qed.

Lemma dict_get_set_ne {V} k k' (v : V) d :
  k <> k' -> dict_get k' (dict_set k v d) = dict_get k' d.
Proof.
  intros Hne. induction d as [|[k0 v0] d IH]; cbn.
  - destruct (String.eqb k k') eqn:E; [|reflexivity].
    apply String.eqb_eq in E. contradiction.
  - destruct (String.eqb k0 k) eqn:E; cbn.
    + apply String.eqb_eq in E. subst k0.
      destruct (String.eqb k k') eqn:E'; [|reflexivity].
      apply String.eqb_eq in E'. contradiction.
    + destruct (String.eqb k0 k'); [reflexivity | exact IH].
Qed.

(** ** Lesson 3 without [main] *)

Lemma GitLearningSystem_init_returns :
  GitLearningSystem_init = Return fresh_system.
Proof. reflexivity. Qed.

Lemma lesson_branching_raises st :
  dict_get "main" (branches (repo (system st))) = None ->
  (0 < speed (animator (system st)))%Q ->
  lesson_branching st =
    ([ printed (NL +:+ BOLD +:+ "=== Lesson 3: Branching and Merging ==="
                   +:+ END);
       printed (NL +:+ YELLOW +:+ "$ git branch feature-auth" +:+ END) ]
       ++ typewriter_trace (animator (system st))
            "Creating new branch 'feature-auth'..." WHITE,
     Raise (KeyError "main"), st).
Proof.
  intros Hmain Hspeed. unfold lesson_branching.
  rewrite (bind_returns _ _ st _ tt st) by reflexivity.
  rewrite (bind_returns _ _ st _ tt st) by reflexivity.
  rewrite (bind_returns _ _ st _ (animator (system st)) st) by reflexivity.
  rewrite (bind_returns _ _ st _ tt st)
    by (apply typewriter_returns; assumption).
  rewrite (bind_raises _ _ st [] (KeyError "main") st)
    by (apply lookup_branch_missing; assumption).
  cbn [app]. rewrite app_nil_r. reflexivity.
Qed.

(** C4.  In a state whose branch mapping has no [main] (and whose
    animator has a positive speed), lesson 3 writes its heading and the
    typewriter line and then raises [KeyError('main')]; the state at the
    raise is the state at the start, so no branch was created and the
    counter was not incremented.  Through [--lesson 3] the error reaches
    the caller of [main], and the mapping of the system is still empty. *)
Theorem lesson_branching_without_main :
  forall st : State,
    dict_get "main" (branches (repo (system st))) = None ->
    (0 < speed (animator (system st)))%Q ->
    lesson_branching st =
      ([ printed (NL +:+ BOLD +:+ "=== Lesson 3: Branching and Merging ==="
                     +:+ END);
         printed (NL +:+ YELLOW +:+ "$ git branch feature-auth" +:+ END) ]
         ++ typewriter_trace (animator (system st))
              "Creating new branch 'feature-auth'..." WHITE,
       Raise (KeyError "main"), st)
    /\ (forall prog w,
          let run := main [prog; "--lesson"; "3"] w in
          run_result run = Raise (KeyError "main")
          /\ run_system run = Some fresh_system
          /\ branches (repo fresh_system) = []
          /\ run_world run = w).
Proof.
  intros st Hmain Hspeed. split.
  - apply lesson_branching_raises; assumption.
  - intros prog w run. subst run.
    change (main [prog; "--lesson"; "3"] w)
      with (with_system lesson_branching w).
    unfold with_system. rewrite GitLearningSystem_init_returns.
    rewrite lesson_branching_raises by reflexivity.
    repeat split; reflexivity.
Qed.

Lemma lesson_branching_without_main_witness :
  dict_get "main" (branches (repo (system (sample_state [])))) = None
  /\ (0 < speed (animator (system (sample_state []))))%Q
  /\ snd (fst (lesson_branching (sample_state [])))
     = Raise (KeyError "main")
  /\ snd (lesson_branching (sample_state [])) = sample_state [].
Proof.
  assert (Hmain : dict_get "main" (branches (repo (system (sample_state []))))
                  = None) by reflexivity.
  assert (Hspeed : (0 < speed (animator (system (sample_state []))))%Q)
    by reflexivity.
  split; [exact Hmain|]. split; [exact Hspeed|].
  destruct (lesson_branching_without_main (sample_state []) Hmain Hspeed)
    as [Hrun _].
  rewrite Hrun. split; reflexivity.
Defined.

(** ** Reasoning on outcomes and final states *)

Lemma wp_bind {A B} (m : M A) (f : A -> M B) st Q :
  wp m st (fun r st1 =>
             match r with
             | Return a => wp (f a) st1 Q
             | Raise e => Q (Raise e) st1
             end) ->
  wp (bind m f) st Q.
Proof.
  unfold wp, bind. destruct (m st) as [[t1 [a|e]] st1]; cbn; [|auto].
  destruct (f a st1) as [[t2 r] st2]. cbn. auto.
Qed.

Lemma wp_run {A} (m : M A) st t r st' (Q : outcome A -> State -> Prop) :
  m st = (t, r, st') -> Q r st' -> wp m st Q.
Proof. unfold wp. intros ->. auto. Qed.

Ltac wp_pure := apply wp_bind; eapply wp_run; [reflexivity | cbn beta iota].
Ltac wp_by tac := apply wp_bind; eapply wp_run; [tac | cbn beta iota].

Lemma wp_commit_flow self commit st (Q : outcome unit -> State -> Prop) :
  (0 <= delay self)%Q ->
  Q (Return tt) st ->
  wp (commit_flow self commit) st Q.
Proof.
  intros Hdelay HQ. unfold commit_flow.
  change (enumerate ["Working Directory"; "Staging Area"; "Local Repository"])
    with [(0, "Working Directory"); (1, "Staging Area");
          (2, "Local Repository")].
  cbn [for_each].
  wp_pure. wp_by ltac:(apply sleep_returns; assumption).
  do 4 wp_pure.
  wp_by ltac:(rewrite (bind_returns _ _ st _ tt st) by reflexivity;
              rewrite (bind_returns _ _ st _ tt st) by reflexivity;
              rewrite sleep_returns by assumption; reflexivity).
  wp_by ltac:(rewrite (bind_returns _ _ st _ tt st) by reflexivity;
              rewrite (bind_returns _ _ st _ tt st) by reflexivity;
              rewrite sleep_returns by assumption; reflexivity).
  eapply wp_run; [|exact HQ].
  rewrite (bind_returns _ _ st _ tt st)
    by (rewrite (bind_returns _ _ st _ tt st) by reflexivity;
        rewrite (bind_returns _ _ st _ tt st) by reflexivity;
        rewrite sleep_returns by assumption; reflexivity).
  reflexivity.
Qed.

Lemma get_hex_digit r :
  exists c, String.get (r mod 16) "abcdef0123456789" = Some c.
Proof.
  pose proof (Nat.mod_upper_bound r 16 ltac:(lia)) as Hlt.
  destruct (r mod 16)%nat as [|n]; [eexists; reflexivity|].
  do 15 (destruct n as [|n]; [eexists; reflexivity|]). lia.
Qed.

Lemma wp_random_choices k st (Q : outcome (list ascii) -> State -> Prop) :
  (forall cs, Q (Return cs) (drawn k st)) ->
  wp (random_choices "abcdef0123456789" k) st Q.
Proof.
  revert st Q. induction k as [|k IH]; intros st Q HQ.
  - eapply wp_run; [reflexivity|]. destruct st as [s w], w. apply HQ.
  - cbn [random_choices]. wp_pure.
    change (String.length "abcdef0123456789") with 16%nat.
    destruct (get_hex_digit (random_draws (world st) (random_pos (world st))))
      as [c ->].
    apply wp_bind, IH. intros cs. eapply wp_run; [reflexivity|].
    specialize (HQ (c :: cs)). unfold drawn in *. cbn in *.
    replace (k + S (random_pos (world st)))%nat
      with (S (k + random_pos (world st))) by lia.
    exact HQ.
Qed.

Lemma wp_generate_commit_hash st (Q : outcome string -> State -> Prop) :
  (forall h, Q (Return h) (drawn 7 st)) ->
  wp generate_commit_hash st Q.
Proof.
  intros HQ. unfold generate_commit_hash.
  apply wp_bind, wp_random_choices. intros cs.
  eapply wp_run; [reflexivity|]. apply HQ.
Qed.

(** ** Lesson 3: the new branch and its source *)

Lemma list_copy_returns l cs st :
  heap (world st) !! l = Some cs ->
  list_copy l st =
    ([], Return (fresh (dom (heap (world st)))),
     with_heap (<[fresh (dom (heap (world st))) := cs]> (heap (world st))) st).
Proof.
  intros H. unfold list_copy.
  rewrite (bind_returns _ _ st [] cs st)
    by (rewrite read_list_returns, H; reflexivity).
  reflexivity.
Qed.

Lemma list_append_returns l c st :
  list_append l c st =
    ([], Return tt,
     with_heap (<[l := default [] (heap (world st) !! l) ++ [c]]> (heap (world st))) st).
Proof. reflexivity. Qed.


Ltac simpl_state :=
  cbn [system world repo animator lessons_completed total_lessons
       heap random_draws random_pos strftime_results strftime_pos stdin
       set_heap with_heap drawn set_branches set_current_branch
       set_is_initialized set_staged_files set_working_files
       name branches current_branch staged_files working_files remote_url
       is_initialized commits] in *.
Ltac wp_pure' := wp_pure; simpl_state.
Ltac wp_by' tac := wp_by tac; simpl_state.


Lemma fresh_not_allocated (h : gmap loc (list Commit)) :
  h !! fresh (dom h) = None.
Proof. apply not_elem_of_dom, is_fresh. Qed.

(** C6.  When [main] exists and its commit list is allocated (and the
    animator has a positive speed and a delay that is not negative),
    lesson 3 returns, and in the final state: [feature-auth] is bound to
    a branch whose commit list is a new list object, one that was not
    allocated before; that list holds the commits that [main] had when
    the branch was created, followed by the two commits of the lesson;
    [main] is still bound to the same branch and its list still holds
    exactly the commits it had, as does every other list allocated
    before.  ([main] is the current branch whenever a run reaches lesson
    3, since only lesson 3 changes the current branch.) *)
Theorem lesson_branching_snapshot :
  forall (st : State) (b : Branch) (cs : list Commit),
    dict_get "main" (branches (repo (system st))) = Some b ->
    heap (world st) !! commits b = Some cs ->
    (0 < speed (animator (system st)))%Q ->
    (0 <= delay (animator (system st)))%Q ->
    exists t st' l' c1 c2,
      lesson_branching st = (t, Return tt, st')
      /\ dict_get "feature-auth" (branches (repo (system st'))) =
           Some {| Branch_name := "feature-auth"; commits := l';
                   is_current := false |}
      /\ heap (world st) !! l' = None
      /\ heap (world st') !! l' = Some (cs ++ [c1; c2])
      /\ message c1 = "Add login functionality"
      /\ message c2 = "Add password validation"
      /\ dict_get "main" (branches (repo (system st'))) = Some b
      /\ heap (world st') !! commits b = Some cs
      /\ (forall l, l <> l' -> heap (world st') !! l = heap (world st) !! l).
Proof.
  intros st b cs Hmain Hcs Hspeed Hdelay.
  set (Q := fun (r : outcome unit) (st' : State) =>
    r = Return tt /\ exists l' c1 c2,
      dict_get "feature-auth" (branches (repo (system st'))) =
           Some {| Branch_name := "feature-auth"; commits := l';
                   is_current := false |}
      /\ heap (world st) !! l' = None
      /\ heap (world st') !! l' = Some (cs ++ [c1; c2])
      /\ message c1 = "Add login functionality"
      /\ message c2 = "Add password validation"
      /\ dict_get "main" (branches (repo (system st'))) = Some b
      /\ heap (world st') !! commits b = Some cs
      /\ (forall l, l <> l' -> heap (world st') !! l = heap (world st) !! l)).
  assert (Hwp : wp lesson_branching st Q).
  { unfold lesson_branching.
    wp_pure'. wp_pure'. wp_pure'.
    wp_by' ltac:(apply typewriter_returns; assumption).
    wp_by' ltac:(apply lookup_branch_found; eassumption).
    wp_by' ltac:(apply list_copy_returns; eassumption).
    pose proof (fresh_not_allocated (heap (world st))) as Hfresh.
    set (l' := fresh (dom (heap (world st)))) in *.
    wp_pure'. wp_pure'. wp_pure'. wp_pure'.
    wp_by' ltac:(apply typewriter_returns; assumption).
    wp_pure'.
    apply wp_bind, wp_generate_commit_hash. intros h1. simpl_state. wp_pure'.
    apply wp_bind, wp_generate_commit_hash. intros h2. simpl_state. wp_pure'.
    cbn [for_each].
    apply wp_bind. apply wp_bind.
    wp_by' ltac:(apply sleep_returns; discriminate).
    wp_pure'.
    apply wp_bind, wp_commit_flow; [assumption|].
    wp_by' ltac:(apply lookup_branch_found; apply dict_get_set_eq).
    eapply wp_run; [apply list_append_returns|]. cbn beta iota. simpl_state.
    rewrite lookup_insert_eq. cbn [default from_option id].
    apply wp_bind.
    wp_by' ltac:(apply sleep_returns; discriminate).
    wp_pure'.
    apply wp_bind, wp_commit_flow; [assumption|].
    wp_by' ltac:(apply lookup_branch_found; apply dict_get_set_eq).
    eapply wp_run; [apply list_append_returns|]. cbn beta iota. simpl_state.
    rewrite lookup_insert_eq. cbn [default from_option id].
    eapply wp_run; [reflexivity|]. cbn beta iota.
    wp_pure'. wp_pure'.
    wp_by' ltac:(apply branch_visualization_trace).
    eapply wp_run; [reflexivity|]. simpl_state.
    assert (Hne : commits b <> l') by congruence.
    unfold Q. split; [reflexivity|].
    eexists l', _, _. simpl_state. repeat split.
    - apply dict_get_set_eq.
    - exact Hfresh.
    - rewrite lookup_insert_eq, <- app_assoc. reflexivity.
    - reflexivity.
    - reflexivity.
    - rewrite dict_get_set_ne by discriminate. exact Hmain.
    - rewrite !lookup_insert_ne by congruence. exact Hcs.
    - intros l Hl. rewrite !lookup_insert_ne by congruence. reflexivity. }
  unfold wp in Hwp. destruct (lesson_branching st) as [[t r] st'].
  cbn [fst snd] in Hwp. destruct Hwp as (-> & l' & c1 & c2 & H).
  exists t, st', l', c1, c2. split; [reflexivity | exact H].
Qed.

Lemma lesson_branching_snapshot_witness :
  dict_get "main" (branches (repo (system state_with_main))) = Some main_branch
  /\ heap (world state_with_main) !! commits main_branch = Some [first_commit]
  /\ (0 < speed (animator (system state_with_main)))%Q
  /\ (0 <= delay (animator (system state_with_main)))%Q
  /\ exists t st' l' c1 c2,
      lesson_branching state_with_main = (t, Return tt, st')
      /\ dict_get "feature-auth" (branches (repo (system st'))) =
           Some {| Branch_name := "feature-auth"; commits := l';
                   is_current := false |}
      /\ heap (world state_with_main) !! l' = None
      /\ heap (world st') !! l' = Some ([first_commit] ++ [c1; c2])
      /\ message c1 = "Add login functionality"
      /\ message c2 = "Add password validation"
      /\ dict_get "main" (branches (repo (system st'))) = Some main_branch
      /\ heap (world st') !! commits main_branch = Some [first_commit]
      /\ (forall l, l <> l' ->
            heap (world st') !! l = heap (world state_with_main) !! l).
Proof.
  assert (H1 : dict_get "main" (branches (repo (system state_with_main)))
               = Some main_branch) by reflexivity.
  assert (H2 : heap (world state_with_main) !! commits main_branch
               = Some [first_commit]) by reflexivity.
  assert (H3 : (0 < speed (animator (system state_with_main)))%Q)
    by reflexivity.
  assert (H4 : (0 <= delay (animator (system state_with_main)))%Q)
    by discriminate.
  split; [exact H1|]. split; [exact H2|]. split; [exact H3|].
  split; [exact H4|].
  exact (lesson_branching_snapshot state_with_main main_branch [first_commit]
           H1 H2 H3 H4).
Defined.

Lemma scan_int_too_long s digits :
  scan_int s = TooLong digits -> (4300 < digits)%nat.
Proof.
  unfold scan_int.
  destruct (match skip_int_space s with
            | String "+" r => (1, r)
            | String "-" r => (-1, r)
            | _ => (1, skip_int_space s)
            end) as [sign r].
  assert (H : match scan_digits r 0 0 false with
              | None => Invalid
              | Some (n, d, rest) =>
                  if (d =? 0)%nat then Invalid
                  else if (max_str_digits <? d)%nat then TooLong d
                  else match skip_int_space rest with
                       | EmptyString => Value (sign * n)
                       | _ => Invalid
                       end
              end = TooLong digits -> (4300 < digits)%nat).
  { destruct (scan_digits r 0 0 false) as [[[n d] rest]|]; [|discriminate].
    destruct (d =? 0)%nat; [discriminate|].
    destruct (max_str_digits <? d)%nat eqn:E.
    - intros [= <-]. apply Nat.ltb_lt in E. exact E.
    - destruct (skip_int_space rest); discriminate. }
  destruct r as [|c r']; [exact H|].
  destruct (Ascii.eqb c "_") eqn:Ec.
  - apply Ascii.eqb_eq in Ec. subst c. discriminate.
  - intros Hs. apply H. rewrite <- Hs.
    destruct c as [[] [] [] [] [] [] [] []]; try reflexivity; discriminate.
Qed.

(** ** The entry point with [--lesson] *)

(** C5.  With [--lesson] followed by an argument that [int] reads as an
    integer [N] outside 1..4 (a literal of at most 4300 digits, with its
    sign, its underscores and the white space [int] accepts around it),
    [main] prints the line saying that lesson [N] was not found and
    returns.  The system it built is the one [GitLearningSystem()]
    returns, untouched: no branch, no file, counter at 0; the world
    (heap, random generator, clock, input) is untouched as well, so no
    lesson ran. *)
Theorem lesson_out_of_range :
  forall (prog arg : string) (rest : list string) (N : Z) (w : World),
    scan_int arg = Value N ->
    N < 1 \/ 4 < N ->
    main (prog :: "--lesson" :: arg :: rest) w =
      {| run_trace :=
           [ printed ("Lesson " +:+ str_of_int N
                                +:+ " not found. Available: 1-4") ];
         run_result := Return tt;
         run_system := Some fresh_system;
         run_world := w |}
    /\ branches (repo fresh_system) = []
    /\ staged_files (repo fresh_system) = []
    /\ working_files (repo fresh_system) = []
    /\ lessons_completed fresh_system = 0.
Proof.
  intros prog arg rest N w Harg HN. split; [|repeat split].
  unfold main.
  change (String.eqb "--lesson" "--fast") with false.
  change (String.eqb "--lesson" "--lesson") with true.
  cbn iota. unfold int_of_str. rewrite Harg.
  change (Z.of_nat (length lessons)) with 4.
  replace ((1 <=? N) && (N <=? 4)) with false
    by (symmetry; apply andb_false_iff; lia).
  reflexivity.
Qed.

Lemma lesson_out_of_range_witness :
  scan_int " -1_0" = Value (-10)
  /\ (-10 < 1 \/ 4 < -10)
  /\ main ["git_learning.py"; "--lesson"; " -1_0"] (sample_world []) =
       {| run_trace := [ printed "Lesson -10 not found. Available: 1-4" ];
          run_result := Return tt;
          run_system := Some fresh_system;
          run_world := sample_world [] |}.
Proof.
  assert (H1 : scan_int " -1_0" = Value (-10)) by reflexivity.
  assert (H2 : -10 < 1 \/ 4 < -10) by (left; lia).
  split; [exact H1|]. split; [exact H2|].
  exact (proj1 (lesson_out_of_range "git_learning.py" " -1_0" [] (-10)
                  (sample_world []) H1 H2)).
Defined.

Lemma lesson_init_returns w :
  let st := {| system := fresh_system; world := w |} in
  wp lesson_init st (fun r st' =>
    r = Return tt
    /\ system st' =
         {| repo :=
              set_branches
                [ ("main", {| Branch_name := "main";
                              commits := fresh (dom (heap w));
                              is_current := true |}) ]
                (set_is_initialized true (GitRepository_init "my-project"));
            animator := animator fresh_system;
            lessons_completed := 1;
            total_lessons := 10 |}
    /\ heap (world st') = <[fresh (dom (heap w)) := []]> (heap w)).
Proof.
  intros st. subst st. unfold lesson_init.
  wp_pure'. wp_pure'.
  wp_by' ltac:(apply typewriter_returns; reflexivity).
  wp_pure'. wp_pure'.
  wp_by' ltac:(apply progress_bar_trace; [lia | discriminate | reflexivity]).
  wp_pure'. wp_pure'. wp_pure'. wp_pure'. wp_pure'. wp_pure'.
  eapply wp_run; [reflexivity|]. simpl_state.
  repeat split; reflexivity.
Qed.

(** C10.  With [--lesson] followed by an ASCII argument that [int]
    does not convert, [main] raises [ValueError] from the conversion,
    before it builds the system and without writing anything.  When the
    argument is not an integer literal the message quotes it as [repr]
    does (in double quotes when it holds a single quote and no double
    quote, with escapes, cut after 200 characters); when it is a literal
    of more than 4300 digits the message gives the number of digits.
    With [--lesson] alone [main] runs lesson 1, exactly as with
    [--lesson 1]: the lesson returns, [main] is the only branch and the
    counter is 1. *)
Theorem lesson_argument_not_an_integer :
  forall (prog arg : string) (rest : list string) (w : World),
    is_ascii arg = true ->
    (scan_int arg = Invalid ->
       main (prog :: "--lesson" :: arg :: rest) w =
         {| run_trace := [];
            run_result :=
              Raise (ValueError ("invalid literal for int() with base 10: "
                                   +:+ str_take 200 (repr_str arg)));
            run_system := None;
            run_world := w |})
    /\ (forall digits,
          scan_int arg = TooLong digits ->
          (4300 < digits)%nat
          /\ main (prog :: "--lesson" :: arg :: rest) w =
               {| run_trace := [];
                  run_result := Raise (ValueError (exceeds_limit digits));
                  run_system := None;
                  run_world := w |})
    /\ main [prog; "--lesson"] w = with_system lesson_init w
    /\ main [prog; "--lesson"] w = main [prog; "--lesson"; "1"] w
    /\ run_result (main [prog; "--lesson"] w) = Return tt
    /\ exists s l,
         run_system (main [prog; "--lesson"] w) = Some s
         /\ lessons_completed s = 1
         /\ branches (repo s) =
              [ ("main", {| Branch_name := "main"; commits := l;
                            is_current := true |}) ].
Proof.
  intros prog arg rest w _.
  assert (Hdefault : main [prog; "--lesson"] w = with_system lesson_init w)
    by reflexivity.
  split; [|split; [|split; [exact Hdefault | split; [reflexivity|]]]].
  - intros Harg. unfold main.
    change (String.eqb "--lesson" "--fast") with false.
    change (String.eqb "--lesson" "--lesson") with true.
    cbn iota. unfold int_of_str. rewrite Harg. reflexivity.
  - intros digits Harg. split.
    + apply (scan_int_too_long arg digits Harg).
    + unfold main.
      change (String.eqb "--lesson" "--fast") with false.
      change (String.eqb "--lesson" "--lesson") with true.
      cbn iota. unfold int_of_str. rewrite Harg. reflexivity.
  - rewrite Hdefault. unfold with_system.
    rewrite GitLearningSystem_init_returns.
    pose proof (lesson_init_returns w) as Hwp. unfold wp in Hwp.
    destruct (lesson_init {| system := fresh_system; world := w |})
      as [[t r] st']. cbn [fst snd] in Hwp.
    destruct Hwp as (-> & Hsys & _). cbn [run_result run_system].
    split; [reflexivity|].
    exists (system st'), (fresh (dom (heap w))).
    rewrite Hsys. repeat split; reflexivity.
Qed.

Lemma lesson_argument_not_an_integer_witness :
  is_ascii "it's" = true
  /\ scan_int "it's" = Invalid
  /\ main ["git_learning.py"; "--lesson"; "it's"] (sample_world []) =
       {| run_trace := [];
          run_result :=
            Raise (ValueError
                     ("invalid literal for int() with base 10: "
                        +:+ DQ +:+ "it's" +:+ DQ));
          run_system := None;
          run_world := sample_world [] |}
  /\ is_ascii (str_mul "7" 4301) = true
  /\ scan_int (str_mul "7" 4301) = TooLong 4301
  /\ run_result (main ["git_learning.py"; "--lesson"; str_mul "7" 4301]
                      (sample_world []))
     = Raise (ValueError
                ("Exceeds the limit (4300 digits) for integer string "
                   +:+ "conversion: value has 4301 digits; use "
                   +:+ "sys.set_int_max_str_digits() to increase the limit")).
Proof.
  assert (H1 : is_ascii "it's" = true) by reflexivity.
  assert (H2 : scan_int "it's" = Invalid) by reflexivity.
  assert (H3 : is_ascii (str_mul "7" 4301) = true)
    by (vm_compute; reflexivity).
  assert (H4 : scan_int (str_mul "7" 4301) = TooLong 4301)
    by (vm_compute; reflexivity).
  split; [exact H1|]. split; [exact H2|]. split; [|split; [exact H3|split; [exact H4|]]].
  - exact (proj1 (lesson_argument_not_an_integer "git_learning.py" "it's" []
                    (sample_world []) H1) H2).
  - rewrite (proj2 (proj1 (proj2 (lesson_argument_not_an_integer
                                    "git_learning.py" (str_mul "7" 4301) []
                                    (sample_world []) H3)) 4301%nat H4)).
    reflexivity.
Defined.

(** ** Fast mode *)

(** C2 (the code at [--fast]).  [main] sets [speed] to 3 on an animator
    whose [delay] was computed when it was built, with speed 1: the delay
    stays 1/2.  The progress bar, the commit flow and the push animation
    read [delay] only, so their pauses are those of the default speed; in
    a whole fast run, compared with the same run at default speed, the
    pauses of the typewriter (3/100 each) are the only ones divided by
    3. *)
Theorem fast_mode_keeps_default_delay :
  let w := sample_world course_input in
  let fast := main ["git_learning.py"; "--fast"] w in
  let normal := main ["git_learning.py"] w in
  run_result fast = Return tt
  /\ animator <$> run_system fast = Some {| speed := 3; delay := 1 # 2 |}
  /\ animator <$> run_system normal = Some {| speed := 1; delay := 1 # 2 |}
  /\ (forall a s steps description st,
        progress_bar (set_speed s a) steps description st
        = progress_bar a steps description st)
  /\ (forall a s commit st,
        commit_flow (set_speed s a) commit st = commit_flow a commit st)
  /\ (forall a s n remote branch st,
        push_animation (set_speed s a) n remote branch st
        = push_animation a n remote branch st)
  /\ pauses (run_trace fast)
     = map (fun d => if Qeq_bool d (3 # 100) then 3 # 300 else d)
           (pauses (run_trace normal))
  /\ List.filter (fun d => negb (Qeq_bool d (3 # 300))) (pauses (run_trace fast))
     = [2%Q] ++ repeat (1 # 2)%Q 6      (* welcome; bar of lesson 1 *)
       ++ repeat (1 # 2)%Q 4            (* bar of lesson 2 *)
       ++ repeat (1 # 2)%Q 4            (* commit flow of lesson 2 *)
       ++ [1%Q] ++ repeat (1 # 2)%Q 4   (* first commit of lesson 3 *)
       ++ [1%Q] ++ repeat (1 # 2)%Q 4   (* second commit of lesson 3 *)
       ++ repeat (1 # 2)%Q 4            (* connection bar of lesson 4 *)
       ++ repeat (1 # 6)%Q 9            (* upload arrows of lesson 4 *)
       ++ [2%Q; 2%Q].                   (* quiz *)
Proof.
  cbv zeta. split; [vm_compute; reflexivity|].
  split; [vm_compute; reflexivity|].
  split; [vm_compute; reflexivity|].
  split; [reflexivity|]. split; [reflexivity|]. split; [reflexivity|].
  split; vm_compute; reflexivity.
Qed.

(** ** Practice mode and [git diff] *)

(** C3 (the code at [git diff]).  Practising [git diff] writes the two
    lines that present the command and the prompt, reads the
    acknowledgement, dispatches to [simulate_diff] and writes nothing
    more: the diff block is not printed.  The block is written once,
    when the class is defined, before [main] starts, whatever the
    arguments are. *)
Theorem practice_diff_prints_no_block :
  forall (s : GitLearningSystem) (w : World) (line : string)
         (rest : list stdin_item) (prog : string),
    practice_command "git diff" "Show changes in working directory"
      {| system := s; world := set_stdin (Line line :: rest) w |}
    = ([ printed (NL +:+ CYAN +:+ "Practice: git diff" +:+ END);
         printed "Description: Show changes in working directory";
         Out (YELLOW +:+ "Press Enter to simulate this command..." +:+ END) ],
       Return tt,
       {| system := s; world := set_stdin rest w |})
    /\ dispatch "git diff" = simulate_diff
    /\ (forall st, simulate_diff st = ([], Return tt, st))
    /\ run_trace (script [prog; "--help"] w)
       = map printed diff_block ++ [printed usage].
Proof.
  intros s w line rest prog. repeat split.
Qed.

Lemma branch_visualization_recent_commits_witness :
  let c k := {| hash := k; message := "m"; author := student;
                timestamp := "t" |} in
  (3 < length [c "a"; c "b"; c "c"; c "d"])%nat
  /\ (length [c "a"; c "b"] <= 3)%nat
  /\ shown_commits [c "a"; c "b"; c "c"; c "d"] = [c "d"; c "c"; c "b"]
  /\ shown_commits [c "a"; c "b"] = rev [c "a"; c "b"].
Proof.
  intros c.
  assert (H1 : (3 < length [c "a"; c "b"; c "c"; c "d"])%nat) by (cbn; lia).
  assert (H2 : (length [c "a"; c "b"] <= 3)%nat) by (cbn; lia).
  split; [exact H1|]. split; [exact H2|].
  destruct (branch_visualization_recent_commits
              {| speed := 1; delay := 1 # 2 |}
              (GitRepository_init "my-project") (sample_state []))
    as (_ & Hlast & _ & Hall).
  split.
  - exact (Hlast [c "a"] (c "b") (c "c") (c "d")).
  - exact (Hall [c "a"; c "b"] H2).
Defined.

(** * Further properties *)

(** ** Commit hashes *)

Lemma get_In n (s : string) c :
  String.get n s = Some c -> In c (list_ascii_of_string s).
Proof.
  revert n. induction s as [|a s IH]; intros n H; [discriminate|].
  destruct n as [|n]; cbn in *.
  - left. congruence.
  - right. eapply IH. exact H.
Qed.

Lemma drawn_0 st : drawn 0 st = st.
Proof. destruct st as [s w]. destruct w. reflexivity. Qed.

Lemma drawn_drawn k j st : drawn k (drawn j st) = drawn (k + j) st.
Proof.
  unfold drawn. cbn [system world heap random_draws random_pos
                     strftime_results strftime_pos stdin].
  replace (k + (j + random_pos (world st)))%nat
    with (k + j + random_pos (world st))%nat by lia.
  reflexivity.
Qed.

Lemma random_choices_shape k st :
  exists cs,
    random_choices "abcdef0123456789" k st = ([], Return cs, drawn k st)
    /\ length cs = k
    /\ Forall (fun c => In c hex_digits) cs.
Proof.
  revert st. induction k as [|k IH]; intros st.
  - exists []. rewrite drawn_0. repeat split. constructor.
  - cbn [random_choices].
    destruct (get_hex_digit (random_draws (world st) (random_pos (world st))))
      as [c Hc].
    destruct (IH (drawn 1 st)) as (cs & Hrun & Hlen & Hall).
    exists (c :: cs). split; [|split].
    + rewrite (bind_returns _ _ st []
                 (random_draws (world st) (random_pos (world st)))
                 (drawn 1 st)) by reflexivity.
      change (String.length "abcdef0123456789") with 16%nat. rewrite Hc.
      rewrite (bind_returns _ _ _ _ _ _ Hrun). cbn [app]. unfold ret.
      rewrite drawn_drawn. replace (k + 1)%nat with (S k) by lia.
      reflexivity.
    + cbn. congruence.
    + constructor; [|exact Hall]. eapply get_In. exact Hc.
Qed.

Lemma generate_commit_hash_returns st :
  exists h,
    generate_commit_hash st = ([], Return h, drawn 7 st)
    /\ String.length h = 7%nat
    /\ Forall (fun c => In c hex_digits) (list_ascii_of_string h).
Proof.
  destruct (random_choices_shape 7 st) as (cs & Hrun & Hlen & Hall).
  exists (string_of_list_ascii cs). split; [|split].
  - unfold generate_commit_hash.
    rewrite (bind_returns _ _ _ _ _ _ Hrun). reflexivity.
  - rewrite <- Hlen. clear. induction cs as [|c cs IH]; cbn; congruence.
  - rewrite list_ascii_of_string_of_list_ascii. exact Hall.
Qed.

(** X1.  [generate_commit_hash] never raises and writes nothing; it
    returns a string of exactly 7 characters, each one of
    [abcdef0123456789], and consumes exactly 7 draws of the random
    generator, leaving the rest of the state alone. *)
Theorem generate_commit_hash_shape :
  forall st : State,
    exists h,
      generate_commit_hash st = ([], Return h, drawn 7 st)
      /\ String.length h = 7%nat
      /\ Forall (fun c => In c hex_digits) (list_ascii_of_string h).
Proof. intros st. apply generate_commit_hash_returns. Qed.

(** ** Typewriter and the speed of the animator *)

Lemma Qle_bool_div_neg (a s : Q) :
  (0 < a)%Q -> (s < 0)%Q -> Qle_bool 0 (a / s) = false.
Proof.
  destruct a as [[|an|an] ad], s as [[|sn|sn] sd];
    unfold Qlt; cbn; intros Ha Hs; try lia; reflexivity.
Qed.

Lemma Qeq_bool_neg (s : Q) : (s < 0)%Q -> Qeq_bool s 0 = false.
Proof.
  intros Hs. destruct (Qeq_bool s 0) eqn:E; [|reflexivity].
  apply Qeq_bool_eq in E. rewrite E in Hs. destruct (Qlt_irrefl _ Hs).
Qed.

(** X2.  With a positive speed, [typewriter] returns and leaves the
    state alone.  For each character of the text, in order, it writes
    the character wrapped in the colour and the reset code, flushes, and
    then pauses 0.03 / speed; after the last character it writes a line
    break.  So the texts written are the wrapped characters and the line
    break, and there is one pause per character. *)
Theorem typewriter_writes_each_character :
  forall (self : GitAnimator) (text color : string) (st : State),
    (0 < speed self)%Q ->
    let t :=
      flat_map (fun char =>
                  [ Out (color +:+ String char EmptyString +:+ END);
                    Flush;
                    Sleep (0.03 / speed self) ])
               (list_ascii_of_string text)
      ++ [Out NL] in
    typewriter self text color st = (t, Return tt, st)
    /\ written t =
         map (fun char => color +:+ String char EmptyString +:+ END)
             (list_ascii_of_string text) ++ [NL]
    /\ pauses t = repeat (0.03 / speed self)%Q (String.length text).
Proof.
  intros self text color st Hspeed t. subst t.
  split; [apply typewriter_returns; assumption|].
  unfold written, pauses.
  split; induction text as [|c text IH]; cbn in *; congruence.
Qed.

Lemma typewriter_writes_each_character_witness :
  (0 < speed {| speed := 3; delay := 1 # 2 |})%Q
  /\ typewriter {| speed := 3; delay := 1 # 2 |} "Hi" WHITE (sample_state [])
     = ([ Out (WHITE +:+ "H" +:+ END); Flush; Sleep (0.03 / 3);
          Out (WHITE +:+ "i" +:+ END); Flush; Sleep (0.03 / 3);
          Out NL ],
        Return tt, sample_state []).
Proof.
  assert (H : (0 < speed {| speed := 3; delay := 1 # 2 |})%Q) by reflexivity.
  split; [exact H|].
  exact (proj1 (typewriter_writes_each_character
                  {| speed := 3; delay := 1 # 2 |} "Hi" WHITE
                  (sample_state []) H)).
Defined.

(** X3.  With a speed that is not positive, [typewriter] fails on a text
    that is not empty, after it has written and flushed the first
    character: with [ZeroDivisionError] when the speed is 0, with
    [ValueError] (a negative pause) when it is negative.  The state is
    unchanged.  On the empty text it writes the line break and returns,
    whatever the speed. *)
Theorem typewriter_speed_not_positive :
  forall (self : GitAnimator) (c : ascii) (rest color : string) (st : State),
    ((speed self == 0)%Q ->
       typewriter self (String c rest) color st =
         ([Out (color +:+ String c EmptyString +:+ END); Flush],
          Raise (ZeroDivisionError "float division by zero"), st))
    /\ ((speed self < 0)%Q ->
       typewriter self (String c rest) color st =
         ([Out (color +:+ String c EmptyString +:+ END); Flush],
          Raise (ValueError "sleep length must be non-negative"), st))
    /\ typewriter self EmptyString color st = ([Out NL], Return tt, st).
Proof.
  intros self c rest color st. split; [|split]; [| |reflexivity].
  - intros Hzero. apply Qeq_bool_iff in Hzero.
    unfold typewriter. cbn [list_ascii_of_string for_each].
    unfold bind, write, flush, emit, float_div, lift, float_div_outcome.
    rewrite Hzero. reflexivity.
  - intros Hneg.
    unfold typewriter. cbn [list_ascii_of_string for_each].
    unfold bind, write, flush, emit, float_div, lift, float_div_outcome, sleep.
    rewrite (Qeq_bool_neg _ Hneg).
    rewrite (Qle_bool_div_neg (3 # 100) (speed self)) by (reflexivity || exact Hneg).
    reflexivity.
Qed.

Lemma typewriter_speed_not_positive_witness :
  (speed {| speed := 0; delay := 1 # 2 |} == 0)%Q
  /\ (speed {| speed := -2; delay := 1 # 2 |} < 0)%Q
  /\ typewriter {| speed := 0; delay := 1 # 2 |} "Hi" WHITE (sample_state [])
     = ([Out (WHITE +:+ "H" +:+ END); Flush],
        Raise (ZeroDivisionError "float division by zero"), sample_state [])
  /\ typewriter {| speed := -2; delay := 1 # 2 |} "Hi" WHITE (sample_state [])
     = ([Out (WHITE +:+ "H" +:+ END); Flush],
        Raise (ValueError "sleep length must be non-negative"),
        sample_state []).
Proof.
  assert (H0 : (speed {| speed := 0; delay := 1 # 2 |} == 0)%Q) by reflexivity.
  assert (H1 : (speed {| speed := -2; delay := 1 # 2 |} < 0)%Q) by reflexivity.
  split; [exact H0|]. split; [exact H1|]. split.
  - exact (proj1 (typewriter_speed_not_positive
                    {| speed := 0; delay := 1 # 2 |} "H" "i" WHITE
                    (sample_state [])) H0).
  - exact (proj1 (proj2 (typewriter_speed_not_positive
                    {| speed := -2; delay := 1 # 2 |} "H" "i" WHITE
                    (sample_state []))) H1).
Defined.

Lemma range_cons n : 0 < n -> exists l, range n = 0 :: l.
Proof.
  intros Hn. unfold range. destruct (Z.to_nat n) as [|k] eqn:E; [lia|].
  eexists. cbn [seq map]. reflexivity.
Qed.


Lemma progress_bar_negative_delay self steps description st :
  0 < steps -> (delay self < 0)%Q ->
  progress_bar self steps description st
  = ([Out (progress_frame 30 description 0 0); Flush],
     Raise (ValueError "sleep length must be non-negative"), st).
Proof.
  intros Hsteps Hneg. unfold progress_bar.
  destruct (range_cons (steps + 1) ltac:(lia)) as [l ->].
  cbn [for_each]. apply bind_raises. apply bind_raises.
  unfold bind at 1. rewrite true_div_returns by lia.
  destruct (shown_at_start steps Hsteps) as [Hc Hp].
  unfold cells_shown, percent_shown in Hc, Hp.
  cbv zeta. change (inject_Z 30) with 30%Q. rewrite Hc, Hp.
  unfold bind, write, flush, emit, sleep.
  destruct (Qle_bool 0 (delay self)) eqn:E; [|reflexivity].
  apply Qle_bool_iff in E. destruct (Qlt_not_le _ _ Hneg E).
Qed.

Lemma Qdiv_half_neg s : (s < 0)%Q -> ((1 # 2) / s < 0)%Q.
Proof.
  intros Hneg. apply Qnot_le_lt. intros Hle.
  apply Qle_bool_iff in Hle.
  rewrite (Qle_bool_div_neg (1 # 2) s) in Hle by (reflexivity || exact Hneg).
  discriminate.
Qed.

(** X4.  [GitAnimator(speed)] raises [ZeroDivisionError] for speed 0.
    For a negative speed it builds an animator whose delay, (1 # 2) / speed,
    is negative; every progress bar of at least one step on that
    animator writes and flushes its first frame and then raises
    [ValueError] at the first pause.  For a positive speed the delay is
    positive. *)
Theorem animator_speed_edge_cases :
  forall s : Q,
    ((s == 0)%Q ->
       GitAnimator_init s = Raise (ZeroDivisionError "float division by zero"))
    /\ ((s < 0)%Q ->
       GitAnimator_init s = Return {| speed := s; delay := (1 # 2) / s |}
       /\ forall steps description st,
            0 < steps ->
            progress_bar {| speed := s; delay := (1 # 2) / s |} steps description st
            = ([Out (progress_frame 30 description 0 0); Flush],
               Raise (ValueError "sleep length must be non-negative"), st))
    /\ ((0 < s)%Q ->
       GitAnimator_init s = Return {| speed := s; delay := (1 # 2) / s |}
       /\ (0 < (1 # 2) / s)%Q).
Proof.
  intros s. split; [|split].
  - intros Hzero. apply Qeq_bool_iff in Hzero.
    unfold GitAnimator_init, float_div_outcome. rewrite Hzero. reflexivity.
  - intros Hneg. split.
    + unfold GitAnimator_init, float_div_outcome.
      rewrite (Qeq_bool_neg _ Hneg). reflexivity.
    + intros steps description st Hsteps.
      apply progress_bar_negative_delay; [assumption|].
      apply Qdiv_half_neg. exact Hneg.
  - intros Hpos. split.
    + unfold GitAnimator_init, float_div_outcome.
      destruct (Qeq_bool s 0) eqn:E; [|reflexivity].
      apply Qeq_bool_eq in E. rewrite E in Hpos.
      destruct (Qlt_irrefl _ Hpos).
    + apply Qlt_shift_div_l; [assumption|]. rewrite Qmult_0_l. reflexivity.
Qed.

Lemma animator_speed_edge_cases_witness :
  (0 == 0)%Q /\ (-1 < 0)%Q /\ (0 < 3)%Q /\ (0 < 2)%Z
  /\ GitAnimator_init 0 = Raise (ZeroDivisionError "float division by zero")
  /\ progress_bar {| speed := -1; delay := (1 # 2) / -1 |} 2 "x" (sample_state [])
     = ([Out (progress_frame 30 "x" 0 0); Flush],
        Raise (ValueError "sleep length must be non-negative"),
        sample_state [])
  /\ GitAnimator_init 3 = Return {| speed := 3; delay := (1 # 2) / 3 |}.
Proof.
  assert (H0 : (0 == 0)%Q) by reflexivity.
  assert (H1 : (-1 < 0)%Q) by reflexivity.
  assert (H2 : (0 < 3)%Q) by reflexivity.
  assert (H3 : (0 < 2)%Z) by lia.
  repeat (split; [assumption|]).
  split; [|split].
  - exact (proj1 (animator_speed_edge_cases 0) H0).
  - exact (proj2 (proj1 (proj2 (animator_speed_edge_cases (-1))) H1)
             2 "x" (sample_state []) H3).
  - exact (proj1 (proj2 (proj2 (animator_speed_edge_cases 3)) H2)).
Defined.

(** ** Push animation and lesson 4 *)

Lemma Qle_div_3 d : (0 <= d)%Q -> (0 <= d / 3)%Q.
Proof.
  intros Hd. unfold Qdiv. apply Qmult_le_0_compat; [assumption|discriminate].
Qed.

Lemma push_animation_trace self n remote branch st :
  (0 <= delay self)%Q ->
  push_animation self n remote branch st =
    ([ printed (NL +:+ MAGENTA +:+ "Pushing " +:+ str_of_int n
                   +:+ " commit(s) to " +:+ remote +:+ "/" +:+ branch
                   +:+ "..." +:+ END) ]
       ++ (flat_map (frame_events self 3 "Establishing connection") (range 4)
             ++ [Out NL])
       ++ flat_map (upload_events self n) (range n)
       ++ [ printed (NL +:+ GREEN +:+ Glyph.CHECK_MARK
                        +:+ " Push completed successfully!" +:+ END);
            printed ("  " +:+ Glyph.ARROW_RIGHT +:+ " " +:+ BLUE +:+ remote
                          +:+ "/" +:+ branch +:+ END) ],
     Return tt, st).
Proof.
  intros Hdelay. unfold push_animation.
  rewrite (bind_returns _ _ st _ tt st) by reflexivity.
  rewrite (bind_returns _ _ st _ tt st)
    by (apply progress_bar_trace; [lia | assumption | reflexivity]).
  rewrite (bind_returns _ _ st (flat_map (upload_events self n) (range n))
             tt st).
  - reflexivity.
  - apply for_each_returns. intros i _.
    rewrite (bind_returns _ _ st _ tt st) by reflexivity.
    rewrite (for_each_returns (range 3) _ (fun _ => arrow_events self) st).
    + change (range 3) with [0; 1; 2]. cbn [flat_map].
      unfold upload_events. rewrite app_nil_r. reflexivity.
    + intros j _.
      rewrite (bind_returns _ _ st _ tt st) by reflexivity.
      rewrite (bind_returns _ _ st _ tt st) by reflexivity.
      rewrite (sleep_returns _ st (Qle_div_3 _ Hdelay)). reflexivity.
Qed.

Lemma prefix_append p s : String.prefix p (p +:+ s) = true.
Proof.
  induction p as [|a p IH].
  - destruct s; reflexivity.
  - change (String a p +:+ s) with (String a (p +:+ s)).
    change (String.prefix (String a p) (String a (p +:+ s)))
      with (if ascii_dec a a then String.prefix p (p +:+ s) else false).
    destruct (ascii_dec a a) as [_|Hne]; [exact IH | contradiction].
Qed.

Lemma is_upload_indicator_upload i n :
  is_upload_indicator (Out (upload_indicator i n)) = true.
Proof.
  change (upload_indicator i n)
    with ((CR +:+ CYAN +:+ "Uploading commit ")
            +:+ (str_of_int (i + 1) +:+ "/" +:+ str_of_int n +:+ " ")).
  apply prefix_append.
Qed.

Lemma filter_upload_events self n l :
  length (List.filter is_upload_indicator (flat_map (upload_events self n) l))
  = length l.
Proof.
  induction l as [|i l IH]; [reflexivity|].
  cbn [flat_map]. rewrite List.filter_app, length_app, IH.
  unfold upload_events. cbn [List.filter].
  rewrite is_upload_indicator_upload.
  rewrite !List.filter_app.
  change (List.filter is_upload_indicator (arrow_events self)) with (@nil event).
  reflexivity.
Qed.

Lemma filter_typewriter_trace self text :
  List.filter is_upload_indicator (typewriter_trace self text WHITE) = [].
Proof.
  unfold typewriter_trace. rewrite List.filter_app.
  induction (list_ascii_of_string text) as [|c l IH]; [reflexivity|].
  cbn [flat_map]. rewrite List.filter_app. exact IH.
Qed.

Lemma push_animation_count self n remote branch st :
  (0 <= delay self)%Q ->
  length (List.filter is_upload_indicator
            (fst (fst (push_animation self n remote branch st))))
  = Z.to_nat n.
Proof.
  intros Hdelay. rewrite push_animation_trace by assumption. cbn [fst].
  change (List.filter is_upload_indicator
            ([ printed (NL +:+ MAGENTA +:+ "Pushing " +:+ str_of_int n
                           +:+ " commit(s) to " +:+ remote +:+ "/" +:+ branch
                           +:+ "..." +:+ END) ]
               ++ (flat_map (frame_events self 3 "Establishing connection")
                            (range 4) ++ [Out NL])
               ++ flat_map (upload_events self n) (range n)
               ++ [ printed (NL +:+ GREEN +:+ Glyph.CHECK_MARK
                                +:+ " Push completed successfully!" +:+ END);
                    printed ("  " +:+ Glyph.ARROW_RIGHT +:+ " " +:+ BLUE
                                  +:+ remote +:+ "/" +:+ branch +:+ END) ]))
    with (List.filter is_upload_indicator
            (flat_map (upload_events self n) (range n)
               ++ [ printed (NL +:+ GREEN +:+ Glyph.CHECK_MARK
                                +:+ " Push completed successfully!" +:+ END);
                    printed ("  " +:+ Glyph.ARROW_RIGHT +:+ " " +:+ BLUE
                                  +:+ remote +:+ "/" +:+ branch +:+ END) ])).
  rewrite List.filter_app, length_app, filter_upload_events, length_range.
  change (List.filter is_upload_indicator
            [ printed (NL +:+ GREEN +:+ Glyph.CHECK_MARK
                          +:+ " Push completed successfully!" +:+ END);
              printed ("  " +:+ Glyph.ARROW_RIGHT +:+ " " +:+ BLUE
                            +:+ remote +:+ "/" +:+ branch +:+ END) ])
    with (@nil event).
  cbn [length]. lia.
Qed.

(** X5.  For every commit count [n] (and an animator whose delay is not
    negative) the push animation returns and leaves the state alone.  Its
    trace is the heading, the four frames of the connection bar and
    their line break, then for each [i] below [n] the indicator
    "Uploading commit i+1/n" followed by three arrows, and the two
    closing lines; so it holds exactly [n] upload indicators, and none
    when [n] is negative. *)
Theorem push_animation_uploads :
  forall (self : GitAnimator) (n : Z) (remote branch : string) (st : State),
    (0 <= delay self)%Q ->
    let connecting k p :=
      [ Out (progress_frame 30 "Establishing connection" k p);
        Flush; Sleep (delay self) ] in
    let trace :=
      [ printed (NL +:+ MAGENTA +:+ "Pushing " +:+ str_of_int n
                    +:+ " commit(s) to " +:+ remote +:+ "/" +:+ branch
                    +:+ "..." +:+ END) ]
      ++ (connecting 0 0 ++ connecting 10 33 ++ connecting 20 66
            ++ connecting 30 100 ++ [Out NL])
      ++ flat_map (upload_events self n) (range n)
      ++ [ printed (NL +:+ GREEN +:+ Glyph.CHECK_MARK
                       +:+ " Push completed successfully!" +:+ END);
           printed ("  " +:+ Glyph.ARROW_RIGHT +:+ " " +:+ BLUE +:+ remote
                         +:+ "/" +:+ branch +:+ END) ] in
    push_animation self n remote branch st = (trace, Return tt, st)
    /\ length (List.filter is_upload_indicator trace) = Z.to_nat n
    /\ length (flat_map (upload_events self n) (range n))
       = (10 * Z.to_nat n)%nat.
Proof.
  intros self n remote branch st Hdelay connecting trace. subst trace.
  split; [|split].
  - rewrite push_animation_trace by assumption. reflexivity.
  - pose proof (push_animation_count self n remote branch st Hdelay) as Hcount.
    rewrite push_animation_trace in Hcount by assumption. exact Hcount.
  - rewrite <- (length_range n).
    induction (range n) as [|i l IH]; [reflexivity|].
    cbn [flat_map]. rewrite length_app, IH. cbn [length]. 
    unfold upload_events, arrow_events. cbn [length app]. lia.
Qed.

Lemma push_animation_uploads_witness :
  (0 <= delay {| speed := 1; delay := 1 # 2 |})%Q
  /\ length (List.filter is_upload_indicator
               (fst (fst (push_animation {| speed := 1; delay := 1 # 2 |} 2
                            "origin" "main" (sample_state [])))))
     = 2%nat.
Proof.
  assert (H : (0 <= delay {| speed := 1; delay := 1 # 2 |})%Q) by discriminate.
  split; [exact H|].
  destruct (push_animation_uploads {| speed := 1; delay := 1 # 2 |} 2
              "origin" "main" (sample_state []) H)
    as (Hrun & Hcount & _).
  rewrite Hrun. exact Hcount.
Defined.

Lemma lesson_push_trace st b :
  dict_get (current_branch (repo (system st))) (branches (repo (system st)))
    = Some b ->
  (0 < speed (animator (system st)))%Q ->
  (0 <= delay (animator (system st)))%Q ->
  lesson_push st =
    ([ printed (NL +:+ BOLD +:+ "=== Lesson 4: Pushing to Remote ===" +:+ END) ]
       ++ typewriter_trace (animator (system st))
            ("Remote repository: " +:+ remote_url (repo (system st))) WHITE
       ++ [ printed (NL +:+ YELLOW +:+ "$ git push origin "
                        +:+ current_branch (repo (system st)) +:+ END) ]
       ++ fst (fst (push_animation (animator (system st))
                      (Z.of_nat (length (commit_list st b))) "origin"
                      (current_branch (repo (system st))) st)),
     Return tt, counted st).
Proof.
  intros Hcur Hspeed Hdelay. unfold lesson_push.
  rewrite (bind_returns _ _ st _ tt st) by reflexivity.
  rewrite (bind_returns _ _ st _ (animator (system st)) st) by reflexivity.
  rewrite (bind_returns _ _ st _ (repo (system st)) st) by reflexivity.
  rewrite (bind_returns _ _ st _ tt st)
    by (apply typewriter_returns; assumption).
  rewrite (bind_returns _ _ st _ (repo (system st)) st) by reflexivity.
  rewrite (bind_returns _ _ st _ tt st) by reflexivity.
  rewrite (bind_returns _ _ st _ (repo (system st)) st) by reflexivity.
  rewrite (bind_returns _ _ st _ b st)
    by (apply lookup_branch_found; assumption).
  rewrite (bind_returns _ _ st _ _ st) by apply read_list_returns.
  rewrite (bind_returns _ _ st _ (animator (system st)) st) by reflexivity.
  rewrite (bind_returns _ _ st _ (repo (system st)) st) by reflexivity.
  rewrite push_animation_trace by assumption.
  rewrite (bind_returns _ _ st _ tt st)
    by (apply push_animation_trace; assumption).
  change (incr_lessons_completed st) with (@nil event, Return tt, counted st).
  cbn [app fst]. rewrite app_nil_r. reflexivity.
Qed.

(** X6.  When the current branch is in the mapping (and the animator
    has a positive speed and a delay that is not negative), lesson 4
    returns; it changes nothing but the counter of completed lessons,
    which grows by one, and it writes exactly one upload indicator per
    commit of the current branch. *)
Theorem lesson_push_uploads_current_branch :
  forall (st : State) (b : Branch),
    dict_get (current_branch (repo (system st))) (branches (repo (system st)))
      = Some b ->
    (0 < speed (animator (system st)))%Q ->
    (0 <= delay (animator (system st)))%Q ->
    exists t,
      lesson_push st = (t, Return tt, counted st)
      /\ length (List.filter is_upload_indicator t)
         = length (commit_list st b).
Proof.
  intros st b Hcur Hspeed Hdelay. eexists. split.
  - apply lesson_push_trace; eassumption.
  - rewrite !List.filter_app, !length_app, filter_typewriter_trace.
    rewrite push_animation_count by assumption.
    change (List.filter is_upload_indicator
              [printed (NL +:+ BOLD +:+ "=== Lesson 4: Pushing to Remote ==="
                           +:+ END)]) with (@nil event).
    change (List.filter is_upload_indicator
              [printed (NL +:+ YELLOW +:+ "$ git push origin "
                           +:+ current_branch (repo (system st)) +:+ END)])
      with (@nil event).
    cbn [length]. lia.
Qed.

Lemma lesson_push_uploads_current_branch_witness :
  dict_get (current_branch (repo (system state_with_main)))
           (branches (repo (system state_with_main))) = Some main_branch
  /\ (0 < speed (animator (system state_with_main)))%Q
  /\ (0 <= delay (animator (system state_with_main)))%Q
  /\ exists t,
      lesson_push state_with_main = (t, Return tt, counted state_with_main)
      /\ length (List.filter is_upload_indicator t)
         = length (commit_list state_with_main main_branch).
Proof.
  assert (H1 : dict_get (current_branch (repo (system state_with_main)))
                 (branches (repo (system state_with_main))) = Some main_branch)
    by reflexivity.
  assert (H2 : (0 < speed (animator (system state_with_main)))%Q)
    by reflexivity.
  assert (H3 : (0 <= delay (animator (system state_with_main)))%Q)
    by discriminate.
  split; [exact H1|]. split; [exact H2|]. split; [exact H3|].
  exact (lesson_push_uploads_current_branch state_with_main main_branch
           H1 H2 H3).
Defined.

Lemma lesson_push_raises st :
  dict_get (current_branch (repo (system st))) (branches (repo (system st)))
    = None ->
  (0 < speed (animator (system st)))%Q ->
  lesson_push st =
    ([ printed (NL +:+ BOLD +:+ "=== Lesson 4: Pushing to Remote ===" +:+ END) ]
       ++ typewriter_trace (animator (system st))
            ("Remote repository: " +:+ remote_url (repo (system st))) WHITE
       ++ [ printed (NL +:+ YELLOW +:+ "$ git push origin "
                        +:+ current_branch (repo (system st)) +:+ END) ],
     Raise (KeyError (current_branch (repo (system st)))), st).
Proof.
  intros Hcur Hspeed. unfold lesson_push.
  rewrite (bind_returns _ _ st _ tt st) by reflexivity.
  rewrite (bind_returns _ _ st _ (animator (system st)) st) by reflexivity.
  rewrite (bind_returns _ _ st _ (repo (system st)) st) by reflexivity.
  rewrite (bind_returns _ _ st _ tt st)
    by (apply typewriter_returns; assumption).
  rewrite (bind_returns _ _ st _ (repo (system st)) st) by reflexivity.
  rewrite (bind_returns _ _ st _ tt st) by reflexivity.
  rewrite (bind_returns _ _ st _ (repo (system st)) st) by reflexivity.
  rewrite (bind_raises _ _ st [] (KeyError (current_branch (repo (system st))))
             st) by (apply lookup_branch_missing; assumption).
  cbn [app]. reflexivity.
Qed.

(** X7.  When the current branch is not in the mapping (and the
    animator has a positive speed), lesson 4 writes its heading, the
    typewriter line with the address of the remote and the command line
    and then raises [KeyError] with the name of the current branch;
    nothing is pushed (no upload indicator is written), the counter is
    not incremented and the state is unchanged. *)
Theorem lesson_push_without_current_branch :
  forall st : State,
    dict_get (current_branch (repo (system st))) (branches (repo (system st)))
      = None ->
    (0 < speed (animator (system st)))%Q ->
    let t :=
      [ printed (NL +:+ BOLD +:+ "=== Lesson 4: Pushing to Remote ==="
                    +:+ END) ]
      ++ (flat_map (fun char =>
                      [ Out (WHITE +:+ String char EmptyString +:+ END);
                        Flush;
                        Sleep (0.03 / speed (animator (system st))) ])
                   (list_ascii_of_string
                      ("Remote repository: "
                         +:+ remote_url (repo (system st))))
            ++ [Out NL])
      ++ [ printed (NL +:+ YELLOW +:+ "$ git push origin "
                       +:+ current_branch (repo (system st)) +:+ END) ] in
    lesson_push st =
      (t, Raise (KeyError (current_branch (repo (system st)))), st)
    /\ List.filter is_upload_indicator t = [].
Proof.
  intros st Hcur Hspeed t. subst t. split.
  - apply lesson_push_raises; assumption.
  - pose proof (filter_typewriter_trace (animator (system st))
                  ("Remote repository: " +:+ remote_url (repo (system st))))
      as Hfilter.
    unfold typewriter_trace in Hfilter.
    rewrite List.filter_app, List.filter_app, Hfilter. reflexivity.
Qed.

Lemma lesson_push_without_current_branch_witness :
  dict_get (current_branch (repo (system (sample_state []))))
           (branches (repo (system (sample_state [])))) = None
  /\ (0 < speed (animator (system (sample_state []))))%Q
  /\ exists t,
      lesson_push (sample_state []) =
        (t, Raise (KeyError "main"), sample_state [])
      /\ List.filter is_upload_indicator t = [].
Proof.
  assert (H1 : dict_get (current_branch (repo (system (sample_state []))))
                 (branches (repo (system (sample_state [])))) = None)
    by reflexivity.
  assert (H2 : (0 < speed (animator (system (sample_state []))))%Q)
    by reflexivity.
  split; [exact H1|]. split; [exact H2|].
  destruct (lesson_push_without_current_branch (sample_state []) H1 H2)
    as [Hrun Hnone].
  eexists. split; [exact Hrun | exact Hnone].
Defined.

(** ** The log of the practice mode *)

Lemma rev_slice_from_neg {A} (k : nat) (l : list A) :
  (0 < k)%nat ->
  rev (slice_from (- Z.of_nat k) l) = take k (rev l).
Proof.
  intros Hk. unfold slice_from.
  replace (- Z.of_nat k <? 0) with true by lia.
  rewrite firstn_rev. do 2 f_equal. lia.
Qed.

(** X8.  When the current branch is in the mapping, [simulate_log]
    returns, leaves the state alone and writes one line per commit for
    the last five commits of the branch at most, the most recent first.
    When the current branch is not in the mapping it writes nothing and
    raises [KeyError] with the name of the current branch. *)
Theorem simulate_log_last_five :
  forall st : State,
    (forall b,
       dict_get (current_branch (repo (system st)))
                (branches (repo (system st))) = Some b ->
       simulate_log st =
         (map (fun commit => printed (commit_line commit))
              (take 5 (rev (commit_list st b))),
          Return tt, st))
    /\ (dict_get (current_branch (repo (system st)))
                 (branches (repo (system st))) = None ->
        simulate_log st =
          ([], Raise (KeyError (current_branch (repo (system st)))), st)).
Proof.
  intros st. split.
  - intros b Hcur. unfold simulate_log.
    rewrite (bind_returns _ _ st _ (repo (system st)) st) by reflexivity.
    rewrite (bind_returns _ _ st _ b st)
      by (apply lookup_branch_found; assumption).
    rewrite (bind_returns _ _ st _ _ st) by apply read_list_returns.
    rewrite (rev_slice_from_neg 5) by lia.
    erewrite for_each_returns by (intros commit _; reflexivity).
    rewrite flat_map_singleton. reflexivity.
  - intros Hcur. unfold simulate_log.
    rewrite (bind_returns _ _ st _ (repo (system st)) st) by reflexivity.
    rewrite (bind_raises _ _ st [] (KeyError (current_branch (repo (system st))))
               st) by (apply lookup_branch_missing; assumption).
    reflexivity.
Qed.

Lemma simulate_log_last_five_witness :
  dict_get (current_branch (repo (system state_with_main)))
           (branches (repo (system state_with_main))) = Some main_branch
  /\ dict_get (current_branch (repo (system (sample_state []))))
              (branches (repo (system (sample_state [])))) = None
  /\ simulate_log state_with_main =
       ([printed (commit_line first_commit)], Return tt, state_with_main)
  /\ simulate_log (sample_state []) =
       ([], Raise (KeyError "main"), sample_state []).
Proof.
  assert (H1 : dict_get (current_branch (repo (system state_with_main)))
                 (branches (repo (system state_with_main))) = Some main_branch)
    by reflexivity.
  assert (H2 : dict_get (current_branch (repo (system (sample_state []))))
                 (branches (repo (system (sample_state [])))) = None)
    by reflexivity.
  split; [exact H1|]. split; [exact H2|]. split.
  - exact (proj1 (simulate_log_last_five state_with_main) main_branch H1).
  - exact (proj2 (simulate_log_last_five (sample_state [])) H2).
Defined.

(** ** What the interactive parts leave alone *)

Lemma same_repository_refl st : same_repository st st.
Proof. split; reflexivity. Qed.

Lemma same_repository_trans st1 st2 st3 :
  same_repository st1 st2 -> same_repository st2 st3 ->
  same_repository st1 st3.
Proof. intros [H1 H2] [H3 H4]. split; congruence. Qed.

Lemma preserves_bind {A B} (m : M A) (f : A -> M B) :
  preserves m -> (forall a, preserves (f a)) -> preserves (bind m f).
Proof.
  intros Hm Hf st. specialize (Hm st). unfold bind.
  destruct (m st) as [[t1 [a|e]] st1]; cbn [snd] in *; [|exact Hm].
  specialize (Hf a st1). destruct (f a st1) as [[t2 r] st2]. cbn [snd] in *.
  eapply same_repository_trans; eassumption.
Qed.

Lemma preserves_ret {A} (a : A) : preserves (ret a).
Proof. intros st. apply same_repository_refl. Qed.

Lemma preserves_raise {A} e : preserves (@raise A e).
Proof. intros st. apply same_repository_refl. Qed.

Lemma preserves_emit e : preserves (emit e).
Proof. intros st. apply same_repository_refl. Qed.

Lemma preserves_print s : preserves (print s).
Proof. apply preserves_emit. Qed.

Lemma preserves_write s : preserves (write s).
Proof. apply preserves_emit. Qed.

Lemma preserves_lift {A} (o : outcome A) : preserves (lift o).
Proof. intros st. apply same_repository_refl. Qed.

Lemma preserves_sleep d : preserves (sleep d).
Proof.
  intros st. unfold sleep. destruct (Qle_bool 0 d); apply same_repository_refl.
Qed.

Lemma preserves_true_div a b : preserves (true_div a b).
Proof.
  intros st. unfold true_div.
  destruct (b =? 0); [apply same_repository_refl|].
  destruct (Qle_bool _ _); apply same_repository_refl.
Qed.

Lemma preserves_input prompt : preserves (input prompt).
Proof.
  intros st. unfold input, bind, write, emit, get_world, get_state, ret,
    put_world, put_state, raise. cbn.
  destruct (stdin (world st)) as [|[s|] rest]; cbn; split; reflexivity.
Qed.

Lemma preserves_get_system : preserves get_system.
Proof. intros st. apply same_repository_refl. Qed.

Lemma preserves_get_repo : preserves get_repo.
Proof. intros st. apply same_repository_refl. Qed.

Lemma preserves_get_animator : preserves get_animator.
Proof. intros st. apply same_repository_refl. Qed.

Lemma preserves_read_list l : preserves (read_list l).
Proof. intros st. apply same_repository_refl. Qed.

Lemma preserves_lookup_branch key : preserves (lookup_branch key).
Proof.
  intros st. unfold lookup_branch, bind, get_repo, get_system, get_state, ret.
  cbn. destruct (dict_get key (branches (repo (system st))));
    apply same_repository_refl.
Qed.

Lemma preserves_for_each {A} (l : list A) (body : A -> M unit) :
  (forall x, preserves (body x)) -> preserves (for_each l body).
Proof.
  intros Hbody. induction l as [|x l IH]; cbn [for_each].
  - apply preserves_ret.
  - apply preserves_bind; [apply Hbody | intros _; exact IH].
Qed.

Lemma preserves_for_fold {A S} (l : list A) (acc : S) (body : A -> S -> M S) :
  (forall x s, preserves (body x s)) -> preserves (for_fold l acc body).
Proof.
  intros Hbody. revert acc. induction l as [|x l IH]; intros acc;
    cbn [for_fold].
  - apply preserves_ret.
  - apply preserves_bind; [apply Hbody | intros acc'; apply IH].
Qed.

Lemma preserves_typewriter self text color :
  preserves (typewriter self text color).
Proof.
  unfold typewriter. apply preserves_bind; [|intros _; apply preserves_print].
  apply preserves_for_each. intros char.
  apply preserves_bind; [apply preserves_write|intros _].
  apply preserves_bind; [apply preserves_emit|intros _].
  apply preserves_bind; [apply preserves_lift|intros d].
  apply preserves_sleep.
Qed.

Ltac preserves_step :=
  first
    [ apply preserves_ret | apply preserves_print | apply preserves_write
    | apply preserves_emit | apply preserves_sleep | apply preserves_input
    | apply preserves_true_div | apply preserves_lift
    | apply preserves_get_system | apply preserves_get_repo
    | apply preserves_get_animator | apply preserves_read_list
    | apply preserves_lookup_branch | apply preserves_typewriter
    | apply preserves_raise
    | apply preserves_for_each; intros ?
    | apply preserves_bind; [|intros ?] ].

Lemma preserves_interactive_quiz : preserves interactive_quiz.
Proof.
  unfold interactive_quiz.
  apply preserves_bind; [apply preserves_print|intros _].
  apply preserves_bind.
  - apply preserves_for_fold. intros [i q] score.
    repeat preserves_step.
    destruct (String.eqb _ _); repeat preserves_step.
  - intros score. repeat preserves_step.
Qed.

Lemma preserves_simulate_status : preserves simulate_status.
Proof. unfold simulate_status. repeat preserves_step. Qed.

Lemma preserves_simulate_log : preserves simulate_log.
Proof. unfold simulate_log. repeat preserves_step. Qed.

Lemma preserves_simulate_branch_list : preserves simulate_branch_list.
Proof. unfold simulate_branch_list. repeat preserves_step. Qed.

Lemma preserves_dispatch cmd : preserves (dispatch cmd).
Proof.
  unfold dispatch.
  destruct (contains "status" cmd); [apply preserves_simulate_status|].
  destruct (contains "log" cmd); [apply preserves_simulate_log|].
  destruct (contains "branch" cmd); [apply preserves_simulate_branch_list|].
  destruct (contains "diff" cmd); [|apply preserves_ret].
  unfold simulate_diff. apply preserves_ret.
Qed.

Lemma preserves_practice_mode : preserves practice_mode.
Proof.
  unfold practice_mode.
  apply preserves_bind; [apply preserves_print|intros _].
  apply preserves_bind; [apply preserves_get_animator|intros a].
  apply preserves_bind; [apply preserves_typewriter|intros _].
  apply preserves_for_each. intros [cmd description].
  unfold practice_command.
  apply preserves_bind; [apply preserves_print|intros _].
  apply preserves_bind; [apply preserves_print|intros _].
  apply preserves_bind; [apply preserves_input|intros _].
  apply preserves_dispatch.
Qed.

Lemma preserves_show_progress : preserves show_progress.
Proof. unfold show_progress. repeat preserves_step. Qed.

(** X9.  The quiz, the practice mode (with its four renderers) and the
    progress summary never change the system (repository, animator,
    counters) nor any list of commits, whatever the user types and
    whether they return or raise. *)
Theorem interactive_parts_keep_repository :
  forall st : State,
    same_repository st (snd (interactive_quiz st))
    /\ same_repository st (snd (practice_mode st))
    /\ same_repository st (snd (show_progress st))
    /\ (forall cmd, same_repository st (snd (dispatch cmd st))).
Proof.
  intros st. split; [|split; [|split]].
  - apply preserves_interactive_quiz.
  - apply preserves_practice_mode.
  - apply preserves_show_progress.
  - intros cmd. apply preserves_dispatch.
Qed.

(** ** The quiz *)

Ltac simpl_state2 :=
  simpl_state;
  cbn [with_stdin set_stdin counted system world heap random_draws random_pos
       strftime_results strftime_pos stdin] in *.

Lemma wp_ret {A} (a : A) st (Q : outcome A -> State -> Prop) :
  Q (Return a) st -> wp (ret a) st Q.
Proof. intros HQ. exact HQ. Qed.

Lemma wp_elim {A} (m : M A) st (Q : outcome A -> State -> Prop) :
  wp m st Q -> exists t r st', m st = (t, r, st') /\ Q r st'.
Proof.
  unfold wp. destruct (m st) as [[t r] st']. cbn [fst snd].
  intros HQ. exists t, r, st'. split; [reflexivity | exact HQ].
Qed.

(** X10.  With two lines of input pending, the quiz returns the number
    of answers that are [b] once lowercased and stripped of surrounding
    white space (so between 0 and 2); it consumes exactly these two lines
    and changes nothing else. *)
Theorem interactive_quiz_score :
  forall (st : State) (l1 l2 : string) (rest : list stdin_item),
    stdin (world st) = Line l1 :: Line l2 :: rest ->
    exists t,
      interactive_quiz st =
        (t, Return (Z.b2z (answers_b l1) + Z.b2z (answers_b l2)),
         with_stdin rest st).
Proof.
  intros st l1 l2 rest Hin.
  assert (Hwp : wp interactive_quiz st (fun r st' =>
            r = Return (Z.b2z (answers_b l1) + Z.b2z (answers_b l2))
            /\ st' = with_stdin rest st)).
  { destruct st as [s w]. destruct w as [h rd rp sr sp inp].
    cbn [stdin world] in Hin. subst inp.
    unfold interactive_quiz. wp_pure'. apply wp_bind.
    set (qs := enumerate_from_1 questions). vm_compute in qs. subst qs.
    cbn [for_fold]. apply wp_bind.
    do 3 wp_pure'. simpl_state2.
    cbn [correct].
    change (String.eqb (strip (lower l1)) "b") with (answers_b l1).
    destruct (answers_b l1);
      (do 3 wp_pure'; apply wp_ret; cbn beta iota;
       apply wp_bind; do 3 wp_pure'; simpl_state2; cbn [correct];
       change (String.eqb (strip (lower l2)) "b") with (answers_b l2);
       destruct (answers_b l2);
         (do 3 wp_pure'; apply wp_ret; cbn beta iota;
          apply wp_ret; cbn beta iota;
          wp_pure'; apply wp_ret; split; reflexivity)). }
  apply wp_elim in Hwp. destruct Hwp as (t & r & st' & Hrun & -> & ->).
  exists t. exact Hrun.
Qed.

Lemma interactive_quiz_score_witness :
  stdin (world (sample_state [Line " B "; Line "a"; Line "x"]))
    = [Line " B "; Line "a"; Line "x"]
  /\ exists t,
      interactive_quiz (sample_state [Line " B "; Line "a"; Line "x"]) =
        (t, Return 1, sample_state [Line "x"]).
Proof.
  assert (H : stdin (world (sample_state [Line " B "; Line "a"; Line "x"]))
              = [Line " B "; Line "a"; Line "x"]) by reflexivity.
  split; [exact H|].
  exact (interactive_quiz_score
           (sample_state [Line " B "; Line "a"; Line "x"]) " B " "a"
           [Line "x"] H).
Defined.

(** X11.  When the input runs out, the quiz raises [EOFError] at the
    question it cannot read an answer for (the first one with no input
    at all, the second one with a single line); when the user interrupts
    the first prompt it raises [KeyboardInterrupt].  The lines read so
    far are consumed and nothing else changes. *)
Theorem interactive_quiz_without_input :
  forall st : State,
    (stdin (world st) = [] ->
       exists t,
         interactive_quiz st =
           (t, Raise (EOFError "EOF when reading a line"), st))
    /\ (forall l1,
          stdin (world st) = [Line l1] ->
          exists t,
            interactive_quiz st =
              (t, Raise (EOFError "EOF when reading a line"),
               with_stdin [] st))
    /\ (forall rest,
          stdin (world st) = CtrlC :: rest ->
          exists t,
            interactive_quiz st =
              (t, Raise KeyboardInterrupt, with_stdin rest st)).
Proof.
  intros st. split; [|split].
  - intros Hin.
    assert (Hwp : wp interactive_quiz st (fun r st' =>
              r = Raise (EOFError "EOF when reading a line") /\ st' = st)).
    { destruct st as [s w]. destruct w as [h rd rp sr sp inp].
      cbn [stdin world] in Hin. subst inp.
      unfold interactive_quiz. wp_pure'. apply wp_bind.
      set (qs := enumerate_from_1 questions). vm_compute in qs. subst qs.
      cbn [for_fold]. apply wp_bind.
      do 3 wp_pure'. split; reflexivity. }
    apply wp_elim in Hwp. destruct Hwp as (t & r & st' & Hrun & -> & ->).
    exists t. exact Hrun.
  - intros l1 Hin.
    assert (Hwp : wp interactive_quiz st (fun r st' =>
              r = Raise (EOFError "EOF when reading a line")
              /\ st' = with_stdin [] st)).
    { destruct st as [s w]. destruct w as [h rd rp sr sp inp].
      cbn [stdin world] in Hin. subst inp.
      unfold interactive_quiz. wp_pure'. apply wp_bind.
      set (qs := enumerate_from_1 questions). vm_compute in qs. subst qs.
      cbn [for_fold]. apply wp_bind.
      do 3 wp_pure'. simpl_state2. cbn [correct].
      destruct (String.eqb (strip (lower l1)) "b");
        (do 3 wp_pure'; apply wp_ret; cbn beta iota;
         apply wp_bind; do 3 wp_pure'; split; reflexivity). }
    apply wp_elim in Hwp. destruct Hwp as (t & r & st' & Hrun & -> & ->).
    exists t. exact Hrun.
  - intros rest Hin.
    assert (Hwp : wp interactive_quiz st (fun r st' =>
              r = Raise KeyboardInterrupt /\ st' = with_stdin rest st)).
    { destruct st as [s w]. destruct w as [h rd rp sr sp inp].
      cbn [stdin world] in Hin. subst inp.
      unfold interactive_quiz. wp_pure'. apply wp_bind.
      set (qs := enumerate_from_1 questions). vm_compute in qs. subst qs.
      cbn [for_fold]. apply wp_bind.
      do 3 wp_pure'. split; reflexivity. }
    apply wp_elim in Hwp. destruct Hwp as (t & r & st' & Hrun & -> & ->).
    exists t. exact Hrun.
Qed.

Lemma interactive_quiz_without_input_witness :
  stdin (world (sample_state [])) = []
  /\ stdin (world (sample_state [Line "b"])) = [Line "b"]
  /\ stdin (world (sample_state [CtrlC; Line "b"])) = [CtrlC; Line "b"]
  /\ (exists t,
        interactive_quiz (sample_state []) =
          (t, Raise (EOFError "EOF when reading a line"), sample_state []))
  /\ (exists t,
        interactive_quiz (sample_state [Line "b"]) =
          (t, Raise (EOFError "EOF when reading a line"), sample_state []))
  /\ (exists t,
        interactive_quiz (sample_state [CtrlC; Line "b"]) =
          (t, Raise KeyboardInterrupt, sample_state [Line "b"])).
Proof.
  assert (H1 : stdin (world (sample_state [])) = []) by reflexivity.
  assert (H2 : stdin (world (sample_state [Line "b"])) = [Line "b"])
    by reflexivity.
  assert (H3 : stdin (world (sample_state [CtrlC; Line "b"]))
               = [CtrlC; Line "b"]) by reflexivity.
  split; [exact H1|]. split; [exact H2|]. split; [exact H3|].
  split; [|split].
  - exact (proj1 (interactive_quiz_without_input (sample_state [])) H1).
  - exact (proj1 (proj2 (interactive_quiz_without_input
                           (sample_state [Line "b"]))) "b" H2).
  - exact (proj2 (proj2 (interactive_quiz_without_input
                           (sample_state [CtrlC; Line "b"])))
             [Line "b"] H3).
Defined.

(** ** The progress summary *)

Lemma progress_tenths n :
  0 <= n <= 10 ->
  format_1f (float_mul (round_double (inject_Z n / inject_Z 10)) 100)
    = str_of_int (10 * n) +:+ ".0"
  /\ int_of_float (float_mul (inject_Z 20)
                             (round_double (inject_Z n / inject_Z 10)))
     = 2 * n.
Proof.
  intros Hn.
  assert (Hall : forallb
            (fun k =>
               String.eqb
                 (format_1f
                    (float_mul (round_double (inject_Z k / inject_Z 10)) 100))
                 (str_of_int (10 * k) +:+ ".0")
               && (int_of_float
                     (float_mul (inject_Z 20)
                                (round_double (inject_Z k / inject_Z 10)))
                   =? 2 * k))
            (range 11) = true) by (vm_compute; reflexivity).
  rewrite forallb_forall in Hall.
  specialize (Hall n (proj2 (In_range n 11) ltac:(lia))).
  apply andb_true_iff in Hall. destruct Hall as [Hformat Hfilled].
  split; [apply String.eqb_eq, Hformat | apply Z.eqb_eq, Hfilled].
Qed.

(** X12.  With the total at 10 and [n] lessons completed, [n] between 0
    and 10, [show_progress] returns, leaves the state alone and writes
    the heading, the line "Lessons completed: n/10", the percentage
    [10 * n] with one decimal, and a bar of 20 cells of which [2 * n] are
    filled: for these eleven values the doubles give the exact
    percentage and the exact number of cells.  With a total of 0 it
    writes nothing and raises [ZeroDivisionError]. *)
Theorem show_progress_summary :
  forall (st : State) (n : Z),
    lessons_completed (system st) = n ->
    (total_lessons (system st) = 10 -> 0 <= n <= 10 ->
       show_progress st =
         ([ printed (NL +:+ BOLD +:+ "=== Your Progress ===" +:+ END);
            printed ("Lessons completed: " +:+ str_of_int n +:+ "/10");
            printed ("Progress: " +:+ (str_of_int (10 * n) +:+ ".0") +:+ "%");
            printed (GREEN +:+ "["
                           +:+ (str_mul Glyph.BLOCK_FULL (2 * n)
                                  +:+ str_mul Glyph.BLOCK_LIGHT (20 - 2 * n))
                           +:+ "]" +:+ END) ],
          Return tt, st))
    /\ (total_lessons (system st) = 0 ->
          show_progress st =
            ([], Raise (ZeroDivisionError "division by zero"), st)).
Proof.
  intros st n Hn. split.
  - intros Htotal Hrange. unfold show_progress.
    destruct (progress_tenths n Hrange) as [Hformat Hfilled].
    rewrite (bind_returns _ _ st _ (system st) st) by reflexivity.
    rewrite Hn, Htotal.
    rewrite (bind_returns _ _ st []
               (round_double (inject_Z n / inject_Z 10)) st)
      by (apply true_div_returns; lia).
    rewrite (bind_returns _ _ st _ tt st) by reflexivity.
    rewrite (bind_returns _ _ st _ (system st) st) by reflexivity.
    rewrite Hn, Htotal.
    rewrite (bind_returns _ _ st _ tt st) by reflexivity.
    rewrite (bind_returns _ _ st _ tt st) by reflexivity.
    rewrite (bind_returns _ _ st _ (system st) st) by reflexivity.
    rewrite Hn, Htotal.
    rewrite (bind_returns _ _ st []
               (round_double (inject_Z n / inject_Z 10)) st)
      by (apply true_div_returns; lia).
    rewrite Hformat. cbv zeta. rewrite Hfilled.
    unfold print, emit, printed. cbn [app].
    change (str_of_int 10) with "10".
    reflexivity.
  - intros Htotal. unfold show_progress.
    rewrite (bind_returns _ _ st _ (system st) st) by reflexivity.
    rewrite Htotal. reflexivity.
Qed.

Lemma show_progress_summary_witness :
  lessons_completed (system state_with_main) = 2
  /\ total_lessons (system state_with_main) = 10
  /\ 0 <= 2 <= 10
  /\ show_progress state_with_main =
       ([ printed (NL +:+ BOLD +:+ "=== Your Progress ===" +:+ END);
          printed "Lessons completed: 2/10";
          printed "Progress: 20.0%";
          printed (GREEN +:+ "[" +:+ str_mul Glyph.BLOCK_FULL 4
                         +:+ str_mul Glyph.BLOCK_LIGHT 16 +:+ "]" +:+ END) ],
        Return tt, state_with_main).
Proof.
  assert (H1 : lessons_completed (system state_with_main) = 2) by reflexivity.
  assert (H2 : total_lessons (system state_with_main) = 10) by reflexivity.
  assert (H3 : 0 <= 2 <= 10) by lia.
  split; [exact H1|]. split; [exact H2|]. split; [exact H3|].
  exact (proj1 (show_progress_summary state_with_main 2 H1) H2 H3).
Defined.

(** ** Lessons 1 and 2 *)

Ltac simpl_state3 :=
  unfold after_lesson_init, after_lesson_add_commit, before_commit,
    with_lesson_files, ticked, initial_commit, commit_list, counted,
    with_heap in *;
  simpl_state2.

Lemma wp_mono {A} (m : M A) st (P Q : outcome A -> State -> Prop) :
  wp m st P -> (forall r st', P r st' -> Q r st') -> wp m st Q.
Proof. unfold wp. auto. Qed.

Lemma wp_generate_commit_hash_length st (Q : outcome string -> State -> Prop) :
  (forall h, String.length h = 7%nat -> Q (Return h) (drawn 7 st)) ->
  wp generate_commit_hash st Q.
Proof.
  intros HQ. destruct (generate_commit_hash_returns st) as (h & Hrun & Hlen & _).
  eapply wp_run; [exact Hrun|]. apply HQ. exact Hlen.
Qed.

Lemma wp_lesson_init st (Q : outcome unit -> State -> Prop) :
  (0 < speed (animator (system st)))%Q ->
  (0 <= delay (animator (system st)))%Q ->
  Q (Return tt) (after_lesson_init st) ->
  wp lesson_init st Q.
Proof.
  intros Hspeed Hdelay HQ. unfold lesson_init.
  wp_pure'. wp_pure'.
  wp_by' ltac:(apply typewriter_returns; assumption).
  wp_pure'. wp_pure'.
  wp_by' ltac:(apply progress_bar_trace; [lia | assumption | reflexivity]).
  wp_pure'. wp_pure'. wp_pure'. wp_pure'. wp_pure'. wp_pure'.
  eapply wp_run; [reflexivity|]. exact HQ.
Qed.

(** X13.  With an animator of positive speed and a delay that is not
    negative, lesson 1 returns.  It binds [main] to a branch whose list
    of commits is a new, empty list, also when [main] was already in the
    mapping (its former commits are then no longer reachable from the
    mapping); every other branch and every list allocated before is kept;
    the repository is marked initialized, the current branch is not
    changed and the counter grows by one. *)
Theorem lesson_init_resets_main :
  forall st : State,
    (0 < speed (animator (system st)))%Q ->
    (0 <= delay (animator (system st)))%Q ->
    exists t st' l,
      lesson_init st = (t, Return tt, st')
      /\ heap (world st) !! l = None
      /\ dict_get "main" (branches (repo (system st'))) =
           Some {| Branch_name := "main"; commits := l; is_current := true |}
      /\ heap (world st') !! l = Some []
      /\ (forall key, key <> "main" ->
            dict_get key (branches (repo (system st')))
            = dict_get key (branches (repo (system st))))
      /\ (forall l0, l0 <> l ->
            heap (world st') !! l0 = heap (world st) !! l0)
      /\ is_initialized (repo (system st')) = true
      /\ current_branch (repo (system st'))
         = current_branch (repo (system st))
      /\ lessons_completed (system st') = lessons_completed (system st) + 1.
Proof.
  intros st Hspeed Hdelay.
  assert (Hwp : wp lesson_init st (fun r st' =>
            r = Return tt /\ st' = after_lesson_init st))
    by (apply wp_lesson_init; [assumption | assumption | split; reflexivity]).
  apply wp_elim in Hwp. destruct Hwp as (t & r & st' & Hrun & -> & ->).
  exists t, (after_lesson_init st), (fresh (dom (heap (world st)))).
  split; [exact Hrun|]. simpl_state3. repeat split.
  - apply fresh_not_allocated.
  - apply dict_get_set_eq.
  - apply lookup_insert_eq.
  - intros key Hkey. apply dict_get_set_ne. congruence.
  - intros l0 Hl0. apply lookup_insert_ne. congruence.
Qed.

Lemma lesson_init_resets_main_witness :
  (0 < speed (animator (system state_with_main)))%Q
  /\ (0 <= delay (animator (system state_with_main)))%Q
  /\ exists t st' l,
      lesson_init state_with_main = (t, Return tt, st')
      /\ heap (world state_with_main) !! l = None
      /\ dict_get "main" (branches (repo (system st'))) =
           Some {| Branch_name := "main"; commits := l; is_current := true |}
      /\ heap (world st') !! l = Some []
      /\ (forall key, key <> "main" ->
            dict_get key (branches (repo (system st')))
            = dict_get key (branches (repo (system state_with_main))))
      /\ (forall l0, l0 <> l ->
            heap (world st') !! l0 = heap (world state_with_main) !! l0)
      /\ is_initialized (repo (system st')) = true
      /\ current_branch (repo (system st'))
         = current_branch (repo (system state_with_main))
      /\ lessons_completed (system st')
         = lessons_completed (system state_with_main) + 1.
Proof.
  assert (H1 : (0 < speed (animator (system state_with_main)))%Q)
    by reflexivity.
  assert (H2 : (0 <= delay (animator (system state_with_main)))%Q)
    by discriminate.
  split; [exact H1|]. split; [exact H2|].
  exact (lesson_init_resets_main state_with_main H1 H2).
Defined.

Lemma wp_lesson_add_commit_upto_lookup st
    (Q : outcome unit -> State -> Prop) :
  (0 < speed (animator (system st)))%Q ->
  (0 <= delay (animator (system st)))%Q ->
  (forall h, String.length h = 7%nat ->
     wp (b <- lookup_branch "main" ;;
         list_append (commits b) (initial_commit h st) ;;
         incr_lessons_completed)
        (before_commit st) Q) ->
  wp lesson_add_commit st Q.
Proof.
  intros Hspeed Hdelay HQ. unfold lesson_add_commit.
  wp_pure'. wp_pure'. wp_pure'. wp_pure'.
  wp_by' ltac:(apply typewriter_returns; assumption).
  wp_pure'. wp_pure'. wp_pure'.
  wp_by' ltac:(apply progress_bar_trace; [lia | assumption | reflexivity]).
  wp_pure'. wp_pure'.
  apply wp_bind, wp_generate_commit_hash_length. intros h Hlen. simpl_state.
  wp_pure'. wp_pure'.
  apply wp_bind, wp_commit_flow; [exact Hdelay|].
  exact (HQ h Hlen).
Qed.

Lemma wp_lesson_add_commit st b (Q : outcome unit -> State -> Prop) :
  dict_get "main" (branches (repo (system st))) = Some b ->
  (0 < speed (animator (system st)))%Q ->
  (0 <= delay (animator (system st)))%Q ->
  (forall h, String.length h = 7%nat ->
     Q (Return tt) (after_lesson_add_commit h b st)) ->
  wp lesson_add_commit st Q.
Proof.
  intros Hmain Hspeed Hdelay HQ.
  apply wp_lesson_add_commit_upto_lookup; [assumption | assumption |].
  intros h Hlen.
  wp_by' ltac:(apply lookup_branch_found; exact Hmain).
  wp_pure'. eapply wp_run; [reflexivity|].
  exact (HQ h Hlen).
Qed.

Lemma wp_lesson_add_commit_missing st (Q : outcome unit -> State -> Prop) :
  dict_get "main" (branches (repo (system st))) = None ->
  (0 < speed (animator (system st)))%Q ->
  (0 <= delay (animator (system st)))%Q ->
  Q (Raise (KeyError "main")) (before_commit st) ->
  wp lesson_add_commit st Q.
Proof.
  intros Hmain Hspeed Hdelay HQ.
  apply wp_lesson_add_commit_upto_lookup; [assumption | assumption |].
  intros h Hlen.
  wp_by' ltac:(apply lookup_branch_missing; exact Hmain).
  exact HQ.
Qed.

(** X14.  When [main] is in the mapping (and the animator has a
    positive speed and a delay that is not negative), lesson 2 returns.
    It appends its three file names to the working files, replaces the
    staged files by these three names, appends to the list of [main] one
    commit with message "Initial commit", the student as author and a
    hash of 7 characters, and increments the counter; the mapping of
    branches and every other list of commits are unchanged. *)
Theorem lesson_add_commit_appends_one_commit :
  forall (st : State) (b : Branch),
    dict_get "main" (branches (repo (system st))) = Some b ->
    (0 < speed (animator (system st)))%Q ->
    (0 <= delay (animator (system st)))%Q ->
    exists t st' c,
      lesson_add_commit st = (t, Return tt, st')
      /\ heap (world st') !! commits b = Some (commit_list st b ++ [c])
      /\ message c = "Initial commit"
      /\ author c = "Student <student@example.com>"
      /\ String.length (hash c) = 7%nat
      /\ (forall l, l <> commits b ->
            heap (world st') !! l = heap (world st) !! l)
      /\ working_files (repo (system st'))
         = working_files (repo (system st))
             ++ ["README.md"; "main.py"; "requirements.txt"]
      /\ staged_files (repo (system st'))
         = ["README.md"; "main.py"; "requirements.txt"]
      /\ branches (repo (system st')) = branches (repo (system st))
      /\ lessons_completed (system st') = lessons_completed (system st) + 1.
Proof.
  intros st b Hmain Hspeed Hdelay.
  assert (Hwp : wp lesson_add_commit st (fun r st' =>
            exists h, String.length h = 7%nat
                      /\ r = Return tt
                      /\ st' = after_lesson_add_commit h b st)).
  { apply (wp_lesson_add_commit st b); try assumption.
    intros h Hlen. exists h. repeat split. exact Hlen. }
  apply wp_elim in Hwp.
  destruct Hwp as (t & r & st' & Hrun & h & Hlen & -> & ->).
  exists t, (after_lesson_add_commit h b st), (initial_commit h st).
  split; [exact Hrun|]. simpl_state3. repeat split.
  - apply lookup_insert_eq.
  - exact Hlen.
  - intros l Hl. apply lookup_insert_ne. congruence.
Qed.

Lemma lesson_add_commit_appends_one_commit_witness :
  dict_get "main" (branches (repo (system state_with_main))) = Some main_branch
  /\ (0 < speed (animator (system state_with_main)))%Q
  /\ (0 <= delay (animator (system state_with_main)))%Q
  /\ exists t st' c,
      lesson_add_commit state_with_main = (t, Return tt, st')
      /\ heap (world st') !! commits main_branch
         = Some (commit_list state_with_main main_branch ++ [c])
      /\ message c = "Initial commit"
      /\ author c = "Student <student@example.com>"
      /\ String.length (hash c) = 7%nat
      /\ (forall l, l <> commits main_branch ->
            heap (world st') !! l = heap (world state_with_main) !! l)
      /\ working_files (repo (system st'))
         = working_files (repo (system state_with_main))
             ++ ["README.md"; "main.py"; "requirements.txt"]
      /\ staged_files (repo (system st'))
         = ["README.md"; "main.py"; "requirements.txt"]
      /\ branches (repo (system st'))
         = branches (repo (system state_with_main))
      /\ lessons_completed (system st')
         = lessons_completed (system state_with_main) + 1.
Proof.
  assert (H1 : dict_get "main" (branches (repo (system state_with_main)))
               = Some main_branch) by reflexivity.
  assert (H2 : (0 < speed (animator (system state_with_main)))%Q)
    by reflexivity.
  assert (H3 : (0 <= delay (animator (system state_with_main)))%Q)
    by discriminate.
  split; [exact H1|]. split; [exact H2|]. split; [exact H3|].
  exact (lesson_add_commit_appends_one_commit state_with_main main_branch
           H1 H2 H3).
Defined.

(** X15.  When [main] is not in the mapping (and the animator has a
    positive speed and a delay that is not negative), lesson 2 raises
    [KeyError('main')] only after its animation: by then the three file
    names have been appended to the working files and have replaced the
    staged files, and seven random draws and one clock reading have been
    consumed.  No commit is stored, no branch is created and the counter
    is not incremented. *)
Theorem lesson_add_commit_without_main :
  forall st : State,
    dict_get "main" (branches (repo (system st))) = None ->
    (0 < speed (animator (system st)))%Q ->
    (0 <= delay (animator (system st)))%Q ->
    exists t st',
      lesson_add_commit st = (t, Raise (KeyError "main"), st')
      /\ working_files (repo (system st'))
         = working_files (repo (system st))
             ++ ["README.md"; "main.py"; "requirements.txt"]
      /\ staged_files (repo (system st'))
         = ["README.md"; "main.py"; "requirements.txt"]
      /\ branches (repo (system st')) = branches (repo (system st))
      /\ heap (world st') = heap (world st)
      /\ lessons_completed (system st') = lessons_completed (system st)
      /\ random_pos (world st') = (7 + random_pos (world st))%nat
      /\ strftime_pos (world st') = (1 + strftime_pos (world st))%nat.
Proof.
  intros st Hmain Hspeed Hdelay.
  assert (Hwp : wp lesson_add_commit st (fun r st' =>
            r = Raise (KeyError "main") /\ st' = before_commit st))
    by (apply wp_lesson_add_commit_missing; try assumption; split; reflexivity).
  apply wp_elim in Hwp. destruct Hwp as (t & r & st' & Hrun & -> & ->).
  exists t, (before_commit st). split; [exact Hrun|].
  repeat split.
Qed.

Lemma lesson_add_commit_without_main_witness :
  dict_get "main" (branches (repo (system (sample_state [])))) = None
  /\ (0 < speed (animator (system (sample_state []))))%Q
  /\ (0 <= delay (animator (system (sample_state []))))%Q
  /\ exists t st',
      lesson_add_commit (sample_state []) = (t, Raise (KeyError "main"), st')
      /\ working_files (repo (system st'))
         = working_files (repo (system (sample_state [])))
             ++ ["README.md"; "main.py"; "requirements.txt"]
      /\ staged_files (repo (system st'))
         = ["README.md"; "main.py"; "requirements.txt"]
      /\ branches (repo (system st'))
         = branches (repo (system (sample_state [])))
      /\ heap (world st') = heap (world (sample_state []))
      /\ lessons_completed (system st')
         = lessons_completed (system (sample_state []))
      /\ random_pos (world st')
         = (7 + random_pos (world (sample_state [])))%nat
      /\ strftime_pos (world st')
         = (1 + strftime_pos (world (sample_state [])))%nat.
Proof.
  assert (H1 : dict_get "main" (branches (repo (system (sample_state []))))
               = None) by reflexivity.
  assert (H2 : (0 < speed (animator (system (sample_state []))))%Q)
    by reflexivity.
  assert (H3 : (0 <= delay (animator (system (sample_state []))))%Q)
    by discriminate.
  split; [exact H1|]. split; [exact H2|]. split; [exact H3|].
  exact (lesson_add_commit_without_main (sample_state []) H1 H2 H3).
Defined.

(** ** The full course *)

Ltac simpl_state4 :=
  unfold after_lesson_branching, login_commit, validation_commit in *;
  simpl_state3.

Lemma wp_lesson_branching st b (Q : outcome unit -> State -> Prop) :
  dict_get "main" (branches (repo (system st))) = Some b ->
  (0 < speed (animator (system st)))%Q ->
  (0 <= delay (animator (system st)))%Q ->
  (forall h1 h2, Q (Return tt) (after_lesson_branching h1 h2 b st)) ->
  wp lesson_branching st Q.
Proof.
  intros Hmain Hspeed Hdelay HQ. unfold lesson_branching.
  wp_pure'. wp_pure'. wp_pure'.
  wp_by' ltac:(apply typewriter_returns; assumption).
  wp_by' ltac:(apply lookup_branch_found; eassumption).
  wp_pure'.
  set (l' := fresh (dom (heap (world st)))) in *.
  wp_pure'. wp_pure'. wp_pure'. wp_pure'.
  wp_by' ltac:(apply typewriter_returns; assumption).
  wp_pure'.
  apply wp_bind, wp_generate_commit_hash. intros h1. simpl_state. wp_pure'.
  apply wp_bind, wp_generate_commit_hash. intros h2. simpl_state. wp_pure'.
  cbn [for_each].
  apply wp_bind. apply wp_bind.
  wp_by' ltac:(apply sleep_returns; discriminate).
  wp_pure'.
  apply wp_bind, wp_commit_flow; [exact Hdelay|].
  wp_by' ltac:(apply lookup_branch_found; apply dict_get_set_eq).
  eapply wp_run; [apply list_append_returns|]. cbn beta iota. simpl_state.
  rewrite lookup_insert_eq. cbn [default from_option id].
  apply wp_bind.
  wp_by' ltac:(apply sleep_returns; discriminate).
  wp_pure'.
  apply wp_bind, wp_commit_flow; [exact Hdelay|].
  wp_by' ltac:(apply lookup_branch_found; apply dict_get_set_eq).
  eapply wp_run; [apply list_append_returns|]. cbn beta iota. simpl_state.
  rewrite lookup_insert_eq. cbn [default from_option id].
  eapply wp_run; [reflexivity|]. cbn beta iota.
  wp_pure'. wp_pure'.
  wp_by' ltac:(apply branch_visualization_trace).
  eapply wp_run; [reflexivity|]. simpl_state.
  exact (HQ h1 h2).
Qed.

Lemma wp_lesson_push st b (Q : outcome unit -> State -> Prop) :
  dict_get (current_branch (repo (system st))) (branches (repo (system st)))
    = Some b ->
  (0 < speed (animator (system st)))%Q ->
  (0 <= delay (animator (system st)))%Q ->
  Q (Return tt) (counted st) ->
  wp lesson_push st Q.
Proof.
  intros Hcur Hspeed Hdelay HQ.
  eapply wp_run; [apply (lesson_push_trace st b); assumption | exact HQ].
Qed.

Lemma wp_preserves {A} (m : M A) st (Q : outcome A -> State -> Prop) :
  preserves m ->
  (forall r st', same_repository st st' -> Q r st') ->
  wp m st Q.
Proof. intros Hm HQ. unfold wp. apply HQ. apply Hm. Qed.

Lemma wp_try_except body on_interrupt on_error st
    (Q : outcome unit -> State -> Prop) :
  wp body st (fun r st1 =>
                match r with
                | Return a => Q (Return a) st1
                | Raise e =>
                    wp (if is_Exception e then on_error e else on_interrupt)
                       st1 Q
                end) ->
  wp (try_except body on_interrupt on_error) st Q.
Proof.
  unfold wp, try_except. destruct (body st) as [[t1 [a|e]] st1]; cbn; [auto|].
  destruct ((if is_Exception e then on_error e else on_interrupt) st1)
    as [[t2 r] st2]. cbn. auto.
Qed.

Lemma run_full_course_completes (a : GitAnimator) (w : World) :
  (0 < speed a)%Q ->
  (0 <= delay a)%Q ->
  wp run_full_course {| system := set_animator a fresh_system; world := w |}
     (fun r st' =>
        r = Return tt /\ course_completed (system st') (heap (world st'))).
Proof.
  intros Hspeed Hdelay. unfold run_full_course.
  apply wp_try_except.
  unfold set_animator, fresh_system, GitRepository_init. simpl_state.
  wp_pure'.
  apply wp_bind, wp_lesson_init; [exact Hspeed | exact Hdelay |].
  cbn beta iota. simpl_state4. cbn [dict_set].
  set (l0 := fresh (dom (heap w))).
  apply wp_bind,
    (wp_lesson_add_commit _ {| Branch_name := "main"; commits := l0;
                               is_current := true |});
    [reflexivity | exact Hspeed | exact Hdelay |].
  intros h0 _. cbn beta iota. simpl_state4.
  rewrite lookup_insert_eq. cbn [default from_option id app].
  set (c0 := {| hash := h0; message := "Initial commit"; author := student;
                timestamp := strftime_results w (strftime_pos w) |}).
  set (heap2 := <[l0 := [c0]]> (<[l0 := []]> (heap w))).
  assert (Hl0 : heap2 !! l0 = Some [c0]) by apply lookup_insert_eq.
  apply wp_bind,
    (wp_lesson_branching _ {| Branch_name := "main"; commits := l0;
                              is_current := true |});
    [reflexivity | exact Hspeed | exact Hdelay |].
  intros h1 h2. cbn beta iota. simpl_state4.
  rewrite Hl0. cbn [default from_option id app dict_set].
  change (("main" =? "feature-auth")%string) with false. cbn iota.
  pose proof (fresh_not_allocated heap2) as Hfresh.
  set (l1 := fresh (dom heap2)) in *.
  assert (Hne : l0 <> l1) by congruence.
  apply wp_bind,
    (wp_lesson_push _ {| Branch_name := "feature-auth"; commits := l1;
                         is_current := false |});
    [reflexivity | exact Hspeed | exact Hdelay |].
  cbn beta iota. simpl_state4.
  match goal with
  | |- wp _ ?st _ =>
      assert (Hdone : course_completed (system st) (heap (world st)))
  end.
  { simpl_state4.
    eexists l0, l1, c0, _, _. repeat split; try reflexivity.
    - exact Hne.
    - rewrite !lookup_insert_ne by congruence. exact Hl0.
    - apply lookup_insert_eq.
    - reflexivity.
    - reflexivity. }
  apply wp_preserves.
  - apply preserves_bind; [apply preserves_interactive_quiz | intros score].
    apply preserves_bind; [apply preserves_practice_mode | intros _].
    apply preserves_bind; [apply preserves_show_progress | intros _].
    apply preserves_bind; [apply preserves_print | intros _].
    apply preserves_bind; [apply preserves_print | intros _].
    apply preserves_bind.
    { destruct (2 <=? score); [apply preserves_print | apply preserves_ret]. }
    intros _. repeat preserves_step.
  - intros r st' [Hsys Hheap]. simpl_state4.
    rewrite <- Hsys, <- Hheap in Hdone.
    destruct r as [[]|e].
    + split; [reflexivity | exact Hdone].
    + destruct e; cbn [is_Exception]; (eapply wp_run; [reflexivity|]);
        (split; [reflexivity | exact Hdone]).
Qed.



(** X17.  Whatever the user types (or fails to type) during the quiz and
    the practice mode, a full run, at default speed or with [--fast],
    returns with the four lessons done: the counter is 4, the repository
    is initialized, the working and staged files are the three files of
    lesson 2, [main] holds exactly the initial commit, and
    [feature-auth], which is the current branch, holds that commit
    followed by the two commits of lesson 3, in a list of its own. *)
Theorem full_course_final_repository :
  forall (prog : string) (w : World),
    (let run := main [prog] w in
     run_result run = Return tt
     /\ exists s,
          run_system run = Some s
          /\ course_completed s (heap (run_world run)))
    /\ (let run := main [prog; "--fast"] w in
        run_result run = Return tt
        /\ exists s,
             run_system run = Some s
             /\ course_completed s (heap (run_world run))).
Proof.
  intros prog w. split.
  - cbv zeta. change (main [prog] w) with (with_system run_full_course w).
    unfold with_system. rewrite GitLearningSystem_init_returns.
    pose proof (run_full_course_completes {| speed := 1; delay := 1 # 2 |} w
                  ltac:(reflexivity) ltac:(discriminate)) as Hwp.
    change (set_animator {| speed := 1; delay := 1 # 2 |} fresh_system)
      with fresh_system in Hwp.
    unfold wp in Hwp.
    destruct (run_full_course {| system := fresh_system; world := w |})
      as [[t r] st']. cbn [fst snd] in *.
    destruct Hwp as [-> Hdone]. split; [reflexivity|].
    exists (system st'). split; [reflexivity | exact Hdone].
  - cbv zeta.
    change (main [prog; "--fast"] w)
      with (with_system
              (s <- get_system ;;
               put_system (set_animator (set_speed 3 (animator s)) s) ;;
               run_full_course) w).
    unfold with_system. rewrite GitLearningSystem_init_returns.
    rewrite (bind_returns _ _ _ [] fresh_system
               {| system := fresh_system; world := w |}) by reflexivity.
    rewrite (bind_returns _ _ _ [] tt
               {| system := set_animator {| speed := 3; delay := 1 # 2 |}
                              fresh_system;
                  world := w |}) by reflexivity.
    pose proof (run_full_course_completes {| speed := 3; delay := 1 # 2 |} w
                  ltac:(reflexivity) ltac:(discriminate)) as Hwp.
    unfold wp in Hwp.
    destruct (run_full_course _) as [[t r] st']. cbn [fst snd] in *.
    destruct Hwp as [-> Hdone]. split; [reflexivity|].
    exists (system st'). split; [reflexivity | exact Hdone].
Qed.

(** ** Single lessons from the command line *)

(** X18.  With [--lesson] followed by an argument that [int] reads as
    2, 3 or 4, [main] always raises [KeyError('main')]: the system it has
    just built has no branch, and only lesson 1 creates [main].  The
    counter of the system stays at 0 and its mapping of branches stays
    empty. *)
Theorem single_lesson_after_the_first_fails :
  forall (prog arg : string) (rest : list string) (N : Z) (w : World),
    scan_int arg = Value N ->
    2 <= N <= 4 ->
    let run := main (prog :: "--lesson" :: arg :: rest) w in
    run_result run = Raise (KeyError "main")
    /\ exists s,
         run_system run = Some s
         /\ lessons_completed s = 0
         /\ branches (repo s) = [].
Proof.
  intros prog arg rest N w Harg HN run. subst run.
  unfold main.
  change (String.eqb "--lesson" "--fast") with false.
  change (String.eqb "--lesson" "--lesson") with true.
  cbn iota. unfold int_of_str. rewrite Harg.
  change (Z.of_nat (length lessons)) with 4.
  replace ((1 <=? N) && (N <=? 4)) with true
    by (symmetry; apply andb_true_iff; lia).
  unfold with_system. rewrite GitLearningSystem_init_returns.
  assert (HN' : N = 2 \/ N = 3 \/ N = 4) by lia.
  destruct HN' as [-> | [-> | ->]].
  - change (lessons !! Z.to_nat (2 - 1)) with (Some lesson_add_commit).
    assert (Hwp : wp lesson_add_commit
                     {| system := fresh_system; world := w |}
                     (fun r st' =>
                        r = Raise (KeyError "main")
                        /\ st' = before_commit
                                   {| system := fresh_system; world := w |}))
      by (apply wp_lesson_add_commit_missing;
          [reflexivity | reflexivity | discriminate | split; reflexivity]).
    apply wp_elim in Hwp. destruct Hwp as (t & r & st' & Hrun & -> & ->).
    rewrite Hrun. split; [reflexivity|].
    eexists. split; [reflexivity|]. split; reflexivity.
  - change (lessons !! Z.to_nat (3 - 1)) with (Some lesson_branching).
    rewrite lesson_branching_raises by reflexivity.
    split; [reflexivity|].
    eexists. split; [reflexivity|]. split; reflexivity.
  - change (lessons !! Z.to_nat (4 - 1)) with (Some lesson_push).
    rewrite lesson_push_raises by reflexivity.
    split; [reflexivity|].
    eexists. split; [reflexivity|]. split; reflexivity.
Qed.

Lemma single_lesson_after_the_first_fails_witness :
  scan_int " 2" = Value 2
  /\ 2 <= 2 <= 4
  /\ run_result (main ["git_learning.py"; "--lesson"; " 2"] (sample_world []))
     = Raise (KeyError "main").
Proof.
  assert (H1 : scan_int " 2" = Value 2) by reflexivity.
  assert (H2 : 2 <= 2 <= 4) by lia.
  split; [exact H1|]. split; [exact H2|].
  exact (proj1 (single_lesson_after_the_first_fails "git_learning.py" " 2" []
                  2 (sample_world []) H1 H2)).
Defined.

(** ** PushAnimation *)

Lemma loading_line_trace self text dots color pause st :
  (0 <= pause)%Q ->
  PushAnimation.loading_line self text dots color pause st =
    (loading_events text dots color pause, Return tt, st).
Proof.
  intros Hpause. unfold PushAnimation.loading_line, loading_events.
  rewrite (bind_returns _ _ st _ tt st) by reflexivity.
  rewrite (bind_returns _ _ st _ tt st) by reflexivity.
  rewrite (bind_returns _ _ st
             (flat_map (fun _ : Z =>
                          [Sleep pause; Out (color +:+ "." +:+ END); Flush])
                       (range dots)) tt st).
  - reflexivity.
  - apply for_each_returns. intros i _.
    rewrite (bind_returns _ _ st _ tt st) by (apply sleep_returns; assumption).
    reflexivity.
Qed.

Lemma pauses_app t1 t2 : pauses (t1 ++ t2) = pauses t1 ++ pauses t2.
Proof. apply flat_map_app. Qed.

(** X19.  [loading_line] with a pause that is not negative returns and
    leaves the state alone; it writes the text, then one dot after each
    of [dots] pauses of the given length (none when [dots] is not
    positive), then a line break.  The pause is the one given: the speed
    of the animator plays no part.  With a negative pause and at least
    one dot, it raises [ValueError] after writing the text. *)
Theorem loading_line_dots :
  forall (self : PushAnimation.t) (text : string) (dots : Z) (color : string)
         (pause : Q) (st : State),
    ((0 <= pause)%Q ->
       PushAnimation.loading_line self text dots color pause st =
         (loading_events text dots color pause, Return tt, st)
       /\ pauses (loading_events text dots color pause)
          = repeat pause (Z.to_nat dots)
       /\ written (loading_events text dots color pause)
          = [color +:+ text +:+ END]
              ++ repeat (color +:+ "." +:+ END) (Z.to_nat dots) ++ [NL])
    /\ ((pause < 0)%Q -> 0 < dots ->
          PushAnimation.loading_line self text dots color pause st =
            ([Out (color +:+ text +:+ END); Flush],
             Raise (ValueError "sleep length must be non-negative"), st)).
Proof.
  intros self text dots color pause st. split.
  - intros Hpause. split; [apply loading_line_trace; assumption|].
    unfold loading_events, pauses, written.
    rewrite <- (length_range dots).
    split; induction (range dots) as [|i l IH]; cbn in *; congruence.
  - intros Hneg Hdots. unfold PushAnimation.loading_line.
    rewrite (bind_returns _ _ st _ tt st) by reflexivity.
    rewrite (bind_returns _ _ st _ tt st) by reflexivity.
    destruct (range_cons dots Hdots) as [l ->]. cbn [for_each].
    assert (Hsleep : sleep pause st
              = ([], Raise (ValueError "sleep length must be non-negative"),
                 st)).
    { unfold sleep.
      destruct (Qle_bool 0 pause) eqn:E; [|reflexivity].
      apply Qle_bool_iff in E.
      destruct (Qlt_not_le _ _ Hneg E). }
    rewrite (bind_raises _ _ st []
               (ValueError "sleep length must be non-negative") st).
    + reflexivity.
    + apply bind_raises. apply bind_raises. exact Hsleep.
Qed.

Lemma loading_line_dots_witness :
  (0 <= 0.4)%Q /\ (-1 < 0)%Q /\ 0 < 2
  /\ PushAnimation.loading_line
       {| PushAnimation.commits := 1; PushAnimation.remote := "origin";
          PushAnimation.branch := "main"; PushAnimation.files := [];
          PushAnimation.message := "m";
          PushAnimation.animator := {| speed := 1; delay := 1 # 2 |} |}
       "Hi" 2 WHITE 0.4 (sample_state [])
     = ([ Out (WHITE +:+ "Hi" +:+ END); Flush;
          Sleep 0.4; Out (WHITE +:+ "." +:+ END); Flush;
          Sleep 0.4; Out (WHITE +:+ "." +:+ END); Flush; Out NL ],
        Return tt, sample_state [])
  /\ PushAnimation.loading_line
       {| PushAnimation.commits := 1; PushAnimation.remote := "origin";
          PushAnimation.branch := "main"; PushAnimation.files := [];
          PushAnimation.message := "m";
          PushAnimation.animator := {| speed := 1; delay := 1 # 2 |} |}
       "Hi" 2 WHITE (-1) (sample_state [])
     = ([Out (WHITE +:+ "Hi" +:+ END); Flush],
        Raise (ValueError "sleep length must be non-negative"),
        sample_state []).
Proof.
  assert (H1 : (0 <= 0.4)%Q) by discriminate.
  assert (H2 : (-1 < 0)%Q) by reflexivity.
  assert (H3 : 0 < 2) by lia.
  split; [exact H1|]. split; [exact H2|]. split; [exact H3|]. split.
  - exact (proj1 (proj1 (loading_line_dots _ "Hi" 2 WHITE 0.4
                           (sample_state [])) H1)).
  - exact (proj2 (loading_line_dots _ "Hi" 2 WHITE (-1) (sample_state []))
             H2 H3).
Defined.

Lemma bind_seq {A B} (m : M A) (f : A -> M B) st t1 a st1 t2 r st2 :
  m st = (t1, Return a, st1) ->
  f a st1 = (t2, r, st2) ->
  bind m f st = (t1 ++ t2, r, st2).
Proof. intros Hm Hf. unfold bind. rewrite Hm, Hf. reflexivity. Qed.

Lemma Qle_div_2 d : (0 <= d)%Q -> (0 <= d / 2)%Q.
Proof.
  intros Hd. unfold Qdiv. apply Qmult_le_0_compat; [assumption|discriminate].
Qed.

Lemma upload_round_returns self i st :
  (0 <= delay (PushAnimation.animator self))%Q ->
  (PushAnimation.loading_line self
     ("Uploading commit " +:+ str_of_int (i + 1) +:+ "/"
         +:+ str_of_int (PushAnimation.commits self)) 3 CYAN 0.3 ;;
   write "  " ;;
   for_each (range 3) (fun j =>
     write (GREEN +:+ Glyph.ARROW_RIGHT +:+ END) ;;
     flush ;;
     sleep (delay (PushAnimation.animator self) / 2)%Q) ;;
   print EmptyString) st
  = (upload_round (PushAnimation.animator self) (PushAnimation.commits self) i,
     Return tt, st).
Proof.
  intros Hdelay. unfold upload_round.
  eapply bind_seq; [apply loading_line_trace; discriminate|].
  eapply bind_seq; [reflexivity|].
  eapply bind_seq; [|reflexivity].
  rewrite (for_each_returns (range 3) _
             (fun _ => slow_arrow_events (PushAnimation.animator self)) st).
  - change (range 3) with [0; 1; 2]. cbn [flat_map].
    rewrite app_nil_r. reflexivity.
  - intros j _.
    rewrite (bind_returns _ _ st _ tt st) by reflexivity.
    rewrite (bind_returns _ _ st _ tt st) by reflexivity.
    rewrite (sleep_returns _ st (Qle_div_2 _ Hdelay)). reflexivity.
Qed.

Lemma is_upload_line_upload i n :
  is_upload_line
    (Out (CYAN +:+ ("Uploading commit " +:+ str_of_int (i + 1) +:+ "/"
                                        +:+ str_of_int n) +:+ END)) = true.
Proof.
  change (CYAN +:+ ("Uploading commit " +:+ str_of_int (i + 1) +:+ "/"
                                        +:+ str_of_int n) +:+ END)
    with ((CYAN +:+ "Uploading commit ")
            +:+ ((str_of_int (i + 1) +:+ "/" +:+ str_of_int n) +:+ END)).
  apply prefix_append.
Qed.

Lemma count_upload_rounds a n l :
  length (List.filter is_upload_line (flat_map (upload_round a n) l))
  = length l.
Proof.
  induction l as [|i l IH]; [reflexivity|].
  cbn [flat_map]. rewrite List.filter_app, length_app, IH.
  unfold upload_round, loading_events. cbn [app List.filter].
  rewrite is_upload_line_upload.
  change (range 3) with [0; 1; 2]. reflexivity.
Qed.

Lemma filter_file_lines (files : list string) :
  List.filter is_upload_line
    (flat_map (fun file =>
                 loading_events ("  " +:+ Glyph.BULLET +:+ " " +:+ file)
                                2 CYAN 0.3) files) = [].
Proof.
  induction files as [|f l IH]; [reflexivity|].
  cbn [flat_map]. rewrite List.filter_app, IH. reflexivity.
Qed.

Lemma animate_trace self st :
  (0 <= delay (PushAnimation.animator self))%Q ->
  PushAnimation.animate self st = (animate_events self, Return tt, st).
Proof.
  intros Hdelay. unfold PushAnimation.animate, animate_events.
  repeat first
    [ eapply bind_seq;
      [ first [ apply loading_line_trace; discriminate
              | apply sleep_returns; discriminate
              | apply progress_bar_trace; [lia | assumption | reflexivity] ] | ]
    | eapply bind_seq;
      [ apply for_each_returns; intros file _;
        apply loading_line_trace; discriminate | ]
    | eapply bind_seq;
      [ apply (for_each_returns _ _
                 (upload_round (PushAnimation.animator self)
                               (PushAnimation.commits self)));
        intros i _; apply upload_round_returns; assumption | ] ].
  reflexivity.
Qed.

Lemma filter_loading_events text dots color pause :
  is_upload_line (Out (color +:+ text +:+ END)) = false ->
  is_upload_line (Out (color +:+ "." +:+ END)) = false ->
  List.filter is_upload_line (loading_events text dots color pause) = [].
Proof.
  intros Htext Hdot. unfold loading_events.
  cbn [app List.filter]. rewrite Htext. cbn [List.filter].
  rewrite List.filter_app.
  induction (range dots) as [|i l IH]; [reflexivity|].
  cbn [flat_map app List.filter]. rewrite Hdot. exact IH.
Qed.

Lemma filter_frame_events a steps description l :
  is_upload_line (Out (CR +:+ CYAN +:+ description)) = false ->
  List.filter is_upload_line (flat_map (frame_events a steps description) l)
  = [].
Proof.
  intros _. induction l as [|i l IH]; [reflexivity|].
  cbn [flat_map]. rewrite List.filter_app, IH. reflexivity.
Qed.

Lemma animate_upload_count self :
  length (List.filter is_upload_line (animate_events self))
  = Z.to_nat (PushAnimation.commits self).
Proof.
  unfold animate_events.
  rewrite !List.filter_app, !length_app.
  rewrite count_upload_rounds, length_range.
  rewrite filter_file_lines.
  rewrite !filter_frame_events by reflexivity.
  rewrite !filter_loading_events by reflexivity.
  assert (Hlast : forall s,
             List.filter is_upload_line [printed ("  " +:+ s)] = [])
    by reflexivity.
  assert (Hnl : List.filter is_upload_line [Out NL] = []) by reflexivity.
  rewrite Hlast, !Hnl. cbn [List.filter is_upload_line length]. lia.
Qed.

(** X20.  With an animator whose delay is not negative,
    [PushAnimation.animate] returns and leaves the state alone.  Among
    what it writes there is one line announcing an upload per commit
    (none when the number of commits is not positive), whatever the
    files and the message are, and the last line written names the
    remote and the branch. *)
Theorem animate_announces_each_commit :
  forall (self : PushAnimation.t) (st : State),
    (0 <= delay (PushAnimation.animator self))%Q ->
    exists t : list event,
      PushAnimation.animate self st = (t, Return tt, st)
      /\ length (List.filter is_upload_line t)
         = Z.to_nat (PushAnimation.commits self)
      /\ last t
         = Some (printed ("  " +:+ Glyph.ARROW_RIGHT +:+ " " +:+ BLUE
                               +:+ PushAnimation.remote self +:+ "/"
                               +:+ PushAnimation.branch self +:+ END)).
Proof.
  intros self st Hdelay. exists (animate_events self).
  split; [apply animate_trace; assumption|]. split.
  - apply animate_upload_count.
  - unfold animate_events.
    rewrite !app_assoc. apply last_snoc.
Qed.

Lemma animate_announces_each_commit_witness :
  (0 <= delay {| speed := 1; delay := (1 # 2) / 1 |})%Q
  /\ exists t : list event,
       PushAnimation.animate
         {| PushAnimation.commits := 3; PushAnimation.remote := "origin";
            PushAnimation.branch := "main";
            PushAnimation.files := ["main.py"; "README.md"];
            PushAnimation.message := "Update project files";
            PushAnimation.animator :=
              {| speed := 1; delay := (1 # 2) / 1 |} |}
         (sample_state [])
       = (t, Return tt, sample_state [])
       /\ length (List.filter is_upload_line t) = 3%nat
       /\ last t
          = Some (printed ("  " +:+ Glyph.ARROW_RIGHT +:+ " " +:+ BLUE
                                +:+ "origin" +:+ "/" +:+ "main" +:+ END)).
Proof.
  assert (H : (0 <= delay {| speed := 1; delay := (1 # 2) / 1 |})%Q)
    by discriminate.
  split; [exact H|].
  exact (animate_announces_each_commit
           {| PushAnimation.commits := 3; PushAnimation.remote := "origin";
              PushAnimation.branch := "main";
              PushAnimation.files := ["main.py"; "README.md"];
              PushAnimation.message := "Update project files";
              PushAnimation.animator :=
                {| speed := 1; delay := (1 # 2) / 1 |} |}
           (sample_state []) H).
Defined.




